(** * Nonprofit partner finder: geographic tiering and partnership ranking

  A shallow embedding of the scoring and tiering code of the repository:

  - [src/models/nonprofit.py]         (module [Models])
  - [src/analyzers/mission_alignment.py] (module [MissionAlignmentAnalyzer])
  - [src/core/ranking_engine.py]      (module [RankingEngine])
  - [api/final_search.py]             (module [FinalSearch])

  Python floats are modelled by exact rationals ([Q]); rounding is outside
  the model.  A sum of weights that is exactly 1 in [Q] can be
  0.9999999999999999 in binary64, and two sums of the same terms taken in
  another order can differ in the last place: of such sums the properties
  state bounds, comparisons and the equality of values computed by the same
  operations, which rounding keeps.  The infinities and not-a-number are
  modelled where the code produces them, in the division of
  [compare_nonprofits].  Python objects that the ranking pass mutates in place are
  modelled by a store indexed by object references.  Calls that leave the
  repository (the sentence-embedding model, the registry, number formatting)
  are parameters of the sections that use them.

  The modules [Stated] and [StatedSearch] hold the statements the
  specification makes in its own words, and sample data; the properties
  follow them. *)

From Stdlib Require Import List String Ascii Bool Arith ZArith QArith Qminmax.
From Stdlib Require Import Lia Lqa Permutation Sorted.
Import ListNotations.

Set Implicit Arguments.
Local Open Scope Q_scope.

(** ** Python built-ins used by the code *)

Module Py.

(** [a < b] on floats. *)
Definition Qlt_bool (a b : Q) : bool := negb (Qle_bool b a).

(** [a > b] on floats. *)
Definition Qgt_bool (a b : Q) : bool := Qlt_bool b a.

(** [min(a, b)]: the second argument only when it is strictly smaller. *)
Definition min (a b : Q) : Q := if Qlt_bool b a then b else a.

(** [max(a, b)]: the second argument only when it is strictly larger. *)
Definition max (a b : Q) : Q := if Qlt_bool a b then b else a.

(** Exceptions the modelled code can raise. *)
Inductive exn : Type :=
| ZeroDivisionError
| TypeError
| Exception.

Inductive result (A : Type) : Type :=
| Ok (a : A)
| Raise (e : exn).
Arguments Ok {A} a.
Arguments Raise {A} e.

(** [str.lower()] on ASCII text: the letters [A]-[Z] move to [a]-[z]. *)
Definition lower_ascii (c : ascii) : ascii :=
  let n := nat_of_ascii c in
  if ((65 <=? n) && (n <=? 90))%nat then ascii_of_nat (n + 32) else c.

Fixpoint lower (s : string) : string :=
  match s with
  | EmptyString => EmptyString
  | String c r => String (lower_ascii c) (lower r)
  end.

(** Truth value of a string: non-empty. *)
Definition truthy (s : string) : bool :=
  match s with EmptyString => false | _ => true end.

(** [x in xs] for a list of strings. *)
Definition str_in (x : string) (xs : list string) : bool :=
  existsb (String.eqb x) xs.

(** [sub in s]: substring test. *)
Fixpoint contains (sub s : string) : bool :=
  if String.prefix sub s then true
  else match s with
       | EmptyString => false
       | String _ r => contains sub r
       end.

(** [sep.join(parts)]. *)
Fixpoint join (sep : string) (parts : list string) : string :=
  match parts with
  | [] => EmptyString
  | [p] => p
  | p :: rest => (p ++ sep ++ join sep rest)%string
  end.

(** [xs[-n:]]: the last [n] elements (all of them when there are fewer). *)
Definition last_n (A : Type) (n : nat) (xs : list A) : list A :=
  skipn (List.length xs - n) xs.

(** [xs.sort(key=key, reverse=True)] and [sorted(xs, key=key, reverse=True)]:
    descending by key, and stable: elements with equal keys keep the order
    they had.  The element inserted goes in front of the first element whose
    key is not larger than its own. *)
Section SortDesc.
Variable A : Type.
Variable key : A -> Q.

Fixpoint insert_desc (x : A) (l : list A) : list A :=
  match l with
  | [] => [x]
  | y :: r =>
      if Qle_bool (key y) (key x) then x :: y :: r
      else y :: insert_desc x r
  end.

Fixpoint sort_desc (l : list A) : list A :=
  match l with
  | [] => []
  | x :: r => insert_desc x (sort_desc r)
  end.

(** Descending order of the keys: every element is at least every later one. *)
Definition descending : list A -> Prop :=
  StronglySorted (fun x y => key y <= key x).
End SortDesc.

(** [enumerate(xs, start)]. *)
Fixpoint enumerate (A : Type) (start : nat) (xs : list A) : list (nat * A) :=
  match xs with
  | [] => []
  | x :: r => (start, x) :: enumerate (S start) r
  end.

(** [sum(xs)] on floats. *)
Definition sum (xs : list Q) : Q := fold_left Qplus xs 0.

(** The line feed character, as a string. *)
Definition newline : string := String (ascii_of_nat 10) EmptyString.

End Py.

(** ** src/models/nonprofit.py

    The dataclasses keep the fields the scoring code reads or writes; the
    address, contact, status and provenance fields play no part in it. *)

Module Models.

Record FinancialData : Type := {
  year : Z;
  total_revenue : Q;
  total_expenses : Q;
  total_assets : Q;
  total_liabilities : Q;
  net_assets : Q;
  program_expenses : Q;
  administrative_expenses : Q;
  fundraising_expenses : Q
}.

Definition program_expense_ratio (f : FinancialData) : Q :=
  if Py.Qgt_bool (total_expenses f) 0
  then program_expenses f / total_expenses f
  else 0.

Definition overhead_ratio (f : FinancialData) : Q :=
  if Py.Qgt_bool (total_expenses f) 0
  then (administrative_expenses f + fundraising_expenses f) / total_expenses f
  else 0.

Record SocialMediaPresence : Type := {
  platform : string;
  handle : string;
  followers : Z;
  engagement_rate : Q
}.

Record MissionAlignment : Type := {
  score : Q;
  matched_keywords : list string;
  service_overlap : list (string * Q);
  explanation : string;
  confidence : Q
}.

Record PartnershipROI : Type := {
  estimated_value : Q;
  impact_multiplier : Q;
  cost_savings : Q;
  reach_expansion : Z;
  roi_explanation : string
}.

Record Nonprofit : Type := {
  ein : string;
  name : string;
  mission_statement : string;
  website : option string;
  financial_history : list FinancialData;
  social_media : list SocialMediaPresence;
  programs : list string;
  leadership : list string;   (* the [title] of each leader, [''] if absent *)
  mission_alignment : option MissionAlignment;
  partnership_roi : option PartnershipROI;
  overall_score : option Q;
  ranking : option nat;
  data_quality_score : Q
}.

(** Attribute assignments on a [Nonprofit] object. *)
Definition set_mission_alignment (n : Nonprofit) (m : MissionAlignment) :=
  {| ein := ein n; name := name n; mission_statement := mission_statement n;
     website := website n; financial_history := financial_history n;
     social_media := social_media n; programs := programs n;
     leadership := leadership n; mission_alignment := Some m;
     partnership_roi := partnership_roi n; overall_score := overall_score n;
     ranking := ranking n; data_quality_score := data_quality_score n |}.

Definition set_partnership_roi (n : Nonprofit) (r : PartnershipROI) :=
  {| ein := ein n; name := name n; mission_statement := mission_statement n;
     website := website n; financial_history := financial_history n;
     social_media := social_media n; programs := programs n;
     leadership := leadership n; mission_alignment := mission_alignment n;
     partnership_roi := Some r; overall_score := overall_score n;
     ranking := ranking n; data_quality_score := data_quality_score n |}.

Definition set_overall_score (n : Nonprofit) (s : Q) :=
  {| ein := ein n; name := name n; mission_statement := mission_statement n;
     website := website n; financial_history := financial_history n;
     social_media := social_media n; programs := programs n;
     leadership := leadership n; mission_alignment := mission_alignment n;
     partnership_roi := partnership_roi n; overall_score := Some s;
     ranking := ranking n; data_quality_score := data_quality_score n |}.

Definition set_ranking (n : Nonprofit) (k : nat) :=
  {| ein := ein n; name := name n; mission_statement := mission_statement n;
     website := website n; financial_history := financial_history n;
     social_media := social_media n; programs := programs n;
     leadership := leadership n; mission_alignment := mission_alignment n;
     partnership_roi := partnership_roi n; overall_score := overall_score n;
     ranking := Some k; data_quality_score := data_quality_score n |}.

(** [max(history, key=lambda x: x.year)]: the first entry of maximal year. *)
Fixpoint max_by_year (best : FinancialData) (l : list FinancialData)
  : FinancialData :=
  match l with
  | [] => best
  | f :: r => max_by_year (if (year best <? year f)%Z then f else best) r
  end.

Definition get_latest_financials (n : Nonprofit) : option FinancialData :=
  match financial_history n with
  | [] => None
  | f :: r => Some (max_by_year f r)
  end.

Definition calculate_stability_score (n : Nonprofit) : Q :=
  if (List.length (financial_history n) <? 2)%nat then 0.5
  else
    match get_latest_financials n with
    | None => 0.5
    | Some latest =>
        let score := 0 in
        let score :=
          if Py.Qgt_bool (total_revenue latest) 0 then score + 0.3 else score in
        let score :=
          if Py.Qgt_bool (total_liabilities latest) 0 then
            let ratio := total_assets latest / total_liabilities latest in
            if Py.Qgt_bool ratio 2 then score + 0.3
            else if Py.Qgt_bool ratio 1 then score + 0.2
            else score
          else score in
        let score := score + program_expense_ratio latest * 0.4 in
        Py.min score 1
    end.

End Models.

(** ** src/analyzers/mission_alignment.py *)

Module MissionAlignmentAnalyzer.
Import Models.

(** The YAML configuration ([config/red_cross_mission.yaml]) as loaded. *)
Record ServiceCategory : Type := {
  subcategories : list string;
  weight : Q
}.

Record ScoringWeights : Type := {
  w_mission_alignment : Q;
  w_service_overlap : Q;
  w_geographic_coverage : Q;
  w_organizational_capacity : Q;
  w_partnership_history : Q
}.

Record Config : Type := {
  primary : list string;
  secondary : list string;
  tertiary : list string;
  service_categories : list (string * ServiceCategory);
  scoring_weights : ScoringWeights
}.

(** [np.mean(xs)].  On an empty list numpy answers [nan]; here the quotient
    by zero is [0]. *)
Definition mean (xs : list Q) : Q := Py.sum xs / inject_Z (Z.of_nat (List.length xs)).

(** [s.replace('_', ' ')]. *)
Fixpoint replace_underscore (s : string) : string :=
  match s with
  | EmptyString => EmptyString
  | String c r =>
      String (if Ascii.eqb c "_"%char then " "%char else c) (replace_underscore r)
  end.

Section Analyzer.

(** The loaded configuration. *)
Variable config : Config.

(** The sentence-embedding model: for a text, its cosine similarity with each
    mission keyword ([cosine_similarity(encode([text]), keyword_embeddings)[0]]). *)
Variable keyword_similarities : string -> list Q.

(** Float formatting: the format specs [.1%] and [.0%]. *)
Variable fmt_pct1 : Q -> string.
Variable fmt_pct0 : Q -> string.

Definition _compile_nonprofit_text (nonprofit : Nonprofit) : string :=
  let text_parts :=
    [mission_statement nonprofit; Py.join " " (programs nonprofit); name nonprofit]
      ++ leadership nonprofit in
  Py.join " " (filter Py.truthy text_parts).

(** One of the three keyword loops of [_keyword_matching]. *)
Fixpoint match_keywords (w : Q) (text_lower : string) (keywords : list string)
  (acc : list string * Q) : list string * Q :=
  match keywords with
  | [] => acc
  | keyword :: rest =>
      match_keywords w text_lower rest
        (if Py.contains (Py.lower keyword) text_lower
         then (fst acc ++ [keyword], snd acc + w)
         else acc)
  end.

Definition _keyword_matching (text : string) : Q * list string :=
  let text_lower := Py.lower text in
  let acc := ([], 0) in
  let acc := match_keywords 1 text_lower (primary config) acc in
  let acc := match_keywords 0.7 text_lower (secondary config) acc in
  let acc := match_keywords 0.4 text_lower (tertiary config) acc in
  let max_possible := inject_Z (Z.of_nat (List.length (primary config))) * 1 in
  let normalized_score :=
    if Py.Qgt_bool max_possible 0 then Py.min 1 (snd acc / max_possible) else 0 in
  (normalized_score, fst acc).

Definition _semantic_similarity (text : string) : Q :=
  if negb (Py.truthy text) then 0
  else
    let sims := keyword_similarities text in
    (* np.sort(...)[-5:]: ascending order, last five *)
    let top_similarities := Py.last_n 5 (rev (Py.sort_desc (fun x => x) sims)) in
    let avg_similarity := mean top_similarities in
    let scaled_score := (avg_similarity - 0.2) / 0.6 in
    Py.max 0 (Py.min 1 scaled_score).

Definition category_overlap (nonprofit_text : string) (details : ServiceCategory) : Q :=
  let matches :=
    List.length
      (filter (fun sub => Py.contains (replace_underscore sub) nonprofit_text)
              (subcategories details)) in
  let score :=
    if (0 <? List.length (subcategories details))%nat
    then inject_Z (Z.of_nat matches) / inject_Z (Z.of_nat (List.length (subcategories details)))
    else 0 in
  score * weight details.

Definition _service_category_overlap (nonprofit : Nonprofit) : list (string * Q) :=
  let nonprofit_text := Py.lower (_compile_nonprofit_text nonprofit) in
  map (fun cd => (fst cd, category_overlap nonprofit_text (snd cd)))
      (service_categories config).

Definition _geographic_alignment (nonprofit : Nonprofit) : Q := 0.7.

Definition _capacity_score (nonprofit : Nonprofit) : Q :=
  let score := 0.5 in
  let score :=
    match get_latest_financials nonprofit with
    | Some latest_financials =>
        let score :=
          if Py.Qgt_bool (total_revenue latest_financials) 1000000 then score + 0.2
          else if Py.Qgt_bool (total_revenue latest_financials) 100000 then score + 0.1
          else score in
        if Py.Qgt_bool (program_expense_ratio latest_financials) 0.75 then score + 0.2
        else if Py.Qgt_bool (program_expense_ratio latest_financials) 0.65 then score + 0.1
        else score
    | None => score
    end in
  let score :=
    match social_media nonprofit with
    | [] => score
    | _ =>
        let active_accounts :=
          List.length (filter (fun sm => (100 <? followers sm)%Z) (social_media nonprofit)) in
        score + Py.min 0.1 (inject_Z (Z.of_nat active_accounts) * 0.02)
    end in
  Py.min 1 score.

Definition _partnership_potential (nonprofit : Nonprofit) : Q :=
  calculate_stability_score nonprofit.

(** [_calculate_confidence]: the sum of the weights of the data present, in
    the order of the code.  The weights add up to 1 in [Q]; their binary64
    sum is 0.9999999999999999. *)
Definition _calculate_confidence (nonprofit : Nonprofit) : Q :=
  let confidence := 0 in
  let confidence :=
    if Py.truthy (mission_statement nonprofit) then confidence + 0.3 else confidence in
  let confidence :=
    match programs nonprofit with [] => confidence | _ => confidence + 0.2 end in
  let confidence :=
    match financial_history nonprofit with [] => confidence | _ => confidence + 0.2 end in
  let confidence :=
    match website nonprofit with
    | Some w => if Py.truthy w then confidence + 0.1 else confidence
    | None => confidence
    end in
  let confidence :=
    match social_media nonprofit with [] => confidence | _ => confidence + 0.1 end in
  let confidence :=
    match leadership nonprofit with [] => confidence | _ => confidence + 0.1 end in
  Py.min 1 confidence.

Definition alignment_label (overall_score : Q) : string :=
  if Py.Qgt_bool overall_score 0.8 then "Strong"
  else if Py.Qgt_bool overall_score 0.6 then "Good"
  else if Py.Qgt_bool overall_score 0.4 then "Moderate"
  else "Limited".

(** The list [explanation_parts] that [_generate_explanation] builds. *)
Definition explanation_parts (nonprofit : Nonprofit) (keyword_score : Q)
  (semantic_score : Q) (service_overlap : list (string * Q))
  (matched_keywords : list string) : list string :=
  let explanation_parts := [] in
  (* the score attribute the object carries when the method runs *)
  let overall_score :=
    match mission_alignment nonprofit with
    | Some m => score m
    | None => 0
    end in
  let explanation_parts :=
    explanation_parts ++
      [(alignment_label overall_score ++ " alignment with Red Cross mission ("
          ++ fmt_pct1 overall_score ++ ")")%string] in
  let explanation_parts :=
    match matched_keywords with
    | [] => explanation_parts
    | _ => explanation_parts ++
             [("Matched keywords: " ++ Py.join ", " (firstn 5 matched_keywords))%string]
    end in
  let top_services := firstn 3 (Py.sort_desc snd service_overlap) in
  let explanation_parts :=
    match top_services with
    | svc0 :: _ =>
        if Py.Qgt_bool (snd svc0) 0 then
          let service_list :=
            map (fun svc => (replace_underscore (fst svc) ++ " ("
                               ++ fmt_pct0 (snd svc) ++ ")")%string)
                (filter (fun svc => Py.Qgt_bool (snd svc) 0) top_services) in
          match service_list with
          | [] => explanation_parts
          | _ => explanation_parts ++
                   [("Service overlap in: " ++ Py.join ", " service_list)%string]
          end
        else explanation_parts
    | [] => explanation_parts
    end in
  let explanation_parts :=
    if Py.Qgt_bool semantic_score 0.7 then
      explanation_parts ++ ["Mission statement shows strong thematic alignment"%string]
    else if Py.Qgt_bool semantic_score 0.5 then
      explanation_parts ++ ["Mission statement shows moderate thematic alignment"%string]
    else explanation_parts in
  let explanation_parts :=
    match get_latest_financials nonprofit with
    | Some latest_financials =>
        if Py.Qgt_bool (program_expense_ratio latest_financials) 0.75 then
          explanation_parts ++
            [("Efficient operations ("
                ++ fmt_pct0 (program_expense_ratio latest_financials)
                ++ " to programs)")%string]
        else explanation_parts
    | None => explanation_parts
    end in
  explanation_parts.

Definition _generate_explanation (nonprofit : Nonprofit) (keyword_score : Q)
  (semantic_score : Q) (service_overlap : list (string * Q))
  (matched_keywords : list string) : string :=
  Py.join ". "
    (explanation_parts nonprofit keyword_score semantic_score service_overlap
       matched_keywords).

(** The weighted score of [analyze_alignment], before the cap at 1. *)
Definition alignment_overall_score (nonprofit : Nonprofit) : Q :=
  let nonprofit_text := _compile_nonprofit_text nonprofit in
  let semantic_score := _semantic_similarity nonprofit_text in
  let service_overlap := _service_category_overlap nonprofit in
  let weights := scoring_weights config in
  w_mission_alignment weights * semantic_score
  + w_service_overlap weights * mean (map snd service_overlap)
  + w_geographic_coverage weights * _geographic_alignment nonprofit
  + w_organizational_capacity weights * _capacity_score nonprofit
  + w_partnership_history weights * _partnership_potential nonprofit.

(** [analyze_alignment].  The value of [_program_alignment] is computed and
    never used, so it is left out. *)
Definition analyze_alignment (nonprofit : Nonprofit) : MissionAlignment :=
  let nonprofit_text := _compile_nonprofit_text nonprofit in
  let '(keyword_score, matched_keywords) := _keyword_matching nonprofit_text in
  let semantic_score := _semantic_similarity nonprofit_text in
  let service_overlap := _service_category_overlap nonprofit in
  let overall_score := alignment_overall_score nonprofit in
  let explanation :=
    _generate_explanation nonprofit keyword_score semantic_score
      service_overlap matched_keywords in
  let confidence := _calculate_confidence nonprofit in
  {| score := Py.min 1 overall_score;
     matched_keywords := matched_keywords;
     service_overlap := service_overlap;
     explanation := explanation;
     confidence := confidence |}.

End Analyzer.
End MissionAlignmentAnalyzer.

(** ** src/core/ranking_engine.py *)

Module RankingEngine.
Import Models.

Record RankingCriteria : Type := {
  mission_weight : Q;
  roi_weight : Q;
  stability_weight : Q;
  capacity_weight : Q;
  data_quality_weight : Q
}.

(** [RankingCriteria()]: the dataclass defaults. *)
Definition default_criteria : RankingCriteria :=
  {| mission_weight := 0.35;
     roi_weight := 0.25;
     stability_weight := 0.15;
     capacity_weight := 0.15;
     data_quality_weight := 0.10 |}.

(** [all(revenues[i] <= revenues[i+1] for i in range(len(revenues)-1))]. *)
Fixpoint non_decreasing (revenues : list Q) : bool :=
  match revenues with
  | a :: (b :: _) as rest => Qle_bool a b && non_decreasing rest
  | _ => true
  end.

Definition _calculate_capacity_score (nonprofit : Nonprofit) : Q :=
  let score := 0.5 in
  let score :=
    match get_latest_financials nonprofit with
    | Some latest_financials =>
        let score :=
          if Py.Qgt_bool (total_revenue latest_financials) 5000000 then score + 0.2
          else if Py.Qgt_bool (total_revenue latest_financials) 1000000 then score + 0.15
          else if Py.Qgt_bool (total_revenue latest_financials) 100000 then score + 0.1
          else score in
        let score :=
          if Py.Qgt_bool (program_expense_ratio latest_financials) 0.8 then score + 0.2
          else if Py.Qgt_bool (program_expense_ratio latest_financials) 0.7 then score + 0.1
          else score in
        if (3 <=? List.length (financial_history nonprofit))%nat then
          let revenues := map total_revenue (Py.last_n 3 (financial_history nonprofit)) in
          if non_decreasing revenues then score + 0.1 else score
        else score
    | None => score
    end in
  Py.min 1 score.

(** The objects of a ranking pass live in a store; lists hold references, so
    the same object can be listed more than once. *)
Definition ref : Type := nat.
Definition store : Type := ref -> Nonprofit.

Definition upd (h : store) (r : ref) (n : Nonprofit) : store :=
  fun r' => if Nat.eqb r' r then n else h r'.

(** The sort key [x.overall_score].  The scoring loop assigns a number to
    every listed object before the sort reads it. *)
Definition score_key (n : Nonprofit) : Q :=
  match overall_score n with
  | Some s => s
  | None => 0
  end.

Section Engine.

Variable criteria : RankingCriteria.

(** [self.mission_analyzer.analyze_alignment] and
    [self.roi_calculator.calculate_roi]; either may raise. *)
Variable mission_analyzer : Nonprofit -> Py.result MissionAlignment.
Variable roi_calculator : Nonprofit -> Py.result PartnershipROI.

(** The exception, if any, that the call [self._calculate_overall_score(nonprofit)]
    raises.  The record types every attribute; the Python object behind it may
    hold a value of another type, and arithmetic or a comparison on it raises:
    a revenue that is [None] in an older filing, which neither analyzer reads,
    makes the comparison [revenues[i] <= revenues[i+1]] of
    [_calculate_capacity_score] raise [TypeError]. *)
Variable overall_score_fault : Nonprofit -> option Py.exn.

Definition scores_mission (nonprofit : Nonprofit) : Q :=
  match mission_alignment nonprofit with
  | Some m => score m
  | None => 0
  end.

Definition scores_roi (nonprofit : Nonprofit) : Q :=
  match partnership_roi nonprofit with
  | Some r =>
      let roi_ratio := estimated_value r / 100000 in
      Py.min 1 roi_ratio
  | None => 0
  end.

Definition _calculate_overall_score (nonprofit : Nonprofit) : Q :=
  let mission := scores_mission nonprofit in
  let roi := scores_roi nonprofit in
  let stability := calculate_stability_score nonprofit in
  let capacity := _calculate_capacity_score nonprofit in
  let data_quality := data_quality_score nonprofit in
  mission * mission_weight criteria
  + roi * roi_weight criteria
  + stability * stability_weight criteria
  + capacity * capacity_weight criteria
  + data_quality * data_quality_weight criteria.

(** The call [self._calculate_overall_score(nonprofit)] of the scoring loop:
    the weighted sum, unless the evaluation raises. *)
Definition overall_score_call (nonprofit : Nonprofit) : Py.result Q :=
  match overall_score_fault nonprofit with
  | Some e => Py.Raise e
  | None => Py.Ok (_calculate_overall_score nonprofit)
  end.

(** The [try] block of the scoring loop for the object behind [r]: the store
    as the block leaves it, and the exception that ended the block, if one
    did.  The three calls stand inside the block, in this order; an
    assignment is made only when the call on its right returned. *)
Definition score_try (h : store) (r : ref) : store * option Py.exn :=
  match mission_analyzer (h r) with
  | Py.Raise e => (h, Some e)
  | Py.Ok m =>
      let h := upd h r (set_mission_alignment (h r) m) in
      match roi_calculator (h r) with
      | Py.Raise e => (h, Some e)
      | Py.Ok roi =>
          let h := upd h r (set_partnership_roi (h r) roi) in
          match overall_score_call (h r) with
          | Py.Raise e => (h, Some e)
          | Py.Ok overall_score =>
              (upd h r (set_overall_score (h r) overall_score), None)
          end
      end
  end.

(** The body of the scoring loop: the [try] block and its [except] handler,
    which assigns the score 0 whatever the exception is. *)
Definition score_one (h : store) (r : ref) : store :=
  match score_try h r with
  | (h, Some _) => upd h r (set_overall_score (h r) 0)
  | (h, None) => h
  end.

(** The scoring loop: both branches append the object to [scored_nonprofits]. *)
Fixpoint score_loop (h : store) (nonprofits : list ref) (scored_nonprofits : list ref)
  : store * list ref :=
  match nonprofits with
  | [] => (h, scored_nonprofits)
  | r :: rest => score_loop (score_one h r) rest (scored_nonprofits ++ [r])
  end.

(** [for rank, nonprofit in enumerate(scored_nonprofits, 1): nonprofit.ranking = rank]. *)
Fixpoint assign_rankings (h : store) (ranked : list (nat * ref)) : store :=
  match ranked with
  | [] => h
  | (rank, r) :: rest => assign_rankings (upd h r (set_ranking (h r) rank)) rest
  end.

Definition rank_nonprofits (h : store) (nonprofits : list ref) : store * list ref :=
  match nonprofits with
  | [] => (h, [])
  | _ =>
      let '(h, scored_nonprofits) := score_loop h nonprofits [] in
      let scored_nonprofits :=
        Py.sort_desc (fun r => score_key (h r)) scored_nonprofits in
      let h := assign_rankings h (Py.enumerate 1 scored_nonprofits) in
      (h, scored_nonprofits)
  end.

(** Scoring the object raises: the mission analysis does, or the ROI
    calculation on the object that carries the fresh analysis does, or the
    computation of the overall score on the object that carries both fresh
    results does. *)
Definition scoring_raises (n : Nonprofit) : Prop :=
  (exists e, mission_analyzer n = Py.Raise e)
  \/ (exists m e, mission_analyzer n = Py.Ok m
                  /\ roi_calculator (set_mission_alignment n m) = Py.Raise e)
  \/ (exists m roi e,
        mission_analyzer n = Py.Ok m
        /\ roi_calculator (set_mission_alignment n m) = Py.Ok roi
        /\ overall_score_call
             (set_partnership_roi (set_mission_alignment n m) roi) = Py.Raise e).

(** Number formatting: the format specs [.1%], [,.0f], [,] and [.0f], and
    [str] of a rank or a length. *)
Variable fmt_pct1 : Q -> string.
Variable fmt_thousands0 : Q -> string.
Variable fmt_thousands : Z -> string.
Variable fmt_f0 : Q -> string.
Variable str_nat : nat -> string.

Definition str_ranking (k : option nat) : string :=
  match k with
  | Some n => str_nat n
  | None => "None"
  end.

(** The list [explanation] that [explain_ranking] builds; formatting an
    [overall_score] that is [None] raises. *)
Definition explanation_lines (nonprofit : Nonprofit) : Py.result (list string) :=
  match overall_score nonprofit with
  | None => Py.Raise Py.TypeError
  | Some overall =>
      let explanation :=
        [("**" ++ name nonprofit ++ "** - Rank #" ++ str_ranking (ranking nonprofit))%string;
         ("Overall Score: " ++ fmt_pct1 overall)%string;
         ""%string] in
      let explanation :=
        match mission_alignment nonprofit with
        | Some m =>
            explanation ++ ["**Mission Alignment**"%string; Models.explanation m; ""%string]
        | None => explanation
        end in
      let explanation :=
        match partnership_roi nonprofit with
        | Some r =>
            explanation ++ ["**Partnership ROI**"%string; roi_explanation r; ""%string]
        | None => explanation
        end in
      let explanation := explanation ++ ["**Financial Stability**"%string] in
      let stability_score := calculate_stability_score nonprofit in
      let explanation :=
        explanation ++
          [if Py.Qgt_bool stability_score 0.7 then
             ("Strong financial stability (" ++ fmt_pct1 stability_score ++ ")")%string
           else if Py.Qgt_bool stability_score 0.5 then
             ("Moderate financial stability (" ++ fmt_pct1 stability_score ++ ")")%string
           else
             ("Limited financial data available (" ++ fmt_pct1 stability_score ++ ")")%string] in
      let explanation :=
        match get_latest_financials nonprofit with
        | Some latest_financials =>
            explanation ++
              [("- Revenue: $" ++ fmt_thousands0 (total_revenue latest_financials))%string;
               ("- Program efficiency: "
                  ++ fmt_pct1 (program_expense_ratio latest_financials))%string]
        | None => explanation
        end in
      let explanation := explanation ++ [""%string] in
      let explanation := explanation ++ ["**Organizational Capacity**"%string] in
      let capacity_score := _calculate_capacity_score nonprofit in
      let explanation :=
        explanation ++
          [if Py.Qgt_bool capacity_score 0.7 then
             ("Strong organizational capacity (" ++ fmt_pct1 capacity_score ++ ")")%string
           else if Py.Qgt_bool capacity_score 0.5 then
             ("Moderate organizational capacity (" ++ fmt_pct1 capacity_score ++ ")")%string
           else
             ("Developing organizational capacity (" ++ fmt_pct1 capacity_score ++ ")")%string] in
      let explanation :=
        match programs nonprofit with
        | [] => explanation
        | _ => explanation ++
                 [("- " ++ str_nat (List.length (programs nonprofit))
                     ++ " active programs")%string]
        end in
      let explanation :=
        match social_media nonprofit with
        | [] => explanation
        | _ =>
            let total_reach := fold_left Z.add (map followers (social_media nonprofit)) 0%Z in
            explanation ++
              [("- Social media reach: " ++ fmt_thousands total_reach ++ " followers")%string]
        end in
      let explanation := explanation ++ [""%string] in
      let explanation :=
        if Py.Qlt_bool (data_quality_score nonprofit) 0.5 then
          explanation ++
            ["*Note: Limited data available may affect ranking accuracy*"%string]
        else explanation in
      Py.Ok explanation
  end.

Definition explain_ranking (nonprofit : Nonprofit) : Py.result string :=
  match explanation_lines nonprofit with
  | Py.Ok explanation => Py.Ok (Py.join Py.newline explanation)
  | Py.Raise e => Py.Raise e
  end.

Record Side : Type := {
  side_name : string;
  side_rank : option nat;
  side_overall_score : option Q;
  side_mission_alignment : Q;
  side_roi_potential : Q;
  side_stability : Q;
  side_programs : nat
}.

Record Comparison : Type := {
  nonprofit1 : Side;
  nonprofit2 : Side;
  recommendation : string
}.

Definition side_of (nonprofit : Nonprofit) : Side :=
  {| side_name := name nonprofit;
     side_rank := ranking nonprofit;
     side_overall_score := overall_score nonprofit;
     side_mission_alignment :=
       match mission_alignment nonprofit with Some m => score m | None => 0 end;
     side_roi_potential :=
       match partnership_roi nonprofit with Some r => estimated_value r | None => 0 end;
     side_stability := calculate_stability_score nonprofit;
     side_programs := List.length (programs nonprofit) |}.

(** How a number is held.  The [0] that the [except] handler assigns is a
    Python [int], and arithmetic on Python numbers gives Python numbers; a
    score computed through [np.mean] (the mission analysis) is a
    [numpy.float64], and arithmetic with one operand of that kind gives a
    [numpy.float64].  The record keeps the value of [overall_score]; its kind
    is passed beside the object. *)
Inductive number_kind : Type :=
| python_number
| numpy_float64.

Definition arith_kind (k1 k2 : number_kind) : number_kind :=
  match k1, k2 with
  | python_number, python_number => python_number
  | _, _ => numpy_float64
  end.

(** The value of a float expression: a number, an infinity or not-a-number. *)
Inductive float_value : Type :=
| finite (q : Q)
| inf
| neg_inf
| nan.

(** [a / b].  With a zero divisor, Python numbers raise; when an operand is a
    [numpy.float64] the quotient is an infinity of the sign of [a], or
    not-a-number for [0 / 0] (numpy warns and returns). *)
Definition div (ka : number_kind) (a : Q) (kb : number_kind) (b : Q)
  : Py.result float_value :=
  if Qeq_bool b 0 then
    match arith_kind ka kb with
    | python_number => Py.Raise Py.ZeroDivisionError
    | numpy_float64 =>
        Py.Ok (if Py.Qgt_bool a 0 then inf
               else if Py.Qlt_bool a 0 then neg_inf
               else nan)
    end
  else Py.Ok (finite (a / b)).

(** [x * 100]. *)
Definition times_100 (x : float_value) : float_value :=
  match x with
  | finite q => finite (q * 100)
  | other => other
  end.

(** [f"{diff:.0f}"]. *)
Definition format_f0 (diff : float_value) : string :=
  match diff with
  | finite q => fmt_f0 q
  | inf => "inf"
  | neg_inf => "-inf"
  | nan => "nan"
  end.

(** [compare_nonprofits]; comparing an [overall_score] that is [None] raises.
    [k1] and [k2] are the kinds of the two overall scores. *)
Definition compare_nonprofits (n1 : Nonprofit) (k1 : number_kind)
  (n2 : Nonprofit) (k2 : number_kind) : Py.result Comparison :=
  let comparison r :=
    {| nonprofit1 := side_of n1; nonprofit2 := side_of n2; recommendation := r |} in
  match overall_score n1, overall_score n2 with
  | Some s1, Some s2 =>
      if Py.Qgt_bool s1 s2 then
        match div (arith_kind k1 k2) (s1 - s2) k2 s2 with
        | Py.Raise e => Py.Raise e
        | Py.Ok q =>
            let diff := times_100 q in
            Py.Ok (comparison
                     (name n1 ++ " scores " ++ format_f0 diff ++ "% higher overall")%string)
        end
      else
        match div (arith_kind k2 k1) (s2 - s1) k1 s1 with
        | Py.Raise e => Py.Raise e
        | Py.Ok q =>
            let diff := times_100 q in
            Py.Ok (comparison
                     (name n2 ++ " scores " ++ format_f0 diff ++ "% higher overall")%string)
        end
  | _, _ => Py.Raise Py.TypeError
  end.

End Engine.
End RankingEngine.

(** ** api/final_search.py *)

Module FinalSearch.

(** A location found in the static ZIP table ([found] is [True]). *)
Record Location : Type := {
  loc_city : string;
  loc_county : string;
  loc_state : string
}.

(** One entry of the registry response: [str(org['ein'])], [org['name']],
    [org.get('city', '')], [org.get('state', '')], [org.get('ntee_code')],
    [org.get('score', 0)]. *)
Record Organization : Type := {
  org_ein : string;
  org_name : string;
  org_city : string;
  org_state : string;
  org_ntee_code : option string;
  org_score : Q
}.

(** The [org_info] dict of a candidate that met one of the three tests. *)
Record OrgInfo : Type := {
  ein : string;
  name : string;
  city : string;
  state : string;
  ntee_code : option string;
  score : Q;
  distance : string;
  priority : nat
}.

Definition org_info (org : Organization) (distance : string) (priority : nat) : OrgInfo :=
  {| ein := org_ein org; name := org_name org; city := org_city org;
     state := org_state org; ntee_code := org_ntee_code org; score := org_score org;
     distance := distance; priority := priority |}.

(** The three lists the filter loop fills. *)
Record Tiers : Type := {
  exact_city : list OrgInfo;
  same_county : list OrgInfo;
  same_state : list OrgInfo
}.

Section SearchByLocation.

Variable location : Location.

(** [get_cities_in_county(county, state)], read off the static ZIP table. *)
Variable nearby_cities : list string.

(** The body of the filter loop. *)
Definition filter_step (t : Tiers) (org : Organization) : Tiers :=
  let city := loc_city location in
  let county := loc_county location in
  let state := loc_state location in
  if Py.truthy city && String.eqb (Py.lower city) (Py.lower (org_city org)) then
    {| exact_city := exact_city t ++ [org_info org ("In " ++ city)%string 1];
       same_county := same_county t;
       same_state := same_state t |}
  else if Py.str_in (org_city org) nearby_cities then
    {| exact_city := exact_city t;
       same_county := same_county t ++ [org_info org ("In " ++ county)%string 2];
       same_state := same_state t |}
  else if String.eqb (org_state org) state then
    {| exact_city := exact_city t;
       same_county := same_county t;
       same_state := same_state t ++ [org_info org ("In " ++ state)%string 3] |}
  else t.

(** The filter loop over [data.get('organizations', [])]. *)
Definition filter_by_location (organizations : list Organization) : Tiers :=
  fold_left filter_step organizations
    {| exact_city := []; same_county := []; same_state := [] |}.

(** The three [sort(key=lambda x: x['score'], reverse=True)] calls. *)
Definition sort_tiers (t : Tiers) : Tiers :=
  {| exact_city := Py.sort_desc score (exact_city t);
     same_county := Py.sort_desc score (same_county t);
     same_state := Py.sort_desc score (same_state t) |}.

Record Counts : Type := {
  count_city : nat;
  count_county : nat;
  count_state : nat;
  count_total : nat
}.

Record Response : Type := {
  counts : Counts;
  results : list OrgInfo
}.

(** [search_by_location], from the registry response on; the [query],
    [location] and [message] entries of the answer are left out. *)
Definition search_by_location (organizations : list Organization) : Response :=
  let t := sort_tiers (filter_by_location organizations) in
  let all_results :=
    firstn 10 (exact_city t) ++ firstn 8 (same_county t) ++ firstn 2 (same_state t) in
  {| counts :=
       {| count_city := List.length (exact_city t);
          count_county := List.length (same_county t);
          count_state := List.length (same_state t);
          count_total := List.length organizations |};
     results := all_results |}.

End SearchByLocation.

(** The registry entry an [org_info] dict was built from. *)
Definition source (i : OrgInfo) : Organization :=
  {| org_ein := ein i; org_name := name i; org_city := city i;
     org_state := state i; org_ntee_code := ntee_code i; org_score := score i |}.

(** The number of results that carry a given [priority]. *)
Definition count_priority (p : nat) (rs : list OrgInfo) : nat :=
  List.length (filter (fun i => Nat.eqb (priority i) p) rs).

End FinalSearch.


(** ** Statements in the words of the specification, and sample data *)

Module Stated.
Import Models.

(** The three contributions to the stability score, as the specification
    words them: revenue, asset-to-liability ratio, program expense ratio. *)
Definition revenue_points (latest : FinancialData) : Q :=
  if Py.Qgt_bool (total_revenue latest) 0 then 0.3 else 0.

(** The ratio is taken only over positive liabilities; it exceeds [k] when
    the assets exceed [k] times the liabilities. *)
Definition ratio_points (latest : FinancialData) : Q :=
  if Py.Qgt_bool (total_liabilities latest) 0 then
    if Py.Qgt_bool (total_assets latest) (2 * total_liabilities latest) then 0.3
    else if Py.Qgt_bool (total_assets latest) (total_liabilities latest) then 0.2
    else 0
  else 0.

Definition program_points (latest : FinancialData) : Q :=
  program_expense_ratio latest * 0.4.

(** The score the mission-alignment narrative is labelled by: the one the
    object carries when [analyze_alignment] is called. *)
Definition carried_score (nonprofit : Nonprofit) : Q :=
  match mission_alignment nonprofit with
  | Some m => score m
  | None => 0
  end.

(** An organization with no filings at all. *)
Definition org_no_history : Nonprofit :=
  {| ein := "000000000"; name := "New Shelter"; mission_statement := "";
     website := None; financial_history := []; social_media := [];
     programs := []; leadership := []; mission_alignment := None;
     partnership_roi := None; overall_score := None; ranking := None;
     data_quality_score := 0 |}.

(** A filing of a given year with the given revenue, expenses, assets,
    liabilities and program expenses. *)
Definition filing (y : Z) (rev exp assets liab prog : Q) : FinancialData :=
  {| year := y; total_revenue := rev; total_expenses := exp;
     total_assets := assets; total_liabilities := liab;
     net_assets := assets - liab; program_expenses := prog;
     administrative_expenses := 0; fundraising_expenses := 0 |}.

(** An organization with two filings. *)
Definition org_two_years : Nonprofit :=
  {| ein := "111111111"; name := "Food Bank"; mission_statement := "disaster relief";
     website := None;
     financial_history :=
       [filing 2021 200000 100000 300000 100000 80000;
        filing 2022 250000 100000 300000 100000 80000];
     social_media := []; programs := []; leadership := [];
     mission_alignment := None; partnership_roi := None; overall_score := None;
     ranking := None; data_quality_score := 1 |}.

(** Analysis results with a given mission score and a given estimated value. *)
Definition alignment_of (s : Q) : MissionAlignment :=
  {| score := s; matched_keywords := []; service_overlap := [];
     explanation := ""; confidence := 1 |}.

Definition roi_of (v : Q) : PartnershipROI :=
  {| estimated_value := v; impact_multiplier := 1; cost_savings := 0;
     reach_expansion := 0; roi_explanation := "" |}.

(** A scored organization without filings: mission 0.9, estimated value 0,
    complete data. *)
Definition org_A : Nonprofit :=
  {| ein := "222222222"; name := "A"; mission_statement := "disaster relief";
     website := None; financial_history := []; social_media := [];
     programs := []; leadership := [];
     mission_alignment := Some (alignment_of 0.9);
     partnership_roi := Some (roi_of 0);
     overall_score := None; ranking := None; data_quality_score := 1 |}.

(** Three objects of a ranking pass, and analyzers for them: the mission
    analysis raises on an empty mission statement. *)
Definition sample_store : RankingEngine.store :=
  fun r =>
    match r with
    | O => org_no_history
    | S O => org_two_years
    | _ => org_A
    end.

Definition sample_mission_analyzer (n : Nonprofit) : Py.result MissionAlignment :=
  if Py.truthy (mission_statement n) then Py.Ok (alignment_of 0.8)
  else Py.Raise Py.Exception.

Definition sample_roi_calculator (n : Nonprofit) : Py.result PartnershipROI :=
  Py.Ok (roi_of 50000).

(** The three sample objects are well typed: computing an overall score for
    them does not raise. *)
Definition sample_overall_score_fault (n : Nonprofit) : option Py.exn := None.

Definition sample_rank (nonprofits : list RankingEngine.ref)
  : RankingEngine.store * list RankingEngine.ref :=
  RankingEngine.rank_nonprofits RankingEngine.default_criteria
    sample_mission_analyzer sample_roi_calculator sample_overall_score_fault
    sample_store nonprofits.

(** The same pass over objects whose filings hold a revenue that is [None]:
    both analyzers return, the computation of the overall score raises. *)
Definition sample_revenue_fault (n : Nonprofit) : option Py.exn :=
  match financial_history n with
  | [] => None
  | _ => Some Py.TypeError
  end.

Definition sample_rank_faulty (nonprofits : list RankingEngine.ref)
  : RankingEngine.store * list RankingEngine.ref :=
  RankingEngine.rank_nonprofits RankingEngine.default_criteria
    sample_mission_analyzer sample_roi_calculator sample_revenue_fault
    sample_store nonprofits.

(** The claim on the comparison as stated: whenever the overall score that
    divides is 0, whatever the kind of the two numbers, the comparison raises
    the division fault. *)
Definition zero_divisor_raises : Prop :=
  forall (fmt_f0 : Q -> string)
         (n1 : Nonprofit) (k1 : RankingEngine.number_kind)
         (n2 : Nonprofit) (k2 : RankingEngine.number_kind) (s1 s2 : Q),
    overall_score n1 = Some s1 ->
    overall_score n2 = Some s2 ->
    (if Py.Qgt_bool s1 s2 then s2 else s1) == 0 ->
    RankingEngine.compare_nonprofits fmt_f0 n1 k1 n2 k2
    = Py.Raise Py.ZeroDivisionError.

(** A scored organization, whose score came out of the mission analysis as a
    [numpy.float64], and one whose scoring failed, with the [int] 0. *)
Definition org_scored : Nonprofit := set_overall_score org_two_years 0.5.
Definition org_failed : Nonprofit := set_overall_score org_no_history 0.

(** A mission configuration and an embedding model that finds every
    mission keyword at similarity 0.8. *)
Definition sample_config : MissionAlignmentAnalyzer.Config :=
  {| MissionAlignmentAnalyzer.primary := ["disaster relief"; "emergency response"]%string;
     MissionAlignmentAnalyzer.secondary := ["shelter"]%string;
     MissionAlignmentAnalyzer.tertiary := ["community"]%string;
     MissionAlignmentAnalyzer.service_categories :=
       [("disaster_services"%string,
         {| MissionAlignmentAnalyzer.subcategories := ["disaster_relief"]%string;
            MissionAlignmentAnalyzer.weight := 1 |})];
     MissionAlignmentAnalyzer.scoring_weights :=
       {| MissionAlignmentAnalyzer.w_mission_alignment := 0.4;
          MissionAlignmentAnalyzer.w_service_overlap := 0.25;
          MissionAlignmentAnalyzer.w_geographic_coverage := 0.15;
          MissionAlignmentAnalyzer.w_organizational_capacity := 0.1;
          MissionAlignmentAnalyzer.w_partnership_history := 0.1 |} |}.

Definition sample_similarities (text : string) : list Q :=
  [0.8; 0.8; 0.8; 0.8].

End Stated.

Module StatedSearch.
Import FinalSearch.

Section Tiering.
Variable location : Location.
Variable nearby_cities : list string.

(** The tier of a candidate, by the three tests in priority order: [1] for
    the exact city, [2] for a city of the county list, [3] for the state;
    none when every test fails. *)
Definition tier_of (org : Organization) : option nat :=
  if Py.truthy (loc_city location)
     && String.eqb (Py.lower (loc_city location)) (Py.lower (org_city org))
  then Some 1%nat
  else if Py.str_in (org_city org) nearby_cities then Some 2%nat
  else if String.eqb (org_state org) (loc_state location) then Some 3%nat
  else None.

Definition in_tier (p : nat) (org : Organization) : bool :=
  match tier_of org with
  | Some q => Nat.eqb q p
  | None => false
  end.

Definition matched (org : Organization) : bool :=
  match tier_of org with
  | Some _ => true
  | None => false
  end.

(** The entry the loop files for a candidate of the first, second and third
    tier. *)
Definition city_entry (org : Organization) : OrgInfo :=
  org_info org ("In " ++ loc_city location)%string 1.

Definition county_entry (org : Organization) : OrgInfo :=
  org_info org ("In " ++ loc_county location)%string 2.

Definition state_entry (org : Organization) : OrgInfo :=
  org_info org ("In " ++ loc_state location)%string 3.

(** The candidate's city equals a listed city up to letter case. *)
Definition listed_ignoring_case (org : Organization) : bool :=
  existsb (fun c => String.eqb (Py.lower c) (Py.lower (org_city org))) nearby_cities.

End Tiering.

(** The location of ZIP 75201 and the cities the static table lists for
    its county. *)
Definition dallas : Location :=
  {| loc_city := "Dallas"; loc_county := "Dallas County"; loc_state := "TX" |}.

Definition dallas_county_cities : list string :=
  ["Carrollton"; "Dallas"; "Irving"; "Richardson"]%string.

Definition candidate (e c s : string) (sc : Q) : Organization :=
  {| org_ein := e; org_name := ("Food Bank of " ++ c)%string; org_city := c;
     org_state := s; org_ntee_code := None; org_score := sc |}.

(** A registry response with twelve candidates of the city, nine of another
    city of the county and three of the rest of the state. *)
Definition crowded : list Organization :=
  repeat (candidate "1" "DALLAS" "TX" 5) 12
  ++ repeat (candidate "2" "Irving" "TX" 4) 9
  ++ repeat (candidate "3" "HOUSTON" "TX" 3) 3.

(** C1 in the words of the specification: the tiers contain every input
    candidate. *)
Definition tiers_cover_input : Prop :=
  forall location nearby_cities organizations org,
    In org organizations ->
    let t := filter_by_location location nearby_cities organizations in
    In org (map source (exact_city t ++ same_county t ++ same_state t)).

(** C5 in the words of the specification: at most 10, 8 and 5 results of the
    three tiers, and state-tier results only when a higher tier holds fewer
    candidates than its cap. *)
Definition state_tier_only_backfills : Prop :=
  forall location nearby_cities organizations,
    let r := search_by_location location nearby_cities organizations in
    (count_priority 1 (results r) <= 10)%nat
    /\ (count_priority 2 (results r) <= 8)%nat
    /\ (count_priority 3 (results r) <= 5)%nat
    /\ ((0 < count_priority 3 (results r))%nat ->
        (count_city (counts r) < 10)%nat \/ (count_county (counts r) < 8)%nat).

End StatedSearch.

(** ** Further Python built-ins *)

Module PyMore.

(** [int(x)] on a float: truncation toward zero. *)
Definition int (q : Q) : Z := Z.quot (Qnum q) (Zpos (Qden q)).

(** [xs[:n]]: the first [n] elements, or all but the last [-n] when [n] is
    negative. *)
Definition slice_to (A : Type) (n : Z) (xs : list A) : list A :=
  if (n <? 0)%Z
  then firstn (List.length xs - Z.to_nat (- n)) xs
  else firstn (Z.to_nat n) xs.

(** [xs.sort(key=key)] for integer keys: ascending and stable.  The element
    inserted goes in front of the first element whose key is strictly
    larger. *)
Section SortAsc.
Variable A : Type.
Variable key : A -> nat.

Fixpoint insert_asc (x : A) (l : list A) : list A :=
  match l with
  | [] => [x]
  | y :: r =>
      if (key x <=? key y)%nat then x :: y :: r
      else y :: insert_asc x r
  end.

Fixpoint sort_asc (l : list A) : list A :=
  match l with
  | [] => []
  | x :: r => insert_asc x (sort_asc r)
  end.

(** Ascending order of the keys. *)
Definition ascending : list A -> Prop :=
  StronglySorted (fun x y => (key x <= key y)%nat).
End SortAsc.

End PyMore.

(** ** src/core/ranking_engine.py, continued *)

Module RankingEngineApi.
Import Models RankingEngine.

(** The descriptive attributes of an object: all but the four analysis
    results. *)
Definition same_data (a b : Nonprofit) : Prop :=
  ein a = ein b /\ name a = name b /\ mission_statement a = mission_statement b
  /\ website a = website b /\ financial_history a = financial_history b
  /\ social_media a = social_media b /\ programs a = programs b
  /\ leadership a = leadership b /\ data_quality_score a = data_quality_score b.

Section Api.
Variable criteria : RankingCriteria.
Variable mission_analyzer : Nonprofit -> Py.result MissionAlignment.
Variable roi_calculator : Nonprofit -> Py.result PartnershipROI.
Variable overall_score_fault : Nonprofit -> option Py.exn.

(** [get_top_partners]: rank, keep the objects whose score reaches
    [min_score], truncate to [top_n]. *)
Definition get_top_partners (h : store) (nonprofits : list ref)
  (top_n : Z) (min_score : Q) : store * list ref :=
  let '(h, ranked) :=
    rank_nonprofits criteria mission_analyzer roi_calculator overall_score_fault
      h nonprofits in
  let qualified :=
    filter (fun np => Qle_bool min_score (score_key (h np))) ranked in
  (h, PyMore.slice_to top_n qualified).

End Api.
End RankingEngineApi.

(** ** src/models/nonprofit.py, the attributes [Models.Nonprofit] leaves out
    and the code below reads: they are passed beside the object. *)

Module ModelsRest.

Inductive NonprofitStatus : Type :=
| ACTIVE
| INACTIVE
| SUSPENDED
| UNKNOWN.

Definition status_eqb (a b : NonprofitStatus) : bool :=
  match a, b with
  | ACTIVE, ACTIVE | INACTIVE, INACTIVE | SUSPENDED, SUSPENDED | UNKNOWN, UNKNOWN => true
  | _, _ => false
  end.

Record Address : Type := {
  street : string;
  city : string;
  state : string;
  zip_code : string;
  country : string
}.

End ModelsRest.

(** ** src/analyzers/roi_calculator.py *)

Module ROICalculator.
Import Models ModelsRest.

Definition VOLUNTEER_HOUR_VALUE : Q := 29.95.
Definition DONOR_LIFETIME_VALUE : Q := 1200.
Definition BENEFICIARY_SERVICE_VALUE : Q := 150.

(** The dict of [_calculate_resource_sharing_value]. *)
Record ResourceValue : Type := {
  facilities : Q;
  volunteers : Q;
  equipment : Q;
  expertise : Q;
  resource_total : Q
}.

Definition _calculate_resource_sharing_value (nonprofit : Nonprofit)
  (financials : FinancialData) : ResourceValue :=
  let facilities :=
    if Py.Qgt_bool (total_assets financials) 500000 then
      let facility_value := total_assets financials * 0.1 in
      facility_value * 0.02 * 12
    else 0 in
  let volunteers :=
    match social_media nonprofit with
    | [] => 0
    | _ =>
        let total_followers :=
          fold_left Z.add (map followers (social_media nonprofit)) 0%Z in
        let estimated_volunteers := inject_Z total_followers * 0.01 in
        let volunteer_hours := estimated_volunteers * 20 in
        volunteer_hours * VOLUNTEER_HOUR_VALUE
    end in
  let equipment :=
    if Py.Qgt_bool (program_expenses financials) 0
    then program_expenses financials * 0.05 else 0 in
  let expertise :=
    match programs nonprofit with
    | [] => 0
    | _ => inject_Z (Z.of_nat (List.length (programs nonprofit))) * 5000
    end in
  {| facilities := facilities; volunteers := volunteers; equipment := equipment;
     expertise := expertise;
     resource_total := Py.sum [facilities; volunteers; equipment; expertise] |}.

(** The dict of [_calculate_cost_savings]. *)
Record CostSavings : Type := {
  procurement : Q;
  marketing : Q;
  administration : Q;
  training : Q;
  technology : Q;
  savings_total : Q
}.

Definition _calculate_cost_savings (nonprofit : Nonprofit)
  (financials : FinancialData) : CostSavings :=
  let procurement := total_expenses financials * 0.04 in
  let marketing :=
    if Py.Qgt_bool (fundraising_expenses financials) 0
    then fundraising_expenses financials * 0.15 else 0 in
  let administration :=
    if Py.Qgt_bool (administrative_expenses financials) 0
    then administrative_expenses financials * 0.10 else 0 in
  let training := 10000 * (total_revenue financials / 1000000) in
  let technology := 5000 + total_revenue financials * 0.001 in
  {| procurement := procurement; marketing := marketing;
     administration := administration; training := training;
     technology := technology;
     savings_total :=
       Py.sum [procurement; marketing; administration; training; technology] |}.

(** The dict of [_calculate_reach_expansion_value]. *)
Record Reach : Type := {
  new_beneficiaries : Z;
  new_donors : Q;
  geographic_expansion : Q;
  reach_total : Q
}.

Definition _calculate_reach_expansion_value (nonprofit : Nonprofit) : Reach :=
  let none :=
    {| new_beneficiaries := 0; new_donors := 0; geographic_expansion := 0;
       reach_total := 0 |} in
  match get_latest_financials nonprofit with
  | Some latest_financials =>
      if Py.Qgt_bool (program_expenses latest_financials) 0 then
        let current_beneficiaries := program_expenses latest_financials / 150 in
        let new_beneficiaries := PyMore.int (current_beneficiaries * 0.3) in
        let beneficiary_value := inject_Z new_beneficiaries * BENEFICIARY_SERVICE_VALUE in
        let new_donors := inject_Z new_beneficiaries * 0.05 in
        let donor_value := new_donors * DONOR_LIFETIME_VALUE in
        let geographic_expansion := beneficiary_value * 0.1 in
        {| new_beneficiaries := new_beneficiaries; new_donors := new_donors;
           geographic_expansion := geographic_expansion;
           reach_total := beneficiary_value + donor_value + geographic_expansion |}
      else none
  | None => none
  end.

Definition _calculate_capability_enhancement (nonprofit : Nonprofit) : Q :=
  let value := 0 in
  let value :=
    match programs nonprofit with
    | [] => value
    | _ => value + inject_Z (Z.of_nat (List.length (programs nonprofit))) * 8000
    end in
  let value :=
    match get_latest_financials nonprofit with
    | Some latest_financials =>
        if Py.Qgt_bool (program_expense_ratio latest_financials) 0.75 then value + 20000
        else if Py.Qgt_bool (program_expense_ratio latest_financials) 0.65
             then value + 10000
             else value
    | None => value
    end in
  match leadership nonprofit with
  | [] => value
  | _ => value + inject_Z (Z.of_nat (List.length (leadership nonprofit))) * 2000
  end.

(** [status] is the [status] attribute of the object; the test
    [nonprofit.status == nonprofit.status.ACTIVE] compares it with the member
    [ACTIVE]. *)
Definition _calculate_risk_mitigation_value (nonprofit : Nonprofit)
  (status : NonprofitStatus) : Q :=
  let value := 0 in
  let value :=
    match get_latest_financials nonprofit with
    | Some latest_financials => value + program_expenses latest_financials * 0.02
    | None => value
    end in
  let stability_score := calculate_stability_score nonprofit in
  let value :=
    if Py.Qgt_bool stability_score 0.7 then value + 15000
    else if Py.Qgt_bool stability_score 0.5 then value + 8000
    else value in
  if status_eqb status ACTIVE then value + 5000 else value.

(** [base_costs.get(partnership_type, 25000)]. *)
Definition base_cost (partnership_type : string) : Q :=
  if String.eqb partnership_type "standard" then 25000
  else if String.eqb partnership_type "strategic" then 50000
  else if String.eqb partnership_type "merger" then 100000
  else 25000.

Definition _estimate_investment_required (nonprofit : Nonprofit)
  (partnership_type : string) : Q :=
  let investment := 0 in
  let investment := investment + base_cost partnership_type in
  let investment :=
    match get_latest_financials nonprofit with
    | Some latest_financials =>
        let size_factor := Py.min 1 (total_revenue latest_financials / 5000000) in
        investment + 20000 * size_factor
    | None => investment
    end in
  let investment :=
    match programs nonprofit with
    | [] => investment
    | _ => investment + inject_Z (Z.of_nat (List.length (programs nonprofit))) * 1000
    end in
  let investment := investment + 10000 in
  let investment := investment + 15000 in
  investment.

Definition _default_roi : PartnershipROI :=
  {| estimated_value := 0; impact_multiplier := 1; cost_savings := 0;
     reach_expansion := 0;
     roi_explanation := "Insufficient data for ROI calculation" |}.

(** [(total_value - investment) / investment if investment > 0 else 0]. *)
Definition roi_ratio_of (total_value investment : Q) : Q :=
  if Py.Qgt_bool investment 0 then (total_value - investment) / investment else 0.

Section Calculator.

(** Number formatting: the format specs [.1f], [,.0f] and [,], and [str] of
    an integer. *)
Variable fmt_f1 : Q -> string.
Variable fmt_thousands0 : Q -> string.
Variable fmt_thousands : Z -> string.
Variable str_int : Z -> string.

Definition _generate_roi_explanation (resource_value : ResourceValue)
  (cost_savings : CostSavings) (reach_value : Reach) (capability_value : Q)
  (risk_value : Q) (investment : Q) (roi_ratio : Q) : string :=
  let explanation_parts :=
    [if Py.Qgt_bool roi_ratio 3 then
       ("Exceptional ROI potential (" ++ fmt_f1 roi_ratio ++ "x return)")%string
     else if Py.Qgt_bool roi_ratio 2 then
       ("Strong ROI potential (" ++ fmt_f1 roi_ratio ++ "x return)")%string
     else if Py.Qgt_bool roi_ratio 1 then
       ("Positive ROI potential (" ++ fmt_f1 roi_ratio ++ "x return)")%string
     else
       ("Limited ROI potential (" ++ fmt_f1 roi_ratio ++ "x return)")%string] in
  let value_drivers := [] in
  let value_drivers :=
    if Py.Qgt_bool (resource_total resource_value) 50000 then
      value_drivers ++
        [("Resource sharing: $" ++ fmt_thousands0 (resource_total resource_value))%string]
    else value_drivers in
  let value_drivers :=
    if Py.Qgt_bool (savings_total cost_savings) 30000 then
      value_drivers ++
        [("Cost savings: $" ++ fmt_thousands0 (savings_total cost_savings))%string]
    else value_drivers in
  let value_drivers :=
    if (100 <? new_beneficiaries reach_value)%Z then
      value_drivers ++
        [("Reach expansion: " ++ fmt_thousands (new_beneficiaries reach_value)
            ++ " new beneficiaries")%string]
    else value_drivers in
  let explanation_parts :=
    match value_drivers with
    | [] => explanation_parts
    | _ => explanation_parts ++
             [("Key value drivers: " ++ Py.join ", " (firstn 3 value_drivers))%string]
    end in
  let explanation_parts :=
    explanation_parts ++
      [("Estimated investment: $" ++ fmt_thousands0 investment)%string] in
  let explanation_parts :=
    if Py.Qgt_bool roi_ratio 0 then
      let annual_value := resource_total resource_value + savings_total cost_savings in
      if Py.Qgt_bool annual_value 0 then
        let payback_months := PyMore.int ((investment / annual_value) * 12) in
        explanation_parts ++
          [("Payback period: " ++ str_int payback_months ++ " months")%string]
      else explanation_parts
    else explanation_parts in
  let strategic := [] in
  let strategic :=
    if Py.Qgt_bool capability_value 20000
    then strategic ++ ["significant capability enhancement"%string] else strategic in
  let strategic :=
    if Py.Qgt_bool risk_value 15000
    then strategic ++ ["strong risk mitigation"%string] else strategic in
  let strategic :=
    if Py.Qgt_bool (volunteers resource_value) 20000
    then strategic ++ ["substantial volunteer network"%string] else strategic in
  let explanation_parts :=
    match strategic with
    | [] => explanation_parts
    | _ => explanation_parts ++
             [("Strategic benefits: " ++ Py.join ", " strategic)%string]
    end in
  Py.join ". " explanation_parts.

(** [calculate_roi]; the [resource_sharing_potential] entry of the result is
    the value of [_calculate_resource_sharing_value]. *)
Definition calculate_roi (nonprofit : Nonprofit) (status : NonprofitStatus)
  (partnership_type : string) : PartnershipROI :=
  match get_latest_financials nonprofit with
  | None => _default_roi
  | Some latest_financials =>
      let resource_value := _calculate_resource_sharing_value nonprofit latest_financials in
      let cost_savings := _calculate_cost_savings nonprofit latest_financials in
      let reach_value := _calculate_reach_expansion_value nonprofit in
      let capability_value := _calculate_capability_enhancement nonprofit in
      let risk_value := _calculate_risk_mitigation_value nonprofit status in
      let total_value :=
        resource_total resource_value + savings_total cost_savings
        + reach_total reach_value + capability_value + risk_value in
      let investment := _estimate_investment_required nonprofit partnership_type in
      let roi_ratio := roi_ratio_of total_value investment in
      let impact_multiplier := 1 + roi_ratio * 0.5 in
      let explanation :=
        _generate_roi_explanation resource_value cost_savings reach_value
          capability_value risk_value investment roi_ratio in
      {| estimated_value := total_value;
         impact_multiplier := impact_multiplier;
         cost_savings := savings_total cost_savings;
         reach_expansion := new_beneficiaries reach_value;
         roi_explanation := explanation |}
  end.

End Calculator.

Record ROIMetrics : Type := {
  direct_cost_savings : Q;
  indirect_cost_savings : Q;
  resource_sharing_value : Q;
  reach_expansion_value : Q;
  capability_enhancement_value : Q;
  risk_mitigation_value : Q;
  total_value : Q;
  investment_required : Q;
  roi_ratio : Q;
  payback_period_months : Z
}.

Definition _default_metrics : ROIMetrics :=
  {| direct_cost_savings := 0; indirect_cost_savings := 0;
     resource_sharing_value := 0; reach_expansion_value := 0;
     capability_enhancement_value := 0; risk_mitigation_value := 0;
     total_value := 0; investment_required := 0; roi_ratio := 0;
     payback_period_months := 999 |}.

(** [calculate_detailed_metrics].  The total value is computed by the very
    expression of [calculate_roi]; the direct and indirect savings are other
    sums of the same terms, which in binary64 need not add up to the cost
    savings exactly. *)
Definition calculate_detailed_metrics (nonprofit : Nonprofit)
  (status : NonprofitStatus) : ROIMetrics :=
  match get_latest_financials nonprofit with
  | None => _default_metrics
  | Some latest_financials =>
      let resource_value := _calculate_resource_sharing_value nonprofit latest_financials in
      let cost_savings := _calculate_cost_savings nonprofit latest_financials in
      let reach_value := _calculate_reach_expansion_value nonprofit in
      let capability_value := _calculate_capability_enhancement nonprofit in
      let risk_value := _calculate_risk_mitigation_value nonprofit status in
      let direct_savings := procurement cost_savings + administration cost_savings in
      let indirect_savings := savings_total cost_savings - direct_savings in
      let total_value :=
        resource_total resource_value + savings_total cost_savings
        + reach_total reach_value + capability_value + risk_value in
      let investment := _estimate_investment_required nonprofit "standard" in
      let roi_ratio := roi_ratio_of total_value investment in
      let annual_return := resource_total resource_value + savings_total cost_savings in
      let payback_months :=
        if Py.Qgt_bool annual_return 0
        then PyMore.int ((investment / annual_return) * 12)
        else 999%Z in
      {| direct_cost_savings := direct_savings;
         indirect_cost_savings := indirect_savings;
         resource_sharing_value := resource_total resource_value;
         reach_expansion_value := reach_total reach_value;
         capability_enhancement_value := capability_value;
         risk_mitigation_value := risk_value;
         total_value := total_value;
         investment_required := investment;
         roi_ratio := roi_ratio;
         payback_period_months := payback_months |}
  end.

(** Filings and accounts without negative amounts. *)
Definition plausible (nonprofit : Nonprofit) : Prop :=
  (forall f, In f (financial_history nonprofit) ->
     0 <= total_revenue f /\ 0 <= total_expenses f /\ 0 <= total_assets f
     /\ 0 <= program_expenses f /\ 0 <= administrative_expenses f
     /\ 0 <= fundraising_expenses f)
  /\ (forall sm, In sm (social_media nonprofit) -> (0 <= followers sm)%Z).

End ROICalculator.

(** ** src/api/main.py: the data quality score *)

Module ApiMain.
Import Models ModelsRest.

(** [calculate_data_quality]; [address] is the [address] attribute of the
    object, [None] when it is missing.  The seven weights add up to 1 in
    [Q]; their binary64 sum is 0.9999999999999999. *)
Definition calculate_data_quality (nonprofit : Nonprofit) (address : option Address) : Q :=
  let score := 0 in
  let score :=
    if Py.truthy (mission_statement nonprofit) then score + 0.2 else score in
  let score :=
    match financial_history nonprofit with
    | [] => score
    | _ => score + 0.25 * Py.min 1 (inject_Z (Z.of_nat (List.length (financial_history nonprofit))) / 3)
    end in
  let score :=
    match programs nonprofit with
    | [] => score
    | _ => score + 0.15 * Py.min 1 (inject_Z (Z.of_nat (List.length (programs nonprofit))) / 5)
    end in
  let score :=
    match website nonprofit with
    | Some w => if Py.truthy w then score + 0.1 else score
    | None => score
    end in
  let score :=
    match social_media nonprofit with
    | [] => score
    | _ => score + 0.1 * Py.min 1 (inject_Z (Z.of_nat (List.length (social_media nonprofit))) / 3)
    end in
  let score :=
    match leadership nonprofit with
    | [] => score
    | _ => score + 0.1 * Py.min 1 (inject_Z (Z.of_nat (List.length (leadership nonprofit))) / 5)
    end in
  let score :=
    match address with
    | Some a => if Py.truthy (street a) then score + 0.1 else score
    | None => score
    end in
  Py.min 1 score.

(** Every kind of data is on file, in the amount the score counts in full. *)
Definition complete (nonprofit : Nonprofit) (address : option Address) : Prop :=
  Py.truthy (mission_statement nonprofit) = true
  /\ (3 <= List.length (financial_history nonprofit))%nat
  /\ (5 <= List.length (programs nonprofit))%nat
  /\ (exists w, website nonprofit = Some w /\ Py.truthy w = true)
  /\ (3 <= List.length (social_media nonprofit))%nat
  /\ (5 <= List.length (leadership nonprofit))%nat
  /\ (exists a, address = Some a /\ Py.truthy (street a) = true).

End ApiMain.

(** ** api/final_search.py, continued *)

Module FinalSearchRest.
Import FinalSearch.

(** The order of the answer of [search_by_location]: by tier, and by
    descending relevance inside a tier. *)
Definition tier_then_score (a b : OrgInfo) : Prop :=
  (priority a < priority b)%nat
  \/ (priority a = priority b /\ score b <= score a).

Section Message.
Variable str_nat : nat -> string.

(** The [message] entry of the answer of [search_by_location]. *)
Definition location_message (location : Location) (keyword : string) (t : Tiers)
  : string :=
  match exact_city t, same_county t, same_state t with
  | _ :: _, _, _ =>
      ("Found " ++ str_nat (List.length (exact_city t)) ++ " '" ++ keyword
         ++ "' organizations in " ++ loc_city location)%string
  | [], _ :: _, _ =>
      ("Found " ++ str_nat (List.length (same_county t)) ++ " '" ++ keyword
         ++ "' organizations in " ++ loc_county location)%string
  | [], [], _ :: _ =>
      ("Found " ++ str_nat (List.length (same_state t)) ++ " '" ++ keyword
         ++ "' organizations in " ++ loc_state location)%string
  | [], [], [] =>
      ("No local '" ++ keyword ++ "' organizations found")%string
  end.

Definition search_by_location_message (location : Location)
  (nearby_cities : list string) (keyword : string)
  (organizations : list Organization) : string :=
  location_message location keyword
    (sort_tiers (filter_by_location location nearby_cities organizations)).

End Message.

(** [ZIP_COUNTY_MAP.items()]: the entries of the static table, one per ZIP
    code. *)
Definition zip_items : Type := list (string * (string * string * string)).

Definition get_location_from_zip (items : zip_items) (zip_code : string)
  : option Location :=
  match find (fun kv => String.eqb (fst kv) zip_code) items with
  | Some (_, (city, county, state)) =>
      Some {| loc_city := city; loc_county := county; loc_state := state |}
  | None => None
  end.

(** [sorted(list(set(xs)))] on strings: ascending, one copy of each. *)
Fixpoint insert_unique (x : string) (l : list string) : list string :=
  match l with
  | [] => [x]
  | y :: r =>
      match String.compare x y with
      | Lt => x :: y :: r
      | Eq => y :: r
      | Gt => y :: insert_unique x r
      end
  end.

Definition sorted_set (xs : list string) : list string :=
  fold_right insert_unique [] xs.

Definition get_cities_in_county (items : zip_items) (county_name state_abbr : string)
  : list string :=
  let cities :=
    map (fun kv => fst (fst (snd kv)))
      (filter (fun kv =>
                 String.eqb (snd (fst (snd kv))) county_name
                 && String.eqb (snd (snd kv)) state_abbr)
              items) in
  sorted_set cities.

(** The response cache: for a key, the data and the time it was stored at,
    in seconds. *)
Section Cache.
Variable D : Type.

(** The upstream service a fetch function calls: a fetch returns the data
    and the service as the call left it. *)
Variable W : Type.

Definition cache : Type := string -> option (D * Q).

Definition CACHE_DURATION : Q := 3600.

Definition store (c : cache) (cache_key : string) (entry : D * Q) : cache :=
  fun k => if String.eqb k cache_key then Some entry else c k.

(** [get_cached_or_fetch]; [now] is the clock at the freshness test, [now']
    the clock when the fetched data is stored. *)
Definition get_cached_or_fetch (c : cache) (w : W) (now now' : Q)
  (cache_key : string) (fetch_func : W -> D * W) : D * cache * W :=
  let refetch :=
    let '(data, w') := fetch_func w in
    (data, store c cache_key (data, now'), w') in
  match c cache_key with
  | Some (cached_data, timestamp) =>
      if Py.Qlt_bool (now - timestamp) CACHE_DURATION
      then (cached_data, c, w)
      else refetch
  | None => refetch
  end.

End Cache.

(** The place the ZIP lookup service answers with. *)
Record ZipInfo : Type := {
  zip_city : string;
  zip_state : string;
  zip_state_abbr : string
}.

(** The entries of the answer of [search_with_api_fallback]. *)
Record FallbackInfo : Type := {
  fb_ein : string;
  fb_name : string;
  fb_city : string;
  fb_state : string;
  fb_ntee_code : option string;
  fb_distance : string;
  fb_priority : nat
}.

Definition fallback_info (zip_info : ZipInfo) (org : Organization) : FallbackInfo :=
  let '(distance, priority) :=
    if Py.contains (Py.lower (zip_city zip_info)) (Py.lower (org_city org)) then
      (("In " ++ zip_city zip_info)%string, 1%nat)
    else if String.eqb (org_state org) (zip_state_abbr zip_info) then
      (("In " ++ zip_state_abbr zip_info)%string, 2%nat)
    else ("National"%string, 3%nat) in
  {| fb_ein := org_ein org; fb_name := org_name org; fb_city := org_city org;
     fb_state := org_state org; fb_ntee_code := org_ntee_code org;
     fb_distance := distance; fb_priority := priority |}.

(** The [results] of [search_with_api_fallback] when the ZIP lookup and the
    registry both answer: the first twenty candidates, sorted by priority. *)
Definition fallback_results (zip_info : ZipInfo) (organizations : list Organization)
  : list FallbackInfo :=
  let results := map (fallback_info zip_info) (firstn 20 organizations) in
  let results := PyMore.sort_asc fb_priority results in
  firstn 20 results.

End FinalSearchRest.

(** ** api/final_search.py: the query parser of [geographic_search] *)

Module FinalSearchRouting.
Import FinalSearch FinalSearchRest.

(** Whitespace for [str.split()], on ASCII text: space, tab to carriage
    return, and the four separators 28 to 31. *)
Definition is_space (c : ascii) : bool :=
  let n := nat_of_ascii c in
  (n =? 32)%nat || ((9 <=? n) && (n <=? 13))%nat || ((28 <=? n) && (n <=? 31))%nat.

(** [s.split()]: the maximal runs of characters that are not whitespace;
    [cur] is the run being read. *)
Fixpoint split_from (s cur : string) : list string :=
  match s with
  | EmptyString => if Py.truthy cur then [cur] else []
  | String c r =>
      if is_space c then
        if Py.truthy cur then cur :: split_from r EmptyString
        else split_from r EmptyString
      else split_from r (cur ++ String c EmptyString)
  end.

Definition split (s : string) : list string := split_from s EmptyString.

Definition is_digit (c : ascii) : bool :=
  let n := nat_of_ascii c in ((48 <=? n) && (n <=? 57))%nat.

Fixpoint all_digits (s : string) : bool :=
  match s with
  | EmptyString => true
  | String c r => is_digit c && all_digits r
  end.

(** [s.isdigit()] on ASCII text: non-empty and digits only. *)
Definition isdigit (s : string) : bool := Py.truthy s && all_digits s.

(** The search [geographic_search] hands the query to. *)
Inductive Route : Type :=
| ByLocation (location : Location) (keyword zip_code : string)
| ApiFallback (zip_code keyword : string)
| KeywordSearch (keyword : string).

Definition geographic_search (items : zip_items) (query : string) : Route :=
  let parts := split query in
  match parts with
  | p0 :: rest =>
      if (String.length p0 =? 5)%nat && isdigit p0 then
        let zip_code := p0 in
        let keyword :=
          match rest with
          | [] => "nonprofit"%string
          | _ => Py.join " " rest
          end in
        match get_location_from_zip items zip_code with
        | Some location => ByLocation location keyword zip_code
        | None => ApiFallback zip_code keyword
        end
      else KeywordSearch query
  | [] => KeywordSearch query
  end.

End FinalSearchRouting.

(** ** Sample data for the further properties *)

Module Samples.

Definition sample_top (top_n : Z) (min_score : Q)
  : RankingEngine.store * list RankingEngine.ref :=
  RankingEngineApi.get_top_partners RankingEngine.default_criteria
    Stated.sample_mission_analyzer Stated.sample_roi_calculator
    Stated.sample_overall_score_fault
    Stated.sample_store [0; 1; 2]%nat top_n min_score.

(** Entries of the static ZIP table: four ZIP codes of Dallas County and one
    of Collin County. *)
Definition dallas_items : FinalSearchRest.zip_items :=
  [("75201", ("Dallas", "Dallas County", "TX"));
   ("75006", ("Carrollton", "Dallas County", "TX"));
   ("75038", ("Irving", "Dallas County", "TX"));
   ("75074", ("Plano", "Collin County", "TX"));
   ("75080", ("Richardson", "Dallas County", "TX"))]%string.

End Samples.
(** * Properties *)

(** ** Comparisons, [min] and the stable descending sort *)

Lemma Qlt_bool_iff (a b : Q) : Py.Qlt_bool a b = true <-> a < b.
Proof.
  unfold Py.Qlt_bool. rewrite negb_true_iff. split; intro H.
  - apply Qnot_le_lt. intro Hle. apply Qle_bool_iff in Hle. congruence.
  - destruct (Qle_bool b a) eqn:E; [|reflexivity].
    apply Qle_bool_iff in E. exfalso. apply (Qlt_not_le _ _ H E).
Qed.

Lemma Qlt_bool_false_iff (a b : Q) : Py.Qlt_bool a b = false <-> b <= a.
Proof.
  unfold Py.Qlt_bool. rewrite negb_false_iff. apply Qle_bool_iff.
Qed.

Lemma Qgt_bool_iff (a b : Q) : Py.Qgt_bool a b = true <-> b < a.
Proof. apply Qlt_bool_iff. Qed.

Lemma Qgt_bool_false_iff (a b : Q) : Py.Qgt_bool a b = false <-> a <= b.
Proof. apply Qlt_bool_false_iff. Qed.

(** Case analysis on a float comparison, leaving the fact it decides. *)
Ltac case_cmp :=
  match goal with
  | |- context [Py.Qgt_bool ?a ?b] =>
      let E := fresh "E" in
      destruct (Py.Qgt_bool a b) eqn:E;
      [apply Qgt_bool_iff in E | apply Qgt_bool_false_iff in E]
  | |- context [Py.Qlt_bool ?a ?b] =>
      let E := fresh "E" in
      destruct (Py.Qlt_bool a b) eqn:E;
      [apply Qlt_bool_iff in E | apply Qlt_bool_false_iff in E]
  end.

Lemma py_min_le_l (a b : Q) : Py.min a b <= a.
Proof. unfold Py.min. case_cmp; lra. Qed.

Lemma py_min_le_r (a b : Q) : Py.min a b <= b.
Proof. unfold Py.min. case_cmp; lra. Qed.

Lemma py_min_glb (a b c : Q) : c <= a -> c <= b -> c <= Py.min a b.
Proof. intros. unfold Py.min. case_cmp; lra. Qed.

Lemma py_min_compat (a a' b b' : Q) :
  a == a' -> b == b' -> Py.min a b == Py.min a' b'.
Proof. intros. unfold Py.min. repeat case_cmp; lra. Qed.

Section SortFacts.
Variable A : Type.
Variable key : A -> Q.

Lemma insert_desc_perm (x : A) (l : list A) :
  Permutation (Py.insert_desc key x l) (x :: l).
Proof.
  induction l as [|y r IH]; simpl; [reflexivity|].
  destruct (Qle_bool (key y) (key x)); [reflexivity|].
  rewrite IH. apply perm_swap.
Qed.

Lemma sort_desc_perm (l : list A) : Permutation (Py.sort_desc key l) l.
Proof.
  induction l as [|x r IH]; simpl; [reflexivity|].
  rewrite insert_desc_perm. now constructor.
Qed.

Lemma sort_desc_length (l : list A) :
  List.length (Py.sort_desc key l) = List.length l.
Proof. apply Permutation_length, sort_desc_perm. Qed.

Lemma insert_desc_descending (x : A) (l : list A) :
  Py.descending key l -> Py.descending key (Py.insert_desc key x l).
Proof.
  unfold Py.descending. induction l as [|y r IH]; simpl; intro Hs.
  - constructor; constructor.
  - destruct (Qle_bool (key y) (key x)) eqn:E.
    + apply Qle_bool_iff in E. constructor; [assumption|].
      inversion Hs as [|? ? Hr Hall]; subst. constructor; [assumption|].
      rewrite Forall_forall in *. intros z Hz. specialize (Hall z Hz).
      eapply Qle_trans; eassumption.
    + assert (Hlt : key x < key y).
      { apply Qnot_le_lt. intro Hle. apply Qle_bool_iff in Hle. congruence. }
      inversion Hs as [|? ? Hr Hall]; subst. constructor; [now apply IH|].
      rewrite Forall_forall in *. intros z Hz.
      apply (Permutation_in _ (insert_desc_perm x r)) in Hz.
      destruct Hz as [<-|Hz]; [now apply Qlt_le_weak | now apply Hall].
Qed.

Lemma sort_desc_descending (l : list A) : Py.descending key (Py.sort_desc key l).
Proof.
  induction l as [|x r IH]; simpl; [constructor|].
  now apply insert_desc_descending.
Qed.

(** Stability: the elements of any one key value come out in the order they
    went in. *)
Lemma insert_desc_stable (q : Q) (x : A) (l : list A) :
  filter (fun a => Qeq_bool (key a) q) (Py.insert_desc key x l)
  = filter (fun a => Qeq_bool (key a) q) (x :: l).
Proof.
  induction l as [|y r IH]; [reflexivity|].
  cbn [Py.insert_desc]. destruct (Qle_bool (key y) (key x)) eqn:E; [reflexivity|].
  cbn [filter] in *. rewrite IH.
  destruct (Qeq_bool (key x) q) eqn:Ex; [|reflexivity].
  destruct (Qeq_bool (key y) q) eqn:Ey; [|reflexivity].
  apply Qeq_bool_iff in Ex, Ey.
  assert (Hle : key y <= key x) by (rewrite Ex, Ey; apply Qle_refl).
  apply Qle_bool_iff in Hle. congruence.
Qed.

Lemma sort_desc_stable (q : Q) (l : list A) :
  filter (fun a => Qeq_bool (key a) q) (Py.sort_desc key l)
  = filter (fun a => Qeq_bool (key a) q) l.
Proof.
  induction l as [|x r IH]; [reflexivity|].
  cbn [Py.sort_desc]. rewrite insert_desc_stable. cbn [filter]. now rewrite IH.
Qed.

End SortFacts.

(** ** Organizational capacity (ranking engine) *)

(** C9.  For every nonprofit, with or without financial history, the ranking
    engine's capacity score lies between 0.5 and 1.0: the base is 0.5, every
    bonus is nonnegative, and the sum is capped at 1.0. *)
Theorem capacity_score_in_half_one (n : Models.Nonprofit) :
  0.5 <= RankingEngine._calculate_capacity_score n
  /\ RankingEngine._calculate_capacity_score n <= 1.
Proof.
  unfold RankingEngine._calculate_capacity_score.
  split; [apply py_min_glb; [lra|] | apply py_min_le_l].
  destruct (Models.get_latest_financials n) as [latest|]; [|lra].
  repeat case_cmp;
    destruct (3 <=? List.length (Models.financial_history n))%nat;
    try destruct (RankingEngine.non_decreasing _); lra.
Qed.

(** A nonprofit without any financial history scores exactly the base 0.5. *)
Lemma capacity_score_no_history (n : Models.Nonprofit) :
  Models.financial_history n = [] ->
  RankingEngine._calculate_capacity_score n == 0.5.
Proof.
  intro H. unfold RankingEngine._calculate_capacity_score, Models.get_latest_financials.
  rewrite H. reflexivity.
Qed.

(** ** Financial stability (model) *)

Lemma max_by_year_in (best : Models.FinancialData) (l : list Models.FinancialData) :
  In (Models.max_by_year best l) (best :: l).
Proof.
  revert best. induction l as [|f r IH]; intro best; simpl; [now left|].
  specialize (IH (if (Models.year best <? Models.year f)%Z then f else best)).
  destruct IH as [H|H]; [|now right; right].
  destruct (Models.year best <? Models.year f)%Z; [right; left|left]; exact H.
Qed.

Lemma max_by_year_ge_best (best : Models.FinancialData) (l : list Models.FinancialData) :
  (Models.year best <= Models.year (Models.max_by_year best l))%Z.
Proof.
  revert best. induction l as [|f r IH]; intro best; simpl; [lia|].
  specialize (IH (if (Models.year best <? Models.year f)%Z then f else best)).
  destruct (Models.year best <? Models.year f)%Z eqn:E; [apply Z.ltb_lt in E|]; lia.
Qed.

Lemma max_by_year_max (best : Models.FinancialData) (l : list Models.FinancialData) :
  forall f, In f (best :: l) ->
  (Models.year f <= Models.year (Models.max_by_year best l))%Z.
Proof.
  revert best. induction l as [|g r IH]; intros best f Hin.
  - destruct Hin as [->|[]]. simpl. lia.
  - simpl. destruct Hin as [->|[->|Hin]].
    + etransitivity; [|apply max_by_year_ge_best].
      destruct (Models.year f <? Models.year g)%Z eqn:E; [apply Z.ltb_lt in E|]; lia.
    + etransitivity; [|apply max_by_year_ge_best].
      destruct (Models.year best <? Models.year f)%Z eqn:E; [|apply Z.ltb_ge in E]; lia.
    + apply IH. now right.
Qed.

(** The latest filing is one of the filings, and none has a later year. *)
Lemma get_latest_financials_spec (n : Models.Nonprofit) (latest : Models.FinancialData) :
  Models.get_latest_financials n = Some latest ->
  In latest (Models.financial_history n)
  /\ forall f, In f (Models.financial_history n) ->
               (Models.year f <= Models.year latest)%Z.
Proof.
  unfold Models.get_latest_financials.
  destruct (Models.financial_history n) as [|f r]; [discriminate|].
  intros [= <-]. split; [apply max_by_year_in | apply max_by_year_max].
Qed.

Lemma ratio_gt_iff (k a l : Q) : 0 < l -> (k < a / l <-> k * l < a).
Proof.
  intro Hl. split; intro H.
  - apply Qmult_lt_r with (z := / l); [now apply Qinv_lt_0_compat|].
    rewrite <- Qmult_assoc, Qmult_inv_r, Qmult_1_r by lra. exact H.
  - now apply Qlt_shift_div_l.
Qed.

(** The ratio bonus of the code is the bonus the specification words. *)
Lemma ratio_points_code (latest : Models.FinancialData) (s : Q) :
  (if Py.Qgt_bool (Models.total_liabilities latest) 0 then
     let ratio := Models.total_assets latest / Models.total_liabilities latest in
     if Py.Qgt_bool ratio 2 then s + 0.3
     else if Py.Qgt_bool ratio 1 then s + 0.2
     else s
   else s)
  == s + Stated.ratio_points latest.
Proof.
  unfold Stated.ratio_points. cbv zeta.
  destruct (Py.Qgt_bool (Models.total_liabilities latest) 0) eqn:El; [|lra].
  apply Qgt_bool_iff in El.
  pose proof (ratio_gt_iff 2 (Models.total_assets latest) El) as H2.
  pose proof (ratio_gt_iff 1 (Models.total_assets latest) El) as H1.
  destruct (Py.Qgt_bool (Models.total_assets latest / Models.total_liabilities latest) 2) eqn:E2.
  - apply Qgt_bool_iff, H2 in E2. apply Qgt_bool_iff in E2. rewrite E2. lra.
  - destruct (Py.Qgt_bool (Models.total_assets latest) (2 * Models.total_liabilities latest)) eqn:E2'.
    + apply Qgt_bool_iff, H2, Qgt_bool_iff in E2'. congruence.
    + destruct (Py.Qgt_bool (Models.total_assets latest / Models.total_liabilities latest) 1) eqn:E1.
      * apply Qgt_bool_iff, H1 in E1.
        assert (E1' : Models.total_liabilities latest < Models.total_assets latest) by lra.
        apply Qgt_bool_iff in E1'. rewrite E1'. lra.
      * destruct (Py.Qgt_bool (Models.total_assets latest) (Models.total_liabilities latest)) eqn:E1'; [|lra].
        apply Qgt_bool_iff in E1'.
        assert (E1'' : 1 * Models.total_liabilities latest < Models.total_assets latest) by lra.
        apply H1, Qgt_bool_iff in E1''. congruence.
Qed.

(** C4, as stated, fails: an organization with fewer than two years of
    financial history (here: none) gets the stability score 0.5, not 0. *)
Lemma stability_short_history_counterexample :
  (List.length (Models.financial_history Stated.org_no_history) < 2)%nat
  /\ ~ Models.calculate_stability_score Stated.org_no_history == 0.
Proof.
  split; [simpl; lia|].
  vm_compute. discriminate.
Qed.

(** C4, amended.  The stability score is 0.5 when the organization has fewer
    than two years of financial history.  Otherwise, with [latest] the filing
    of the greatest year, it is the sum of 0.3 if the latest total revenue is
    positive, 0.3 if the liabilities are positive and the assets exceed twice
    the liabilities (0.2 if they exceed the liabilities), and 0.4 times the
    program expense ratio, capped at 1.0. *)
Theorem stability_score_amended (n : Models.Nonprofit) :
  ((List.length (Models.financial_history n) < 2)%nat ->
   Models.calculate_stability_score n == 0.5)
  /\ ((2 <= List.length (Models.financial_history n))%nat ->
      exists latest,
        Models.get_latest_financials n = Some latest
        /\ In latest (Models.financial_history n)
        /\ (forall f, In f (Models.financial_history n) ->
                      (Models.year f <= Models.year latest)%Z)
        /\ Models.calculate_stability_score n
           == Py.min (Stated.revenue_points latest + Stated.ratio_points latest
                      + Stated.program_points latest) 1
        /\ Models.calculate_stability_score n <= 1).
Proof.
  unfold Models.calculate_stability_score. split; intro Hlen.
  - apply Nat.ltb_lt in Hlen. rewrite Hlen. reflexivity.
  - assert (Hge : (List.length (Models.financial_history n) <? 2)%nat = false)
      by (apply Nat.ltb_ge; exact Hlen).
    rewrite Hge.
    destruct (Models.get_latest_financials n) as [latest|] eqn:Hl.
    + destruct (get_latest_financials_spec n Hl) as [Hin Hmax].
      exists latest. repeat split; try assumption; [|apply py_min_le_r].
      assert (Hsum :
        (if Py.Qgt_bool (Models.total_liabilities latest) 0 then
           let ratio := Models.total_assets latest / Models.total_liabilities latest in
           if Py.Qgt_bool ratio 2
           then (if Py.Qgt_bool (Models.total_revenue latest) 0 then 0 + 0.3 else 0) + 0.3
           else if Py.Qgt_bool ratio 1
                then (if Py.Qgt_bool (Models.total_revenue latest) 0 then 0 + 0.3 else 0) + 0.2
                else (if Py.Qgt_bool (Models.total_revenue latest) 0 then 0 + 0.3 else 0)
         else (if Py.Qgt_bool (Models.total_revenue latest) 0 then 0 + 0.3 else 0))
        + Models.program_expense_ratio latest * 0.4
        == Stated.revenue_points latest + Stated.ratio_points latest
           + Stated.program_points latest).
      { rewrite ratio_points_code. unfold Stated.revenue_points, Stated.program_points.
        destruct (Py.Qgt_bool (Models.total_revenue latest) 0); lra. }
      apply py_min_compat; [exact Hsum | reflexivity].
    + unfold Models.get_latest_financials in Hl.
      destruct (Models.financial_history n); [simpl in Hlen; lia | discriminate].
Qed.

Lemma stability_score_amended_witness :
  Models.calculate_stability_score Stated.org_no_history == 0.5
  /\ exists latest,
       Models.get_latest_financials Stated.org_two_years = Some latest
       /\ Models.calculate_stability_score Stated.org_two_years
          == Py.min (Stated.revenue_points latest + Stated.ratio_points latest
                     + Stated.program_points latest) 1.
Proof.
  split.
  - apply (proj1 (stability_score_amended Stated.org_no_history)). simpl. lia.
  - destruct (proj2 (stability_score_amended Stated.org_two_years)) as (latest & H1 & _ & _ & H2 & _).
    + simpl. lia.
    + exists latest. split; assumption.
Defined.

(** ** Overall score *)

(** Python's two-argument [min] is the minimum of the rationals. *)
Lemma py_min_Qmin (a b : Q) : Py.min a b == Qmin a b.
Proof.
  unfold Py.min. case_cmp.
  - symmetry. apply Q.min_r. lra.
  - symmetry. apply Q.min_l. lra.
Qed.

(** C2.  With the default weights the overall score of a scored organization
    is 0.35 mission + 0.25 min(1, roi/100000) + 0.15 stability
    + 0.15 capacity + 0.10 data quality; and when each of the five sub-scores
    lies in [0,1], so does the overall score. *)
Theorem overall_score_default_weights
  (n : Models.Nonprofit) (m : Models.MissionAlignment) (r : Models.PartnershipROI) :
  Models.mission_alignment n = Some m ->
  Models.partnership_roi n = Some r ->
  let mission := Models.score m in
  let roi := Qmin 1 (Models.estimated_value r / 100000) in
  let stability := Models.calculate_stability_score n in
  let capacity := RankingEngine._calculate_capacity_score n in
  let data_quality := Models.data_quality_score n in
  let overall := RankingEngine._calculate_overall_score RankingEngine.default_criteria n in
  overall == 0.35 * mission + 0.25 * roi + 0.15 * stability
             + 0.15 * capacity + 0.10 * data_quality
  /\ (0 <= mission <= 1 -> 0 <= roi <= 1 -> 0 <= stability <= 1 ->
      0 <= capacity <= 1 -> 0 <= data_quality <= 1 ->
      0 <= overall <= 1).
Proof.
  intros Hm Hr mission roi stability capacity data_quality overall.
  assert (Heq : overall == 0.35 * mission + 0.25 * roi + 0.15 * stability
                           + 0.15 * capacity + 0.10 * data_quality).
  { subst overall mission roi stability capacity data_quality.
    unfold RankingEngine._calculate_overall_score, RankingEngine.scores_mission,
      RankingEngine.scores_roi.
    rewrite Hm, Hr. cbv zeta. rewrite <- py_min_Qmin.
    unfold RankingEngine.default_criteria; simpl. lra. }
  split; [exact Heq|].
  intros. rewrite Heq. lra.
Qed.

Lemma overall_score_default_weights_witness :
  RankingEngine._calculate_overall_score RankingEngine.default_criteria Stated.org_A
  == 0.565
  /\ 0 <= RankingEngine._calculate_overall_score RankingEngine.default_criteria Stated.org_A
     <= 1.
Proof.
  destruct (@overall_score_default_weights Stated.org_A
              (Stated.alignment_of 0.9) (Stated.roi_of 0) eq_refl eq_refl)
    as [Heq Hb].
  split.
  - rewrite Heq. vm_compute. reflexivity.
  - apply Hb; vm_compute; split; discriminate.
Defined.

(** ** Side-by-side comparison *)

Lemma div_zero_python (a b : Q) :
  b == 0 ->
  RankingEngine.div RankingEngine.python_number a RankingEngine.python_number b
  = Py.Raise Py.ZeroDivisionError.
Proof.
  intro H. unfold RankingEngine.div.
  apply Qeq_bool_iff in H. now rewrite H.
Qed.

Lemma div_zero_numpy (ka kb : RankingEngine.number_kind) (a b : Q) :
  b == 0 ->
  RankingEngine.arith_kind ka kb = RankingEngine.numpy_float64 ->
  exists x, RankingEngine.div ka a kb b = Py.Ok x
            /\ forall q, x <> RankingEngine.finite q.
Proof.
  intros H Hk. unfold RankingEngine.div.
  apply Qeq_bool_iff in H. rewrite H, Hk.
  eexists. split; [reflexivity|].
  intro q. destruct (Py.Qgt_bool a 0); [discriminate|].
  destruct (Py.Qlt_bool a 0); discriminate.
Qed.

Lemma div_nonzero (ka kb : RankingEngine.number_kind) (a b : Q) :
  ~ b == 0 -> RankingEngine.div ka a kb b = Py.Ok (RankingEngine.finite (a / b)).
Proof.
  intro H. unfold RankingEngine.div.
  destruct (Qeq_bool b 0) eqn:E; [|reflexivity].
  apply Qeq_bool_iff in E. contradiction.
Qed.

Lemma arith_kind_python (k1 k2 : RankingEngine.number_kind) :
  RankingEngine.arith_kind k1 k2 = RankingEngine.python_number
  <-> k1 = RankingEngine.python_number /\ k2 = RankingEngine.python_number.
Proof. destruct k1, k2; simpl; intuition discriminate. Qed.

Lemma arith_kind_absorb_r (k1 k2 : RankingEngine.number_kind) :
  RankingEngine.arith_kind (RankingEngine.arith_kind k1 k2) k2
  = RankingEngine.arith_kind k1 k2.
Proof. now destruct k1, k2. Qed.

Lemma arith_kind_comm (k1 k2 : RankingEngine.number_kind) :
  RankingEngine.arith_kind k1 k2 = RankingEngine.arith_kind k2 k1.
Proof. now destruct k1, k2. Qed.

(** The claim as stated fails: with a score that is a [numpy.float64] on one
    side and the [int] 0 of a failed scoring on the other, the divisor is 0
    and the comparison is returned, reading [inf%]. *)
Lemma zero_divisor_raises_counterexample : ~ Stated.zero_divisor_raises.
Proof.
  intro H.
  specialize (H (fun _ => "0"%string)
                Stated.org_scored RankingEngine.numpy_float64
                Stated.org_failed RankingEngine.python_number
                0.5 0 eq_refl eq_refl).
  vm_compute in H. specialize (H eq_refl). discriminate H.
Qed.

Example compare_scored_with_failed (fmt_f0 : Q -> string) :
  option_map RankingEngine.recommendation
    (match RankingEngine.compare_nonprofits fmt_f0
             Stated.org_scored RankingEngine.numpy_float64
             Stated.org_failed RankingEngine.python_number with
     | Py.Ok c => Some c
     | Py.Raise _ => None
     end)
  = Some "Food Bank scores inf% higher overall"%string.
Proof. reflexivity. Qed.

(** C10.  [compare_nonprofits] raises a division-by-zero fault, and returns
    no comparison, whenever the organization whose overall score is the
    divisor of the percentage difference has overall score 0 (the second
    organization when the first scores strictly higher, the first otherwise,
    so in particular when both scores are 0) and both overall scores are
    Python numbers, as the [int] 0 of a failed scoring is. *)
Theorem compare_nonprofits_division_by_zero
  (fmt_f0 : Q -> string) (n1 n2 : Models.Nonprofit) (s1 s2 : Q) :
  Models.overall_score n1 = Some s1 ->
  Models.overall_score n2 = Some s2 ->
  (if Py.Qgt_bool s1 s2 then s2 else s1) == 0 ->
  RankingEngine.compare_nonprofits fmt_f0
    n1 RankingEngine.python_number n2 RankingEngine.python_number
  = Py.Raise Py.ZeroDivisionError.
Proof.
  intros H1 H2 Hz. unfold RankingEngine.compare_nonprofits. rewrite H1, H2.
  cbn [RankingEngine.arith_kind].
  destruct (Py.Qgt_bool s1 s2); now rewrite div_zero_python.
Qed.

Lemma compare_nonprofits_division_by_zero_witness :
  RankingEngine.compare_nonprofits (fun _ => "0"%string)
    Stated.org_failed RankingEngine.python_number
    (Models.set_overall_score Stated.org_two_years 0) RankingEngine.python_number
  = Py.Raise Py.ZeroDivisionError.
Proof.
  apply (@compare_nonprofits_division_by_zero (fun _ => "0"%string)
           Stated.org_failed
           (Models.set_overall_score Stated.org_two_years 0)
           0 0 eq_refl eq_refl).
  reflexivity.
Defined.

(** With a nonzero divisor the comparison is returned, and so it is with a
    zero divisor when one of the two scores is a [numpy.float64]. *)
Lemma compare_nonprofits_returns
  (fmt_f0 : Q -> string) (n1 n2 : Models.Nonprofit)
  (k1 k2 : RankingEngine.number_kind) (s1 s2 : Q) :
  Models.overall_score n1 = Some s1 ->
  Models.overall_score n2 = Some s2 ->
  ~ (if Py.Qgt_bool s1 s2 then s2 else s1) == 0
  \/ RankingEngine.arith_kind k1 k2 = RankingEngine.numpy_float64 ->
  exists r, RankingEngine.compare_nonprofits fmt_f0 n1 k1 n2 k2
            = Py.Ok {| RankingEngine.nonprofit1 := RankingEngine.side_of n1;
                       RankingEngine.nonprofit2 := RankingEngine.side_of n2;
                       RankingEngine.recommendation := r |}.
Proof.
  intros H1 H2 Hz. unfold RankingEngine.compare_nonprofits. rewrite H1, H2.
  destruct (Py.Qgt_bool s1 s2).
  - destruct (Qeq_dec s2 0) as [E|E].
    + destruct Hz as [Hz|Hk]; [contradiction|].
      destruct (@div_zero_numpy (RankingEngine.arith_kind k1 k2) k2 (s1 - s2) s2 E)
        as (x & -> & _); [now rewrite arith_kind_absorb_r|].
      eauto.
    + rewrite div_nonzero by assumption. eauto.
  - destruct (Qeq_dec s1 0) as [E|E].
    + destruct Hz as [Hz|Hk]; [contradiction|].
      destruct (@div_zero_numpy (RankingEngine.arith_kind k2 k1) k1 (s2 - s1) s1 E)
        as (x & -> & _); [now rewrite arith_kind_absorb_r, arith_kind_comm|].
      eauto.
    + rewrite div_nonzero by assumption. eauto.
Qed.

(** ** The ranking pass on the object store *)

Lemma upd_same (h : RankingEngine.store) (r : RankingEngine.ref) (n : Models.Nonprofit) :
  RankingEngine.upd h r n r = n.
Proof. unfold RankingEngine.upd. now rewrite Nat.eqb_refl. Qed.

Lemma upd_other (h : RankingEngine.store) (r r' : RankingEngine.ref) (n : Models.Nonprofit) :
  r' <> r -> RankingEngine.upd h r n r' = h r'.
Proof.
  intro H. unfold RankingEngine.upd.
  destruct (Nat.eqb r' r) eqn:E; [apply Nat.eqb_eq in E; contradiction | reflexivity].
Qed.

Section RankingPass.
Import RankingEngine.
Variable criteria : RankingCriteria.
Variable mission_analyzer : Models.Nonprofit -> Py.result Models.MissionAlignment.
Variable roi_calculator : Models.Nonprofit -> Py.result Models.PartnershipROI.
Variable overall_score_fault : Models.Nonprofit -> option Py.exn.

Local Abbreviation score_try :=
  (score_try criteria mission_analyzer roi_calculator overall_score_fault).
Local Abbreviation score_one :=
  (score_one criteria mission_analyzer roi_calculator overall_score_fault).
Local Abbreviation score_loop :=
  (score_loop criteria mission_analyzer roi_calculator overall_score_fault).
Local Abbreviation rank_nonprofits :=
  (rank_nonprofits criteria mission_analyzer roi_calculator overall_score_fault).
Local Abbreviation scoring_raises :=
  (scoring_raises criteria mission_analyzer roi_calculator overall_score_fault).

(** The [try] block writes to the object it scores only. *)
Lemma score_try_other (h : store) (r r' : ref) :
  r' <> r -> fst (score_try h r) r' = h r'.
Proof.
  intro H. unfold RankingEngine.score_try.
  destruct (mission_analyzer (h r)); [|reflexivity].
  destruct (roi_calculator _); [|cbn [fst]; now rewrite upd_other].
  destruct (overall_score_call _ _ _); cbn [fst]; now rewrite !upd_other.
Qed.

(** A [try] block that ends without exception has assigned a score. *)
Lemma score_try_returns (h : store) (r : ref) :
  snd (score_try h r) = None ->
  exists s, Models.overall_score (fst (score_try h r) r) = Some s.
Proof.
  unfold RankingEngine.score_try.
  destruct (mission_analyzer (h r)); [|discriminate].
  destruct (roi_calculator _); [|discriminate].
  destruct (overall_score_call _ _ _); [|discriminate].
  intros _. cbn [fst]. rewrite upd_same. simpl. eauto.
Qed.

(** The three ways the [try] block ends with an exception. *)
Lemma score_try_raises (h : store) (r : ref) :
  scoring_raises (h r) -> exists e, snd (score_try h r) = Some e.
Proof.
  unfold RankingEngine.score_try.
  intros [[e He] | [(m & e & Hm & He) | (m & roi & e & Hm & Hroi & He)]].
  - rewrite He. eexists; reflexivity.
  - rewrite Hm, upd_same, He. eexists; reflexivity.
  - rewrite Hm, upd_same, Hroi, !upd_same, He. eexists; reflexivity.
Qed.

Lemma score_one_other (h : store) (r r' : ref) : r' <> r -> score_one h r r' = h r'.
Proof.
  intro H. unfold RankingEngine.score_one.
  pose proof (@score_try_other h r r' H) as Ht.
  destruct (score_try h r) as [h1 [e|]]; cbn [fst] in Ht; [|exact Ht].
  now rewrite upd_other.
Qed.

Lemma score_one_scored (h : store) (r : ref) :
  exists s, Models.overall_score (score_one h r r) = Some s.
Proof.
  unfold RankingEngine.score_one.
  pose proof (@score_try_returns h r) as Ht.
  destruct (score_try h r) as [h1 [e|]]; cbn [fst snd] in Ht.
  - rewrite upd_same. simpl. eauto.
  - now apply Ht.
Qed.

Lemma score_one_raises (h : store) (r : ref) :
  scoring_raises (h r) -> Models.overall_score (score_one h r r) = Some 0.
Proof.
  intro H. destruct (@score_try_raises h r H) as [e He].
  unfold RankingEngine.score_one.
  destruct (score_try h r) as [h1 o]; cbn [snd] in He. subst o.
  rewrite upd_same. reflexivity.
Qed.

Lemma score_loop_fold (h : store) (l acc : list ref) :
  score_loop h l acc = (fold_left score_one l h, acc ++ l).
Proof.
  revert h acc. induction l as [|r l IH]; intros h acc; simpl.
  - now rewrite app_nil_r.
  - rewrite IH, <- app_assoc. reflexivity.
Qed.

Lemma fold_score_other (l : list ref) (h : store) (r : ref) :
  ~ In r l -> fold_left score_one l h r = h r.
Proof.
  revert h. induction l as [|x l IH]; intros h Hn; simpl; [reflexivity|].
  rewrite IH by (intro; apply Hn; now right).
  apply score_one_other. intro; apply Hn; now left.
Qed.

Lemma fold_scored (l : list ref) (h : store) (r : ref) :
  In r l -> exists s, Models.overall_score (fold_left score_one l h r) = Some s.
Proof.
  revert h. induction l as [|x l IH]; intros h Hin; [contradiction|].
  simpl. destruct (in_dec Nat.eq_dec r l) as [Hl|Hl]; [now apply IH|].
  destruct Hin as [->|Hin]; [|contradiction].
  rewrite fold_score_other by assumption. apply score_one_scored.
Qed.

Lemma assign_rankings_overall (l : list (nat * ref)) (h : store) (r : ref) :
  Models.overall_score (assign_rankings h l r) = Models.overall_score (h r).
Proof.
  revert h. induction l as [|[k x] l IH]; intro h; simpl; [reflexivity|].
  rewrite IH. unfold upd. destruct (Nat.eqb r x) eqn:E; [|reflexivity].
  apply Nat.eqb_eq in E. now subst.
Qed.

Lemma assign_rankings_other (l : list (nat * ref)) (h : store) (r : ref) :
  ~ In r (map snd l) -> assign_rankings h l r = h r.
Proof.
  revert h. induction l as [|[k x] l IH]; intros h Hn; simpl; [reflexivity|].
  rewrite IH by (intro; apply Hn; now right).
  apply upd_other. intro; apply Hn; now left.
Qed.

Lemma assign_rankings_nodup (l : list (nat * ref)) (h : store) (k : nat) (r : ref) :
  NoDup (map snd l) -> In (k, r) l ->
  Models.ranking (assign_rankings h l r) = Some k.
Proof.
  revert h. induction l as [|[k' x] l IH]; intros h Hnd Hin; [contradiction|].
  simpl in *. inversion Hnd as [|? ? Hx Hnd']; subst.
  destruct Hin as [[= -> ->]|Hin]; [|now apply IH].
  rewrite assign_rankings_other by assumption. now rewrite upd_same.
Qed.

Lemma enumerate_snd (A : Type) (l : list A) (s : nat) : map snd (Py.enumerate s l) = l.
Proof. revert s. induction l as [|x l IH]; intro s; simpl; [|rewrite IH]; reflexivity. Qed.

Lemma enumerate_fst (A : Type) (l : list A) (s : nat) :
  map fst (Py.enumerate s l) = seq s (List.length l).
Proof. revert s. induction l as [|x l IH]; intro s; simpl; [|rewrite IH]; reflexivity. Qed.

Lemma map_along_enumerate (A B : Type) (f : A -> B) (g : nat -> B)
  (l : list A) (s : nat) :
  (forall k x, In (k, x) (Py.enumerate s l) -> f x = g k) ->
  map f l = map g (seq s (List.length l)).
Proof.
  intro H.
  transitivity (map (fun kx => f (snd kx)) (Py.enumerate s l)).
  - rewrite <- (map_map snd f), enumerate_snd. reflexivity.
  - transitivity (map (fun kx => g (fst kx)) (Py.enumerate s l)).
    + apply map_ext_in. intros [k x] Hin. now apply H.
    + rewrite <- (map_map fst g), enumerate_fst. reflexivity.
Qed.

Lemma score_key_assign (l : list (nat * ref)) (h : store) (r : ref) :
  score_key (assign_rankings h l r) = score_key (h r).
Proof. unfold score_key. now rewrite assign_rankings_overall. Qed.

Lemma descending_ext (A : Type) (k1 k2 : A -> Q) (l : list A) :
  (forall x, k1 x = k2 x) -> Py.descending k1 l -> Py.descending k2 l.
Proof.
  intros Hk. unfold Py.descending. induction 1 as [|x l Hs IH Hall]; constructor.
  - exact IH.
  - rewrite Forall_forall in *. intros y Hy. rewrite <- !Hk. now apply Hall.
Qed.

(** The ranking pass, step by step: score every listed object in order, sort
    the references by the scores in the store, number them from 1. *)
Lemma rank_nonprofits_unfold (h : store) (nonprofits : list ref) :
  rank_nonprofits h nonprofits
  = let h1 := fold_left score_one nonprofits h in
    let ranked := Py.sort_desc (fun r => score_key (h1 r)) nonprofits in
    (assign_rankings h1 (Py.enumerate 1 ranked), ranked).
Proof.
  unfold RankingEngine.rank_nonprofits. destruct nonprofits as [|r l]; [reflexivity|].
  rewrite score_loop_fold. reflexivity.
Qed.

(** C3.  [rank_nonprofits] returns all N listed organizations (a permutation
    of the input list), each carrying a score, in descending order of
    [overall_score]; organizations of equal score keep their input order; and
    for N distinct organizations the ranks assigned along the output are
    1, 2, ..., N. *)
Theorem rank_nonprofits_sorted_stable_ranked (h : store) (nonprofits : list ref) :
  let h' := fst (rank_nonprofits h nonprofits) in
  let ranked := snd (rank_nonprofits h nonprofits) in
  let overall := fun r => score_key (h' r) in
  Permutation ranked nonprofits
  /\ (forall r, In r ranked -> Models.overall_score (h' r) = Some (overall r))
  /\ Py.descending overall ranked
  /\ (forall q, filter (fun r => Qeq_bool (overall r) q) ranked
                = filter (fun r => Qeq_bool (overall r) q) nonprofits)
  /\ (NoDup nonprofits ->
      map (fun r => Models.ranking (h' r)) ranked
      = map Some (seq 1 (List.length nonprofits))).
Proof.
  rewrite rank_nonprofits_unfold. cbv zeta. cbn [fst snd].
  set (h1 := fold_left score_one nonprofits h).
  set (ranked := Py.sort_desc (fun r => score_key (h1 r)) nonprofits).
  assert (Hperm : Permutation ranked nonprofits) by apply sort_desc_perm.
  assert (Hkey : forall r,
             score_key (h1 r)
             = score_key (assign_rankings h1 (Py.enumerate 1 ranked) r))
    by (intro r; now rewrite score_key_assign).
  split; [exact Hperm|]. split; [|split; [|split]].
  - intros r Hr. rewrite assign_rankings_overall.
    destruct (@fold_scored nonprofits h r) as [s Hs];
      [eapply Permutation_in; eassumption|].
    fold h1 in Hs. unfold score_key. rewrite assign_rankings_overall, Hs. reflexivity.
  - apply descending_ext with (k1 := fun r => score_key (h1 r)); [exact Hkey|].
    apply sort_desc_descending.
  - intro q.
    rewrite (filter_ext _ (fun r => Qeq_bool (score_key (h1 r)) q))
      by (intro r; now rewrite <- Hkey).
    rewrite (filter_ext (fun r => Qeq_bool
               (score_key (assign_rankings h1 (Py.enumerate 1 ranked) r)) q)
               (fun r => Qeq_bool (score_key (h1 r)) q))
      by (intro r; now rewrite <- Hkey).
    apply sort_desc_stable.
  - intro Hnd.
    assert (Hnd' : NoDup ranked)
      by (eapply Permutation_NoDup; [symmetry; exact Hperm | exact Hnd]).
    rewrite <- (Permutation_length Hperm).
    apply map_along_enumerate. intros k r Hin.
    apply assign_rankings_nodup; [now rewrite enumerate_snd | exact Hin].
Qed.

(** The score of an object whose last visit by the scoring loop raises. *)
Lemma rank_nonprofits_failure_last_visit
  (h : store) (before : list ref) (r : ref) (after : list ref) :
  ~ In r after ->
  scoring_raises (fold_left score_one before h r) ->
  Models.overall_score (fst (rank_nonprofits h (before ++ r :: after)) r) = Some 0.
Proof.
  intros Hafter Hraise. rewrite rank_nonprofits_unfold. cbv zeta. cbn [fst].
  rewrite assign_rankings_overall, fold_left_app. cbn [fold_left].
  rewrite fold_score_other by assumption. now apply score_one_raises.
Qed.

Lemma rank_nonprofits_perm (h : store) (nonprofits : list ref) :
  Permutation (snd (rank_nonprofits h nonprofits)) nonprofits.
Proof. rewrite rank_nonprofits_unfold. apply sort_desc_perm. Qed.

(** C7.  [rank_nonprofits] returns a permutation of its input list, whatever
    the analyzers and the computation of the overall score raise; and an
    organization whose scoring raises (in the mission analysis, in the ROI
    calculation or in the computation of the overall score) when the loop
    visits it for the last time ends with [overall_score] 0 and is in the
    ranked output. *)
Theorem rank_nonprofits_tolerates_scoring_failure
  (h : store) (before : list ref) (r : ref) (after : list ref) :
  let nonprofits := before ++ r :: after in
  let h' := fst (rank_nonprofits h nonprofits) in
  let ranked := snd (rank_nonprofits h nonprofits) in
  Permutation ranked nonprofits
  /\ (~ In r after ->
      scoring_raises (fold_left score_one before h r) ->
      Models.overall_score (h' r) = Some 0 /\ In r ranked).
Proof.
  cbv zeta. split; [apply rank_nonprofits_perm|].
  intros Hafter Hraise. split; [now apply rank_nonprofits_failure_last_visit|].
  eapply Permutation_in; [symmetry; apply rank_nonprofits_perm|].
  apply in_elt.
Qed.

(** For a list of distinct organizations the visit is the only one, and the
    organization is in the state the caller passed. *)
Lemma rank_nonprofits_failure_distinct (h : store) (nonprofits : list ref) (r : ref) :
  NoDup nonprofits ->
  In r nonprofits ->
  scoring_raises (h r) ->
  Models.overall_score (fst (rank_nonprofits h nonprofits) r) = Some 0
  /\ In r (snd (rank_nonprofits h nonprofits)).
Proof.
  intros Hnd Hin Hraise.
  split; [|eapply Permutation_in; [symmetry; apply rank_nonprofits_perm | exact Hin]].
  destruct (in_split _ _ Hin) as (before & after & ->).
  apply NoDup_remove_2 in Hnd.
  apply rank_nonprofits_failure_last_visit.
  - intro Hx. apply Hnd, in_or_app. now right.
  - rewrite fold_score_other; [exact Hraise|].
    intro Hx. apply Hnd, in_or_app. now left.
Qed.

End RankingPass.

Lemma rank_nonprofits_sorted_stable_ranked_witness :
  map (fun r => Models.ranking (fst (Stated.sample_rank [0; 1; 2]%nat) r))
      (snd (Stated.sample_rank [0; 1; 2]%nat))
  = [Some 1; Some 2; Some 3]%nat.
Proof.
  apply (proj2 (proj2 (proj2 (proj2
           (rank_nonprofits_sorted_stable_ranked RankingEngine.default_criteria
              Stated.sample_mission_analyzer Stated.sample_roi_calculator
              Stated.sample_overall_score_fault
              Stated.sample_store [0; 1; 2]%nat))))).
  repeat constructor; simpl; intuition discriminate.
Defined.

(** In the pass over [1; 0; 2] with the faulty revenue, both analyzers return
    for the object 1 and the computation of its overall score raises. *)
Lemma rank_nonprofits_tolerates_scoring_failure_witness :
  Models.overall_score (fst (Stated.sample_rank_faulty [1; 0; 2]%nat) 1%nat) = Some 0
  /\ In 1%nat (snd (Stated.sample_rank_faulty [1; 0; 2]%nat)).
Proof.
  apply (proj2 (rank_nonprofits_tolerates_scoring_failure RankingEngine.default_criteria
                  Stated.sample_mission_analyzer Stated.sample_roi_calculator
                  Stated.sample_revenue_fault
                  Stated.sample_store [] 1%nat [0; 2]%nat)).
  - simpl. intuition discriminate.
  - right. right.
    exists (Stated.alignment_of 0.8), (Stated.roi_of 50000), Py.TypeError.
    repeat split; reflexivity.
Defined.

(** The three sources of failure, each on the sample store: the mission
    analysis raises on the object 0; the overall score cannot be computed
    for the object 1 of the faulty pass; and an ROI calculator that raises
    fails every object the mission analysis accepts. *)
Example scoring_failure_sources :
  Models.overall_score (fst (Stated.sample_rank [0; 1; 2]%nat) 0%nat) = Some 0
  /\ Models.overall_score (fst (Stated.sample_rank_faulty [0; 1; 2]%nat) 1%nat) = Some 0
  /\ Models.overall_score
       (fst (RankingEngine.rank_nonprofits RankingEngine.default_criteria
               Stated.sample_mission_analyzer (fun _ => Py.Raise Py.Exception)
               Stated.sample_overall_score_fault Stated.sample_store [0; 1; 2]%nat)
            2%nat) = Some 0
  /\ snd (Stated.sample_rank_faulty [0; 1; 2]%nat) = [2; 0; 1]%nat.
Proof. vm_compute. repeat split; reflexivity. Qed.

(** The ranks of the sample pass: the organization whose scoring failed
    comes last, with score 0. *)
Example sample_rank_order :
  snd (Stated.sample_rank [0; 1; 2]%nat) = [1; 2; 0]%nat
  /\ Models.overall_score (fst (Stated.sample_rank [0; 1; 2]%nat) 0%nat) = Some 0.
Proof. vm_compute. split; reflexivity. Qed.

(** When one object is listed twice, both entries carry the rank assigned
    last: distinctness is needed for the ranks to be 1..N. *)
Example rank_nonprofits_aliased :
  map (fun r => Models.ranking (fst (Stated.sample_rank [1; 1]%nat) r))
      (snd (Stated.sample_rank [1; 1]%nat))
  = [Some 2; Some 2]%nat.
Proof. vm_compute. reflexivity. Qed.

(** ** Geographic tiering *)

Section TieringFacts.
Import FinalSearch StatedSearch.
Variable location : Location.
Variable nearby_cities : list string.

Local Abbreviation filter_step := (filter_step location nearby_cities).
Local Abbreviation filter_by_location := (filter_by_location location nearby_cities).
Local Abbreviation tier_of := (tier_of location nearby_cities).
Local Abbreviation in_tier := (in_tier location nearby_cities).
Local Abbreviation matched := (matched location nearby_cities).

(** One iteration of the filter loop files the candidate in the list of its
    tier and leaves the other lists alone. *)
Lemma filter_step_tiers (t : Tiers) (org : Organization) :
  exact_city (filter_step t org)
  = exact_city t ++ (if in_tier 1 org then [city_entry location org] else [])
  /\ same_county (filter_step t org)
     = same_county t ++ (if in_tier 2 org then [county_entry location org] else [])
  /\ same_state (filter_step t org)
     = same_state t ++ (if in_tier 3 org then [state_entry location org] else []).
Proof.
  unfold FinalSearch.filter_step, StatedSearch.in_tier, StatedSearch.tier_of.
  destruct (Py.truthy (loc_city location)
            && String.eqb (Py.lower (loc_city location)) (Py.lower (org_city org)));
    [cbn; now rewrite !app_nil_r|].
  destruct (Py.str_in (org_city org) nearby_cities); [cbn; now rewrite !app_nil_r|].
  destruct (String.eqb (org_state org) (loc_state location)); cbn; now rewrite !app_nil_r.
Qed.

Lemma fold_filter_step (organizations : list Organization) (t : Tiers) :
  exact_city (fold_left filter_step organizations t)
  = exact_city t ++ map (city_entry location) (filter (in_tier 1) organizations)
  /\ same_county (fold_left filter_step organizations t)
     = same_county t ++ map (county_entry location) (filter (in_tier 2) organizations)
  /\ same_state (fold_left filter_step organizations t)
     = same_state t ++ map (state_entry location) (filter (in_tier 3) organizations).
Proof.
  revert t. induction organizations as [|org l IH]; intro t.
  - cbn. now rewrite !app_nil_r.
  - cbn [fold_left filter].
    destruct (IH (filter_step t org)) as (H1 & H2 & H3).
    destruct (filter_step_tiers t org) as (S1 & S2 & S3).
    rewrite H1, H2, H3, S1, S2, S3, <- !app_assoc.
    repeat split; f_equal.
    + now destruct (in_tier 1 org).
    + now destruct (in_tier 2 org).
    + now destruct (in_tier 3 org).
Qed.

Lemma source_entries (l : list Organization) :
  map source (map (city_entry location) l) = l
  /\ map source (map (county_entry location) l) = l
  /\ map source (map (state_entry location) l) = l.
Proof.
  repeat split; rewrite map_map; rewrite <- (map_id l) at 2;
    apply map_ext; now intros [].
Qed.

(** The three tiers, read through [source], hold exactly the candidates that
    meet some test, as many times as the input lists them. *)
Lemma tiers_partition_matched (l : list Organization) :
  Permutation (filter (in_tier 1) l ++ filter (in_tier 2) l ++ filter (in_tier 3) l)
              (filter matched l).
Proof.
  induction l as [|org l IH]; [reflexivity|].
  cbn [filter]. unfold StatedSearch.in_tier, StatedSearch.matched, StatedSearch.tier_of.
  destruct (Py.truthy (loc_city location)
            && String.eqb (Py.lower (loc_city location)) (Py.lower (org_city org)));
    [cbn; now constructor|].
  destruct (Py.str_in (org_city org) nearby_cities).
  { cbn. rewrite <- IH. symmetry. apply Permutation_middle. }
  destruct (String.eqb (org_state org) (loc_state location)); [|exact IH].
  cbn. rewrite <- IH, !app_assoc. symmetry. apply Permutation_middle.
Qed.

Lemma filter_by_location_lists (organizations : list Organization) :
  let t := filter_by_location organizations in
  exact_city t = map (city_entry location) (filter (in_tier 1) organizations)
  /\ same_county t = map (county_entry location) (filter (in_tier 2) organizations)
  /\ same_state t = map (state_entry location) (filter (in_tier 3) organizations).
Proof.
  cbv zeta. unfold FinalSearch.filter_by_location.
  apply (fold_filter_step organizations
           {| exact_city := []; same_county := []; same_state := [] |}).
Qed.

(** C1, amended.  The filter loop of [search_by_location] files each
    candidate in at most one of three tiers, testing in priority order: the
    exact-city tier if the location's city is non-empty and equals the
    candidate's city up to letter case, else the county tier if the
    candidate's city is a member of [nearby_cities], else the state tier if
    its state equals the location's state; a candidate that meets no test is
    filed nowhere.  Each tier keeps the input order, the three tiers together
    hold exactly the candidates that meet some test, each as often as the
    input lists it, and sorting permutes each tier. *)
Theorem filter_by_location_partition (organizations : list Organization) :
  let t := filter_by_location organizations in
  exact_city t = map (city_entry location) (filter (in_tier 1) organizations)
  /\ same_county t = map (county_entry location) (filter (in_tier 2) organizations)
  /\ same_state t = map (state_entry location) (filter (in_tier 3) organizations)
  /\ Permutation (map source (exact_city t ++ same_county t ++ same_state t))
                 (filter matched organizations)
  /\ Permutation (exact_city (sort_tiers t)) (exact_city t)
  /\ Permutation (same_county (sort_tiers t)) (same_county t)
  /\ Permutation (same_state (sort_tiers t)) (same_state t).
Proof.
  cbv zeta. destruct (filter_by_location_lists organizations) as (H1 & H2 & H3).
  unfold sort_tiers. cbn [exact_city same_county same_state].
  rewrite H1, H2, H3.
  split; [reflexivity|]. split; [reflexivity|]. split; [reflexivity|].
  split; [|repeat split; apply sort_desc_perm].
  rewrite !map_app.
  destruct (source_entries (filter (in_tier 1) organizations)) as (-> & _ & _).
  destruct (source_entries (filter (in_tier 2) organizations)) as (_ & -> & _).
  destruct (source_entries (filter (in_tier 3) organizations)) as (_ & _ & ->).
  apply tiers_partition_matched.
Qed.

Lemma count_priority_app (p : nat) (a b : list OrgInfo) :
  count_priority p (a ++ b) = (count_priority p a + count_priority p b)%nat.
Proof. unfold count_priority. now rewrite filter_app, length_app. Qed.

Lemma count_priority_uniform (p q : nat) (l : list OrgInfo) :
  Forall (fun i => priority i = q) l ->
  count_priority p l = if Nat.eqb q p then List.length l else 0%nat.
Proof.
  unfold count_priority. induction 1 as [|i l Hi Hl IH]; cbn [filter].
  - now destruct (Nat.eqb q p).
  - rewrite Hi. destruct (Nat.eqb q p); cbn [List.length]; now rewrite IH.
Qed.

(** Sorting and truncating a tier keeps the priority its entries carry. *)
Lemma firstn_sorted_uniform (q n : nat) (l : list OrgInfo) :
  Forall (fun i => priority i = q) l ->
  Forall (fun i => priority i = q) (firstn n (Py.sort_desc score l)).
Proof.
  intro H. rewrite Forall_forall in *. intros i Hi.
  apply H. eapply Permutation_in; [apply sort_desc_perm|].
  rewrite <- (firstn_skipn n). apply in_or_app. left. exact Hi.
Qed.

Lemma entries_priority (l : list Organization) :
  Forall (fun i => priority i = 1%nat) (map (city_entry location) l)
  /\ Forall (fun i => priority i = 2%nat) (map (county_entry location) l)
  /\ Forall (fun i => priority i = 3%nat) (map (state_entry location) l).
Proof. repeat split; apply Forall_forall; intros i Hi; apply in_map_iff in Hi;
         destruct Hi as (o & <- & _); reflexivity. Qed.

(** C5, amended.  The returned list contains at most 10 exact-tier
    candidates, at most 8 county-tier candidates and at most 5 state-tier
    candidates, and state-tier candidates are included whenever the state
    tier has any, whether or not the exact and county tiers are sparse.  In
    full: the list is the first 10 entries of the sorted exact tier, then the
    first 8 of the sorted county tier, then the first 2 of the sorted state
    tier, so that it holds min(10, .), min(8, .) and min(2, .) of the
    candidates of the three tiers. *)
Theorem search_by_location_caps (organizations : list Organization) :
  let r := search_by_location location nearby_cities organizations in
  let sorted_tier p (entry : Location -> Organization -> OrgInfo) :=
    Py.sort_desc score (map (entry location) (filter (in_tier p) organizations)) in
  ((count_priority 1 (results r) <= 10)%nat
   /\ (count_priority 2 (results r) <= 8)%nat
   /\ (count_priority 3 (results r) <= 5)%nat
   /\ ((0 < count_priority 3 (results r))%nat
       <-> (0 < List.length (filter (in_tier 3) organizations))%nat))
  /\ results r
     = firstn 10 (sorted_tier 1%nat city_entry)
       ++ firstn 8 (sorted_tier 2%nat county_entry)
       ++ firstn 2 (sorted_tier 3%nat state_entry)
  /\ count_priority 1 (results r) = Nat.min 10 (count_city (counts r))
  /\ count_priority 2 (results r) = Nat.min 8 (count_county (counts r))
  /\ count_priority 3 (results r) = Nat.min 2 (count_state (counts r))
  /\ count_city (counts r) = List.length (filter (in_tier 1) organizations)
  /\ count_county (counts r) = List.length (filter (in_tier 2) organizations)
  /\ count_state (counts r) = List.length (filter (in_tier 3) organizations).
Proof.
  cbv zeta. unfold FinalSearch.search_by_location, sort_tiers.
  cbn [results counts count_city count_county count_state
       exact_city same_county same_state].
  destruct (filter_by_location_lists organizations) as (H1 & H2 & H3).
  cbv zeta in H1, H2, H3. rewrite H1, H2, H3.
  rewrite !sort_desc_length, !length_map, !count_priority_app.
  set (l1 := filter (in_tier 1) organizations).
  set (l2 := filter (in_tier 2) organizations).
  set (l3 := filter (in_tier 3) organizations).
  destruct (entries_priority l1) as (P1 & _ & _).
  destruct (entries_priority l2) as (_ & P2 & _).
  destruct (entries_priority l3) as (_ & _ & P3).
  pose proof (firstn_sorted_uniform 10 P1) as F1.
  pose proof (firstn_sorted_uniform 8 P2) as F2.
  pose proof (firstn_sorted_uniform 2 P3) as F3.
  rewrite !(count_priority_uniform _ F1), !(count_priority_uniform _ F2),
    !(count_priority_uniform _ F3).
  cbn [Nat.eqb]. rewrite !length_firstn, !sort_desc_length, !length_map.
  split; [lia|]. split; [reflexivity|]. lia.
Qed.

End TieringFacts.

(** C5, as stated, fails: with twelve exact-tier and nine county-tier
    candidates, both tiers at their caps, the list still holds state-tier
    entries. *)
Lemma state_tier_only_backfills_counterexample :
  ~ StatedSearch.state_tier_only_backfills.
Proof.
  intro H.
  destruct (H StatedSearch.dallas StatedSearch.dallas_county_cities StatedSearch.crowded)
    as (_ & _ & _ & Hs).
  vm_compute in Hs.
  destruct Hs as [Hs|Hs]; [repeat constructor | |];
    repeat (apply le_S_n in Hs); inversion Hs.
Qed.

(** The answer for the crowded response: 10, 8 and 2 entries. *)
Example crowded_answer :
  let r := FinalSearch.search_by_location StatedSearch.dallas
             StatedSearch.dallas_county_cities StatedSearch.crowded in
  FinalSearch.count_priority 1 (FinalSearch.results r) = 10%nat
  /\ FinalSearch.count_priority 2 (FinalSearch.results r) = 8%nat
  /\ FinalSearch.count_priority 3 (FinalSearch.results r) = 2%nat
  /\ FinalSearch.count_city (FinalSearch.counts r) = 12%nat
  /\ FinalSearch.count_county (FinalSearch.counts r) = 9%nat.
Proof. vm_compute. repeat split. Qed.

(** C1, as stated, fails: a candidate of another state is in none of the
    tiers, so the tiers do not cover the input. *)
Lemma tiers_cover_input_counterexample : ~ StatedSearch.tiers_cover_input.
Proof.
  intro H.
  specialize (H StatedSearch.dallas StatedSearch.dallas_county_cities
                [StatedSearch.candidate "9" "Seattle" "WA" 7]
                (StatedSearch.candidate "9" "Seattle" "WA" 7)
                (or_introl eq_refl)).
  exact H.
Qed.

(** C6.  The county test compares the candidate's city with the listed
    cities exactly.  A Texas candidate whose city is written [IRVING] equals
    the listed [Irving] up to letter case and is not the location's city, yet
    it is filed in the state tier, and the county tier stays empty. *)
Theorem county_test_is_case_sensitive :
  let org := StatedSearch.candidate "7" "IRVING" "TX" 9 in
  let t := FinalSearch.filter_by_location StatedSearch.dallas
             StatedSearch.dallas_county_cities [org] in
  StatedSearch.listed_ignoring_case StatedSearch.dallas_county_cities org = true
  /\ Py.lower (FinalSearch.org_city org)
     <> Py.lower (FinalSearch.loc_city StatedSearch.dallas)
  /\ FinalSearch.exact_city t = []
  /\ FinalSearch.same_county t = []
  /\ FinalSearch.same_state t = [StatedSearch.state_entry StatedSearch.dallas org].
Proof.
  cbv zeta. repeat split; try reflexivity.
  vm_compute. discriminate.
Qed.

(** With the listed spelling the same candidate is filed in the county tier. *)
Example county_test_exact_spelling :
  let org := StatedSearch.candidate "7" "Irving" "TX" 9 in
  FinalSearch.same_county
    (FinalSearch.filter_by_location StatedSearch.dallas
       StatedSearch.dallas_county_cities [org])
  = [StatedSearch.county_entry StatedSearch.dallas org].
Proof. reflexivity. Qed.

(** ** Mission-alignment narrative *)

Section Narrative.
Import MissionAlignmentAnalyzer.
Variable config : Config.
Variable keyword_similarities : string -> list Q.
Variable fmt_pct1 fmt_pct0 : Q -> string.

Local Abbreviation analyze_alignment :=
  (analyze_alignment config keyword_similarities fmt_pct1 fmt_pct0).

Lemma explanation_parts_head (nonprofit : Models.Nonprofit) (keyword_score semantic_score : Q)
  (service_overlap : list (string * Q)) (matched_keywords : list string) :
  exists rest,
    explanation_parts fmt_pct1 fmt_pct0 nonprofit keyword_score semantic_score
      service_overlap matched_keywords
    = (alignment_label (Stated.carried_score nonprofit)
         ++ " alignment with Red Cross mission ("
         ++ fmt_pct1 (Stated.carried_score nonprofit) ++ ")")%string :: rest.
Proof.
  unfold explanation_parts, Stated.carried_score. cbv zeta.
  repeat match goal with
         | |- context [match ?x with _ => _ end] =>
             lazymatch x with
             | Models.mission_alignment _ => fail
             | _ => destruct x
             end
         end;
    cbn [app]; eexists; reflexivity.
Qed.

(** The narrative of [analyze_alignment] opens with the label of the score
    the object carried before the call, whatever score the call computes. *)
Lemma analyze_alignment_narrative (nonprofit : Models.Nonprofit) :
  exists rest,
    Models.explanation (analyze_alignment nonprofit)
    = Py.join ". "
        ((alignment_label (Stated.carried_score nonprofit)
            ++ " alignment with Red Cross mission ("
            ++ fmt_pct1 (Stated.carried_score nonprofit) ++ ")")%string :: rest).
Proof.
  unfold MissionAlignmentAnalyzer.analyze_alignment.
  destruct (_keyword_matching config (_compile_nonprofit_text nonprofit))
    as [keyword_score matched_keywords].
  cbn [Models.explanation]. unfold _generate_explanation.
  destruct (explanation_parts_head nonprofit keyword_score
              (_semantic_similarity keyword_similarities
                 (_compile_nonprofit_text nonprofit))
              (_service_category_overlap config nonprofit) matched_keywords)
    as [rest ->].
  now exists rest.
Qed.

End Narrative.

(** C8.  The narrative is not labelled by the score just computed.  For an
    organization that has not been analyzed before, the analysis computes the
    score 0.927, whose label is [Strong], while the narrative it returns opens
    with [Limited alignment with Red Cross mission] and the formatted score
    0: the label is that of the score the object carried before the call. *)
Theorem fresh_alignment_narrative_is_limited (fmt_pct1 fmt_pct0 : Q -> string) :
  let m := MissionAlignmentAnalyzer.analyze_alignment Stated.sample_config
             Stated.sample_similarities fmt_pct1 fmt_pct0 Stated.org_two_years in
  Models.mission_alignment Stated.org_two_years = None
  /\ Models.score m == 0.927
  /\ MissionAlignmentAnalyzer.alignment_label (Models.score m) = "Strong"%string
  /\ exists rest,
       Models.explanation m
       = Py.join ". "
           (("Limited alignment with Red Cross mission (" ++ fmt_pct1 0 ++ ")")%string
              :: rest).
Proof.
  cbv zeta. split; [reflexivity|]. split; [vm_compute; reflexivity|].
  split; [vm_compute; reflexivity|].
  apply (analyze_alignment_narrative Stated.sample_config Stated.sample_similarities
           fmt_pct1 fmt_pct0 Stated.org_two_years).
Qed.

(** The same through the ranking pass and [explain_ranking]: the object
    ranked carries the fresh score, and the fifth line of its explanation is
    the narrative of the analysis. *)
Example ranked_narrative_is_limited
  (fmt_pct1 fmt_pct0 fmt_thousands0 : Q -> string) (fmt_thousands : Z -> string)
  (str_nat : nat -> string) :
  let analyze :=
    MissionAlignmentAnalyzer.analyze_alignment Stated.sample_config
      Stated.sample_similarities fmt_pct1 fmt_pct0 in
  let h' :=
    fst (RankingEngine.rank_nonprofits RankingEngine.default_criteria
           (fun n => Py.Ok (analyze n)) Stated.sample_roi_calculator
           Stated.sample_overall_score_fault Stated.sample_store [1%nat]) in
  Models.mission_alignment (h' 1%nat) = Some (analyze Stated.org_two_years)
  /\ match RankingEngine.explanation_lines fmt_pct1 fmt_thousands0 fmt_thousands
             str_nat (h' 1%nat) with
     | Py.Ok lines =>
         nth_error lines 4 = Some (Models.explanation (analyze Stated.org_two_years))
     | Py.Raise _ => False
     end.
Proof. cbv zeta. split; vm_compute; reflexivity. Qed.

(** * Further properties *)

(** ** The ranking pass: what it changes and what it leaves alone *)

Section RankingFrame.
Import Models RankingEngine RankingEngineApi.
Variable criteria : RankingCriteria.
Variable mission_analyzer : Nonprofit -> Py.result MissionAlignment.
Variable roi_calculator : Nonprofit -> Py.result PartnershipROI.
Variable overall_score_fault : Nonprofit -> option Py.exn.

Local Abbreviation score_one := (score_one criteria mission_analyzer roi_calculator overall_score_fault).
Local Abbreviation rank_nonprofits :=
  (rank_nonprofits criteria mission_analyzer roi_calculator overall_score_fault).
Local Abbreviation overall := (_calculate_overall_score criteria).

Lemma same_data_refl (a : Nonprofit) : same_data a a.
Proof. unfold same_data. intuition. Qed.

Lemma same_data_trans (a b c : Nonprofit) :
  same_data a b -> same_data b c -> same_data a c.
Proof. unfold same_data. intuition congruence. Qed.

(** The four ways the loop body can leave the object it visits. *)
Lemma score_one_cases (h : store) (r : ref) :
  (exists e, mission_analyzer (h r) = Py.Raise e
             /\ score_one h r r = set_overall_score (h r) 0)
  \/ (exists m e, mission_analyzer (h r) = Py.Ok m
                  /\ roi_calculator (set_mission_alignment (h r) m) = Py.Raise e
                  /\ score_one h r r
                     = set_overall_score (set_mission_alignment (h r) m) 0)
  \/ (exists m p e,
        mission_analyzer (h r) = Py.Ok m
        /\ roi_calculator (set_mission_alignment (h r) m) = Py.Ok p
        /\ overall_score_fault
             (set_partnership_roi (set_mission_alignment (h r) m) p) = Some e
        /\ score_one h r r
           = set_overall_score
               (set_partnership_roi (set_mission_alignment (h r) m) p) 0)
  \/ (exists m p, mission_analyzer (h r) = Py.Ok m
                  /\ roi_calculator (set_mission_alignment (h r) m) = Py.Ok p
                  /\ overall_score_fault
                       (set_partnership_roi (set_mission_alignment (h r) m) p) = None
                  /\ score_one h r r
                     = set_overall_score
                         (set_partnership_roi (set_mission_alignment (h r) m) p)
                         (overall (set_partnership_roi (set_mission_alignment (h r) m) p))).
Proof.
  unfold RankingEngine.score_one, RankingEngine.score_try,
    RankingEngine.overall_score_call.
  destruct (mission_analyzer (h r)) as [m|e] eqn:Hm.
  - rewrite upd_same.
    destruct (roi_calculator (set_mission_alignment (h r) m)) as [p|e] eqn:Hp.
    + rewrite !upd_same.
      destruct (overall_score_fault
                  (set_partnership_roi (set_mission_alignment (h r) m) p))
        as [e|] eqn:Hf.
      * right; right; left. exists m, p, e. rewrite !upd_same. auto.
      * right; right; right. exists m, p. rewrite !upd_same. auto.
    + right; left. exists m, e. rewrite !upd_same. auto.
  - left. exists e. rewrite upd_same. auto.
Qed.

Lemma score_one_same_data (h : store) (r x : ref) : same_data (score_one h r x) (h x).
Proof.
  destruct (Nat.eq_dec x r) as [->|Hne].
  - destruct (score_one_cases h r)
      as [(e & _ & ->) | [(m & e & _ & _ & ->)
          | [(m & p & e & _ & _ & _ & ->) | (m & p & _ & _ & _ & ->)]]];
      unfold same_data; cbn; intuition.
  - rewrite score_one_other by assumption. apply same_data_refl.
Qed.

Lemma fold_score_same_data (l : list ref) (h : store) (x : ref) :
  same_data (fold_left score_one l h x) (h x).
Proof.
  revert h. induction l as [|r l IH]; intro h; cbn [fold_left].
  - apply same_data_refl.
  - eapply same_data_trans; [apply IH | apply score_one_same_data].
Qed.

(** Numbering the ranking touches the [ranking] attribute only. *)
Lemma assign_rankings_cases (l : list (nat * ref)) (h : store) (x : ref) :
  assign_rankings h l x = h x
  \/ exists k, assign_rankings h l x = set_ranking (h x) k.
Proof.
  revert h. induction l as [|[k r] l IH]; intro h; cbn [assign_rankings]; [now left|].
  destruct (IH (upd h r (set_ranking (h r) k))) as [->|[k' ->]];
    (destruct (Nat.eq_dec x r) as [->|Hne];
     [rewrite upd_same | rewrite upd_other by assumption]); eauto.
Qed.

Lemma assign_rankings_same_data (l : list (nat * ref)) (h : store) (x : ref) :
  same_data (assign_rankings h l x) (h x)
  /\ mission_alignment (assign_rankings h l x) = mission_alignment (h x)
  /\ partnership_roi (assign_rankings h l x) = partnership_roi (h x).
Proof.
  destruct (assign_rankings_cases l h x) as [->|[k ->]];
    unfold same_data; cbn; intuition.
Qed.

Lemma score_one_local (h1 h2 : store) (r : ref) :
  h1 r = h2 r -> score_one h1 r r = score_one h2 r r.
Proof.
  intro H.
  destruct (score_one_cases h1 r)
    as [(e & He & ->) | [(m & e & Hm & He & ->)
        | [(m & p & e & Hm & Hp & Hf & ->) | (m & p & Hm & Hp & Hf & ->)]]];
    destruct (score_one_cases h2 r)
      as [(e' & He' & ->) | [(m' & e' & Hm' & He' & ->)
          | [(m' & p' & e' & Hm' & Hp' & Hf' & ->) | (m' & p' & Hm' & Hp' & Hf' & ->)]]];
    rewrite H in *; congruence.
Qed.

(** An object listed once is visited once, in the state the caller passed. *)
Lemma fold_score_once (l : list ref) (h : store) (r : ref) :
  NoDup l -> In r l -> fold_left score_one l h r = score_one h r r.
Proof.
  intros Hnd Hin. destruct (in_split _ _ Hin) as (a & b & ->).
  apply NoDup_remove_2 in Hnd.
  rewrite fold_left_app. cbn [fold_left].
  rewrite fold_score_other by (intro Hx; apply Hnd, in_or_app; now right).
  apply score_one_local, fold_score_other.
  intro Hx; apply Hnd, in_or_app; now left.
Qed.

Lemma rank_nonprofits_state (h : store) (nonprofits : list ref) (x : ref) :
  let h' := fst (rank_nonprofits h nonprofits) in
  let h1 := fold_left score_one nonprofits h in
  same_data (h' x) (h1 x)
  /\ mission_alignment (h' x) = mission_alignment (h1 x)
  /\ partnership_roi (h' x) = partnership_roi (h1 x)
  /\ overall_score (h' x) = overall_score (h1 x).
Proof.
  cbv zeta. rewrite rank_nonprofits_unfold. cbv zeta. cbn [fst].
  rewrite assign_rankings_overall.
  destruct (assign_rankings_same_data
              (Py.enumerate 1
                 (Py.sort_desc
                    (fun r => score_key (fold_left score_one nonprofits h r))
                    nonprofits))
              (fold_left score_one nonprofits h) x) as (H1 & H2 & H3).
  auto.
Qed.

(** X1.  The ranking pass never touches an object that is not listed, and on the
    listed ones it writes the four analysis attributes only: identity,
    mission text, filings, programs, leadership, social media and data
    quality stay as they were. *)
Theorem rank_nonprofits_frame (h : store) (nonprofits : list ref) (x : ref) :
  let h' := fst (rank_nonprofits h nonprofits) in
  same_data (h' x) (h x)
  /\ (~ In x nonprofits -> h' x = h x).
Proof.
  cbv zeta. split.
  - destruct (rank_nonprofits_state h nonprofits x) as (H & _).
    eapply same_data_trans; [exact H | apply fold_score_same_data].
  - intro Hn. rewrite rank_nonprofits_unfold. cbv zeta. cbn [fst].
    rewrite assign_rankings_other.
    + now apply fold_score_other.
    + rewrite enumerate_snd. intro Hx. apply Hn.
      eapply Permutation_in; [apply sort_desc_perm | exact Hx].
Qed.

(** X2.  When both analyzers succeed on an organization listed once, the pass
    stores the fresh mission analysis and the fresh ROI on it, and the score
    it stores is the weighted score of the object carrying both (0 when the
    computation of that score raises). *)
Theorem rank_nonprofits_scores_fresh_analysis
  (h : store) (nonprofits : list ref) (r : ref)
  (m : MissionAlignment) (p : PartnershipROI) :
  NoDup nonprofits ->
  In r nonprofits ->
  mission_analyzer (h r) = Py.Ok m ->
  roi_calculator (set_mission_alignment (h r) m) = Py.Ok p ->
  let h' := fst (rank_nonprofits h nonprofits) in
  let scored := set_partnership_roi (set_mission_alignment (h r) m) p in
  mission_alignment (h' r) = Some m
  /\ partnership_roi (h' r) = Some p
  /\ overall_score (h' r)
     = Some (match overall_score_fault scored with
             | None => overall scored
             | Some _ => 0
             end).
Proof.
  intros Hnd Hin Hm Hp. cbv zeta.
  destruct (rank_nonprofits_state h nonprofits r) as (_ & -> & -> & ->).
  rewrite (@fold_score_once nonprofits h r Hnd Hin).
  destruct (score_one_cases h r)
    as [(e & He & _) | [(m' & e & Hm' & He & _)
        | [(m' & p' & e & Hm' & Hp' & Hf & ->) | (m' & p' & Hm' & Hp' & Hf & ->)]]];
    try congruence.
  - assert (m' = m) by congruence; subst m'.
    assert (p' = p) by congruence; subst p'.
    rewrite Hf. repeat split.
  - assert (m' = m) by congruence; subst m'.
    assert (p' = p) by congruence; subst p'.
    rewrite Hf. repeat split.
Qed.

(** X3.  A failed scoring writes the score 0 and nothing else it had not written
    yet: when the mission analysis raises, both analysis results stay as the
    caller passed them; when the ROI calculation raises, the object carries
    the fresh mission analysis beside the ROI of the caller; when the
    computation of the overall score raises, it carries both fresh
    results. *)
Theorem rank_nonprofits_failure_keeps_old_analysis
  (h : store) (nonprofits : list ref) (r : ref) :
  NoDup nonprofits ->
  In r nonprofits ->
  let h' := fst (rank_nonprofits h nonprofits) in
  (forall e, mission_analyzer (h r) = Py.Raise e ->
     mission_alignment (h' r) = mission_alignment (h r)
     /\ partnership_roi (h' r) = partnership_roi (h r)
     /\ overall_score (h' r) = Some 0)
  /\ (forall m e,
        mission_analyzer (h r) = Py.Ok m ->
        roi_calculator (set_mission_alignment (h r) m) = Py.Raise e ->
        mission_alignment (h' r) = Some m
        /\ partnership_roi (h' r) = partnership_roi (h r)
        /\ overall_score (h' r) = Some 0)
  /\ (forall m p e,
        mission_analyzer (h r) = Py.Ok m ->
        roi_calculator (set_mission_alignment (h r) m) = Py.Ok p ->
        overall_score_fault
          (set_partnership_roi (set_mission_alignment (h r) m) p) = Some e ->
        mission_alignment (h' r) = Some m
        /\ partnership_roi (h' r) = Some p
        /\ overall_score (h' r) = Some 0).
Proof.
  intros Hnd Hin. cbv zeta.
  destruct (rank_nonprofits_state h nonprofits r) as (_ & -> & -> & ->).
  rewrite (@fold_score_once nonprofits h r Hnd Hin).
  split; [|split].
  - intros e He.
    destruct (score_one_cases h r)
      as [(e' & _ & ->) | [(m' & e' & Hm' & _)
          | [(m' & p' & e' & Hm' & _) | (m' & p' & Hm' & _)]]];
      try congruence.
    repeat split.
  - intros m e Hm He.
    destruct (score_one_cases h r)
      as [(e' & He' & _) | [(m' & e' & Hm' & _ & ->)
          | [(m' & p' & e' & Hm' & Hp' & _) | (m' & p' & Hm' & Hp' & _)]]];
      try congruence.
    assert (m' = m) by congruence; subst m'. repeat split.
  - intros m p e Hm Hp Hf.
    destruct (score_one_cases h r)
      as [(e' & He' & _) | [(m' & e' & Hm' & He' & _)
          | [(m' & p' & e' & Hm' & Hp' & _ & ->) | (m' & p' & Hm' & Hp' & Hf' & _)]]];
      try congruence.
    assert (m' = m) by congruence; subst m'.
    assert (p' = p) by congruence; subst p'. repeat split.
Qed.

End RankingFrame.

Lemma rank_nonprofits_frame_witness :
  fst (Stated.sample_rank [0; 1]%nat) 2%nat = Stated.sample_store 2%nat.
Proof.
  apply (proj2 (rank_nonprofits_frame RankingEngine.default_criteria
                  Stated.sample_mission_analyzer Stated.sample_roi_calculator
           Stated.sample_overall_score_fault
                  Stated.sample_store [0; 1]%nat 2%nat)).
  simpl. intuition discriminate.
Defined.

Lemma rank_nonprofits_scores_fresh_analysis_witness :
  Models.mission_alignment (fst (Stated.sample_rank [0; 1]%nat) 1%nat)
  = Some (Stated.alignment_of 0.8).
Proof.
  apply (@rank_nonprofits_scores_fresh_analysis RankingEngine.default_criteria
           Stated.sample_mission_analyzer Stated.sample_roi_calculator
           Stated.sample_overall_score_fault
           Stated.sample_store [0; 1]%nat 1%nat
           (Stated.alignment_of 0.8) (Stated.roi_of 50000)).
  - repeat constructor; simpl; intuition discriminate.
  - simpl. auto.
  - reflexivity.
  - reflexivity.
Defined.

Lemma rank_nonprofits_failure_keeps_old_analysis_witness :
  Models.mission_alignment (fst (Stated.sample_rank [0; 1]%nat) 0%nat) = None
  /\ Models.partnership_roi (fst (Stated.sample_rank [0; 1]%nat) 0%nat) = None
  /\ Models.overall_score (fst (Stated.sample_rank [0; 1]%nat) 0%nat) = Some 0.
Proof.
  apply (proj1 (@rank_nonprofits_failure_keeps_old_analysis
                  RankingEngine.default_criteria
                  Stated.sample_mission_analyzer Stated.sample_roi_calculator
           Stated.sample_overall_score_fault
                  Stated.sample_store [0; 1]%nat 0%nat
                  ltac:(repeat constructor; simpl; intuition discriminate)
                  ltac:(simpl; auto))
               Py.Exception).
  reflexivity.
Defined.

(** ** The ranking pass: scores and ranks *)

Lemma enumerate_app (A : Type) (a b : list A) (s : nat) :
  Py.enumerate s (a ++ b) = Py.enumerate s a ++ Py.enumerate (s + List.length a) b.
Proof.
  revert s. induction a as [|x a IH]; intro s; cbn.
  - now rewrite Nat.add_0_r.
  - rewrite IH. do 3 f_equal. lia.
Qed.

Lemma descending_after (A : Type) (key : A -> Q) (a b : list A) (x : A) :
  Py.descending key (a ++ x :: b) -> forall y, In y b -> key y <= key x.
Proof.
  unfold Py.descending. induction a as [|z a IH]; cbn; intro Hs.
  - inversion Hs as [|? ? _ Hall]; subst. now apply Forall_forall.
  - inversion Hs; subst. now apply IH.
Qed.

Section RankingOrder.
Import Models RankingEngine RankingEngineApi.
Variable criteria : RankingCriteria.
Variable mission_analyzer : Nonprofit -> Py.result MissionAlignment.
Variable roi_calculator : Nonprofit -> Py.result PartnershipROI.
Variable overall_score_fault : Nonprofit -> option Py.exn.

Local Abbreviation score_one := (score_one criteria mission_analyzer roi_calculator overall_score_fault).
Local Abbreviation rank_nonprofits :=
  (rank_nonprofits criteria mission_analyzer roi_calculator overall_score_fault).

(** The ranking is sorted by the scores of the store it returns. *)
Lemma rank_nonprofits_descending (h : store) (nonprofits : list ref) :
  Py.descending (fun r => score_key (fst (rank_nonprofits h nonprofits) r))
    (snd (rank_nonprofits h nonprofits)).
Proof.
  rewrite rank_nonprofits_unfold. cbv zeta. cbn [fst snd].
  apply descending_ext
    with (k1 := fun r => score_key (fold_left score_one nonprofits h r)).
  - intro r. now rewrite score_key_assign.
  - apply sort_desc_descending.
Qed.

(** The rank of an object listed once is its position in the ranking. *)
Lemma rank_nonprofits_position (h : store) (nonprofits a b : list ref) (x : ref) :
  NoDup nonprofits ->
  snd (rank_nonprofits h nonprofits) = a ++ x :: b ->
  ranking (fst (rank_nonprofits h nonprofits) x) = Some (S (List.length a)).
Proof.
  intros Hnd Hsplit.
  assert (Hnd' : NoDup (snd (rank_nonprofits h nonprofits))).
  { eapply Permutation_NoDup; [symmetry; apply rank_nonprofits_perm | exact Hnd]. }
  revert Hsplit Hnd'. rewrite rank_nonprofits_unfold. cbv zeta. cbn [fst snd].
  intros Hsplit Hnd'. rewrite Hsplit in *.
  apply assign_rankings_nodup; [now rewrite enumerate_snd|].
  rewrite enumerate_app. apply in_or_app. right. cbn. now left.
Qed.

(** X4.  Among organizations listed once, a strictly higher score gets a strictly
    smaller rank number. *)
Theorem higher_score_better_rank (h : store) (nonprofits : list ref) (r1 r2 : ref) :
  NoDup nonprofits ->
  In r1 nonprofits ->
  In r2 nonprofits ->
  let h' := fst (rank_nonprofits h nonprofits) in
  score_key (h' r2) < score_key (h' r1) ->
  exists k1 k2,
    ranking (h' r1) = Some k1 /\ ranking (h' r2) = Some k2 /\ (k1 < k2)%nat.
Proof.
  intros Hnd H1 H2. cbv zeta. intro Hlt.
  pose proof (rank_nonprofits_perm criteria mission_analyzer roi_calculator overall_score_fault h nonprofits)
    as Hperm.
  pose proof (rank_nonprofits_descending h nonprofits) as Hdesc.
  assert (H2' : In r2 (snd (rank_nonprofits h nonprofits)))
    by (eapply Permutation_in; [symmetry; exact Hperm | exact H2]).
  assert (H1' : In r1 (snd (rank_nonprofits h nonprofits)))
    by (eapply Permutation_in; [symmetry; exact Hperm | exact H1]).
  destruct (in_split _ _ H2') as (a & b & Hsplit).
  rewrite Hsplit in H1', Hdesc.
  apply in_app_or in H1'. destruct H1' as [Ha | [Heq | Hb]].
  - destruct (in_split _ _ Ha) as (a1 & a2 & ->).
    exists (S (List.length a1)), (S (List.length (a1 ++ r1 :: a2))).
    split; [|split].
    + apply rank_nonprofits_position with (b := a2 ++ r2 :: b); [exact Hnd|].
      rewrite Hsplit, <- app_assoc. reflexivity.
    + now apply rank_nonprofits_position with (b := b).
    + rewrite length_app. cbn. lia.
  - subst r1. exfalso. apply (Qlt_irrefl _ Hlt).
  - exfalso. pose proof (@descending_after _ _ _ _ _ Hdesc r1 Hb) as Hle.
    cbv beta in Hle. apply (Qlt_not_le _ _ Hlt Hle).
Qed.

End RankingOrder.

Lemma higher_score_better_rank_witness :
  exists k1 k2,
    Models.ranking (fst (Stated.sample_rank [0; 1; 2]%nat) 1%nat) = Some k1
    /\ Models.ranking (fst (Stated.sample_rank [0; 1; 2]%nat) 0%nat) = Some k2
    /\ (k1 < k2)%nat.
Proof.
  apply (@higher_score_better_rank RankingEngine.default_criteria
           Stated.sample_mission_analyzer Stated.sample_roi_calculator
           Stated.sample_overall_score_fault
           Stated.sample_store [0; 1; 2]%nat 1%nat 0%nat).
  - repeat constructor; simpl; intuition discriminate.
  - simpl. auto.
  - simpl. auto.
  - vm_compute. reflexivity.
Defined.

(** ** Top partners *)

Lemma slice_to_firstn (A : Type) (n : Z) (l : list A) :
  PyMore.slice_to n l = firstn (List.length (PyMore.slice_to n l)) l.
Proof.
  unfold PyMore.slice_to. destruct (n <? 0)%Z.
  - rewrite length_firstn. f_equal. lia.
  - rewrite length_firstn.
    destruct (Nat.le_ge_cases (Z.to_nat n) (List.length l)) as [H|H].
    + now rewrite Nat.min_l.
    + rewrite Nat.min_r, !firstn_all2 by lia. reflexivity.
Qed.

Lemma slice_to_length (A : Type) (n : Z) (l : list A) :
  (0 <= n)%Z -> List.length (PyMore.slice_to n l) = Nat.min (Z.to_nat n) (List.length l).
Proof.
  intro H. unfold PyMore.slice_to.
  destruct (n <? 0)%Z eqn:E; [apply Z.ltb_lt in E; lia|].
  apply length_firstn.
Qed.

(** On a list in descending order, keeping the elements that reach a
    threshold keeps a prefix. *)
Lemma filter_threshold_prefix (A : Type) (key : A -> Q) (m : Q) (l : list A) :
  Py.descending key l ->
  filter (fun x => Qle_bool m (key x)) l
  = firstn (List.length (filter (fun x => Qle_bool m (key x)) l)) l.
Proof.
  unfold Py.descending. induction 1 as [|x l Hs IH Hall]; [reflexivity|].
  cbn [filter]. destruct (Qle_bool m (key x)) eqn:E.
  - cbn [List.length firstn]. now rewrite <- IH.
  - assert (Hnone : filter (fun y => Qle_bool m (key y)) l = []).
    { clear IH Hs. induction Hall as [|y l Hy Hall IHl]; [reflexivity|].
      cbn [filter]. destruct (Qle_bool m (key y)) eqn:Ey; [|exact IHl].
      apply Qle_bool_iff in Ey.
      assert (Hx : Qle_bool m (key x) = true)
        by (apply Qle_bool_iff; eapply Qle_trans; eassumption).
      congruence. }
    rewrite Hnone. reflexivity.
Qed.

Lemma firstn_seq_min (k s n : nat) : firstn k (seq s n) = seq s (Nat.min k n).
Proof.
  revert s n. induction k as [|k IH]; intros s n; [reflexivity|].
  destruct n as [|n]; [reflexivity|]. cbn. now rewrite IH.
Qed.

Section TopPartners.
Import Models RankingEngine RankingEngineApi.
Variable criteria : RankingCriteria.
Variable mission_analyzer : Nonprofit -> Py.result MissionAlignment.
Variable roi_calculator : Nonprofit -> Py.result PartnershipROI.
Variable overall_score_fault : Nonprofit -> option Py.exn.

Local Abbreviation rank_nonprofits :=
  (rank_nonprofits criteria mission_analyzer roi_calculator overall_score_fault).
Local Abbreviation get_top_partners :=
  (get_top_partners criteria mission_analyzer roi_calculator overall_score_fault).

Lemma rank_nonprofits_ranks (h : store) (nonprofits : list ref) :
  NoDup nonprofits ->
  map (fun r => ranking (fst (rank_nonprofits h nonprofits) r))
      (snd (rank_nonprofits h nonprofits))
  = map Some (seq 1 (List.length (snd (rank_nonprofits h nonprofits)))).
Proof.
  intro Hnd.
  assert (Hnd' : NoDup (snd (rank_nonprofits h nonprofits))).
  { eapply Permutation_NoDup; [symmetry; apply rank_nonprofits_perm | exact Hnd]. }
  revert Hnd'. rewrite rank_nonprofits_unfold. cbv zeta. cbn [fst snd]. intro Hnd'.
  apply map_along_enumerate. intros k r Hin.
  apply assign_rankings_nodup; [now rewrite enumerate_snd | exact Hin].
Qed.

Lemma get_top_partners_unfold (h : store) (nonprofits : list ref)
  (top_n : Z) (min_score : Q) :
  get_top_partners h nonprofits top_n min_score
  = (fst (rank_nonprofits h nonprofits),
     PyMore.slice_to top_n
       (filter (fun np => Qle_bool min_score
                            (score_key (fst (rank_nonprofits h nonprofits) np)))
               (snd (rank_nonprofits h nonprofits)))).
Proof.
  unfold RankingEngineApi.get_top_partners.
  now destruct (rank_nonprofits h nonprofits).
Qed.

(** X5.  [get_top_partners] returns a prefix of the full ranking: the leading
    organizations whose score reaches [min_score], at most [top_n] of them
    (for a non-negative [top_n]); when it returns fewer than [top_n], no
    organization reaching [min_score] is missing. *)
Theorem get_top_partners_prefix (h : store) (nonprofits : list ref)
  (top_n : Z) (min_score : Q) :
  let h' := fst (get_top_partners h nonprofits top_n min_score) in
  let top := snd (get_top_partners h nonprofits top_n min_score) in
  let ranked := snd (rank_nonprofits h nonprofits) in
  top = firstn (List.length top) ranked
  /\ (forall r, In r top -> min_score <= score_key (h' r))
  /\ ((0 <= top_n)%Z -> (List.length top <= Z.to_nat top_n)%nat)
  /\ ((0 <= top_n)%Z -> (List.length top < Z.to_nat top_n)%nat ->
      forall r, In r nonprofits -> min_score <= score_key (h' r) -> In r top).
Proof.
  cbv zeta. rewrite get_top_partners_unfold. cbn [fst snd].
  set (h' := fst (rank_nonprofits h nonprofits)).
  set (ranked := snd (rank_nonprofits h nonprofits)).
  set (qualified := filter (fun np => Qle_bool min_score (score_key (h' np))) ranked).
  assert (Hq : qualified = firstn (List.length qualified) ranked).
  { apply (@filter_threshold_prefix _ (fun r => score_key (h' r)) min_score ranked).
    apply rank_nonprofits_descending. }
  assert (Hsub : forall r, In r (PyMore.slice_to top_n qualified) -> In r qualified).
  { intros r Hr. rewrite slice_to_firstn in Hr.
    rewrite <- (firstn_skipn (List.length (PyMore.slice_to top_n qualified)) qualified).
    apply in_or_app. now left. }
  split; [|split; [|split]].
  - rewrite slice_to_firstn at 1. rewrite Hq at 2. rewrite firstn_firstn.
    f_equal.
    assert (List.length (PyMore.slice_to top_n qualified) <= List.length qualified)%nat.
    { rewrite slice_to_firstn, length_firstn. lia. }
    lia.
  - intros r Hr. apply Hsub in Hr. apply filter_In in Hr.
    now apply Qle_bool_iff.
  - intro Hn. rewrite slice_to_length by assumption. lia.
  - intros Hn Hlt r Hin Hscore.
    rewrite slice_to_length in Hlt by assumption.
    unfold PyMore.slice_to.
    destruct (top_n <? 0)%Z eqn:E; [apply Z.ltb_lt in E; lia|].
    rewrite firstn_all2 by lia.
    apply filter_In. split.
    + eapply Permutation_in; [symmetry; apply rank_nonprofits_perm | exact Hin].
    + now apply Qle_bool_iff.
Qed.

(** X6.  For organizations listed once, the top partners carry the ranks
    1, 2, ..., k in this order: filtering by score leaves no gap. *)
Theorem get_top_partners_ranks (h : store) (nonprofits : list ref)
  (top_n : Z) (min_score : Q) :
  NoDup nonprofits ->
  let h' := fst (get_top_partners h nonprofits top_n min_score) in
  let top := snd (get_top_partners h nonprofits top_n min_score) in
  map (fun r => ranking (h' r)) top = map Some (seq 1 (List.length top)).
Proof.
  intro Hnd. cbv zeta.
  assert (Hpre :
    snd (get_top_partners h nonprofits top_n min_score)
    = firstn (List.length (snd (get_top_partners h nonprofits top_n min_score)))
        (snd (rank_nonprofits h nonprofits))).
  { rewrite get_top_partners_unfold. cbn [fst snd].
    set (h' := fst (rank_nonprofits h nonprofits)).
    set (ranked := snd (rank_nonprofits h nonprofits)).
    set (qualified := filter (fun np => Qle_bool min_score (score_key (h' np))) ranked).
    assert (Hq : qualified = firstn (List.length qualified) ranked).
    { apply (@filter_threshold_prefix _ (fun r => score_key (h' r)) min_score ranked).
      apply rank_nonprofits_descending. }
    rewrite slice_to_firstn at 1. rewrite Hq at 2. rewrite firstn_firstn.
    f_equal.
    assert (List.length (PyMore.slice_to top_n qualified) <= List.length qualified)%nat.
    { rewrite slice_to_firstn, length_firstn. lia. }
    lia. }
  assert (Hlen :
    (List.length (snd (get_top_partners h nonprofits top_n min_score))
     <= List.length (snd (rank_nonprofits h nonprofits)))%nat).
  { rewrite Hpre, length_firstn. lia. }
  rewrite Hpre at 1.
  replace (fst (get_top_partners h nonprofits top_n min_score))
    with (fst (rank_nonprofits h nonprofits))
    by (now rewrite get_top_partners_unfold).
  rewrite <- firstn_map, (rank_nonprofits_ranks h Hnd), firstn_map, firstn_seq_min.
  now rewrite Nat.min_l.
Qed.

End TopPartners.

Lemma get_top_partners_prefix_witness :
  (List.length (snd (Samples.sample_top 10 0.5)) <= 10)%nat
  /\ forall r, In r [0; 1; 2]%nat ->
               0.5 <= RankingEngine.score_key (fst (Samples.sample_top 10 0.5) r) ->
               In r (snd (Samples.sample_top 10 0.5)).
Proof.
  destruct (get_top_partners_prefix RankingEngine.default_criteria
              Stated.sample_mission_analyzer Stated.sample_roi_calculator
           Stated.sample_overall_score_fault
              Stated.sample_store [0; 1; 2]%nat 10 0.5) as (_ & _ & Hcap & Hall).
  split.
  - apply Hcap. lia.
  - apply Hall; [lia | vm_compute; lia].
Defined.

Lemma get_top_partners_ranks_witness :
  map (fun r => Models.ranking (fst (Samples.sample_top 10 0.5) r))
      (snd (Samples.sample_top 10 0.5))
  = map Some (seq 1 (List.length (snd (Samples.sample_top 10 0.5)))).
Proof.
  apply (@get_top_partners_ranks RankingEngine.default_criteria
           Stated.sample_mission_analyzer Stated.sample_roi_calculator
           Stated.sample_overall_score_fault
           Stated.sample_store [0; 1; 2]%nat 10 0.5).
  repeat constructor; simpl; intuition discriminate.
Defined.

(** The sample pass: two of the three organizations reach 0.5. *)
Example sample_top_partners : snd (Samples.sample_top 10 0.5) = [1; 2]%nat.
Proof. vm_compute. reflexivity. Qed.

(** ** The outcome of a comparison *)

(** X7.  For two scored organizations, [compare_nonprofits] raises the
    division fault exactly when the dividing score (the lower one, the first
    on a tie) is 0 and both scores are Python numbers; with a zero divisor
    and a [numpy.float64] among the scores it returns a comparison that reads
    [inf%] ([nan%] on a tie), and with a nonzero divisor the comparison
    names the higher-scoring organization (the second on a tie) with the
    difference relative to the lower score. *)
Theorem compare_nonprofits_outcome
  (fmt_f0 : Q -> string) (n1 n2 : Models.Nonprofit)
  (k1 k2 : RankingEngine.number_kind) (s1 s2 : Q) :
  Models.overall_score n1 = Some s1 ->
  Models.overall_score n2 = Some s2 ->
  let higher := Py.Qgt_bool s1 s2 in
  let divisor := if higher then s2 else s1 in
  let winner := if higher then Models.name n1 else Models.name n2 in
  let result := RankingEngine.compare_nonprofits fmt_f0 n1 k1 n2 k2 in
  let comparison pct :=
    Py.Ok {| RankingEngine.nonprofit1 := RankingEngine.side_of n1;
             RankingEngine.nonprofit2 := RankingEngine.side_of n2;
             RankingEngine.recommendation :=
               (winner ++ " scores " ++ pct ++ "% higher overall")%string |} in
  (result = Py.Raise Py.ZeroDivisionError
   <-> divisor == 0 /\ k1 = RankingEngine.python_number
       /\ k2 = RankingEngine.python_number)
  /\ (divisor == 0 ->
      k1 = RankingEngine.numpy_float64 \/ k2 = RankingEngine.numpy_float64 ->
      result = comparison (if Qeq_bool s1 s2 then "nan" else "inf")%string)
  /\ (~ divisor == 0 ->
      result = comparison
                 (fmt_f0 (if higher then (s1 - s2) / s2 * 100
                          else (s2 - s1) / s1 * 100))).
Proof.
  intros H1 H2. cbv zeta.
  unfold RankingEngine.compare_nonprofits. rewrite H1, H2.
  destruct (Py.Qgt_bool s1 s2) eqn:Hgt.
  - apply Qgt_bool_iff in Hgt.
    destruct (Qeq_dec s2 0) as [E|E].
    + assert (Ha : Py.Qgt_bool (s1 - s2) 0 = true) by (apply Qgt_bool_iff; lra).
      assert (Hne : Qeq_bool s1 s2 = false).
      { destruct (Qeq_bool s1 s2) eqn:Q; [|reflexivity].
        apply Qeq_bool_iff in Q. lra. }
      unfold RankingEngine.div. rewrite (proj2 (Qeq_bool_iff s2 0) E), Ha, Hne.
      destruct k1, k2; cbn; (split; [|split]);
        try (split; [discriminate || (intros; auto) | intros (_ & A & B);
             discriminate || reflexivity]);
        try reflexivity; try (intros; reflexivity);
        try (intros _ [A|A]; discriminate); try (intros A; contradiction).
    + rewrite div_nonzero by assumption. cbn. split; [|split].
      * split; [discriminate | intros (A & _); contradiction].
      * intros A; contradiction.
      * reflexivity.
  - apply Qgt_bool_false_iff in Hgt.
    destruct (Qeq_dec s1 0) as [E|E].
    + unfold RankingEngine.div. rewrite (proj2 (Qeq_bool_iff s1 0) E).
      assert (Hlt : Py.Qlt_bool (s2 - s1) 0 = false)
        by (apply Qlt_bool_false_iff; lra).
      rewrite Hlt.
      destruct (Qeq_bool s1 s2) eqn:Q.
      * apply Qeq_bool_iff in Q.
        assert (Ha : Py.Qgt_bool (s2 - s1) 0 = false)
          by (apply Qgt_bool_false_iff; lra).
        rewrite Ha.
        destruct k1, k2; cbn; (split; [|split]);
          try (split; [discriminate || (intros; auto) | intros (_ & A & B);
               discriminate || reflexivity]);
          try reflexivity; try (intros; reflexivity);
          try (intros _ [A|A]; discriminate); try (intros A; contradiction).
      * assert (Ha : Py.Qgt_bool (s2 - s1) 0 = true).
        { apply Qgt_bool_iff.
          destruct (Qeq_dec s1 s2) as [A|A];
            [apply Qeq_bool_iff in A; congruence | lra]. }
        rewrite Ha.
        destruct k1, k2; cbn; (split; [|split]);
          try (split; [discriminate || (intros; auto) | intros (_ & A & B);
               discriminate || reflexivity]);
          try reflexivity; try (intros; reflexivity);
          try (intros _ [A|A]; discriminate); try (intros A; contradiction).
    + rewrite div_nonzero by assumption. cbn. split; [|split].
      * split; [discriminate | intros (A & _); contradiction].
      * intros A; contradiction.
      * reflexivity.
Qed.

Lemma compare_nonprofits_outcome_witness :
  RankingEngine.compare_nonprofits (fun _ => "0"%string)
    Stated.org_scored RankingEngine.numpy_float64
    Stated.org_failed RankingEngine.python_number
  = Py.Ok {| RankingEngine.nonprofit1 := RankingEngine.side_of Stated.org_scored;
             RankingEngine.nonprofit2 := RankingEngine.side_of Stated.org_failed;
             RankingEngine.recommendation :=
               "Food Bank scores inf% higher overall"%string |}.
Proof.
  apply (proj1 (proj2 (@compare_nonprofits_outcome (fun _ => "0"%string)
                         Stated.org_scored Stated.org_failed
                         RankingEngine.numpy_float64 RankingEngine.python_number
                         0.5 0 eq_refl eq_refl))).
  - reflexivity.
  - now left.
Defined.

(** ** Bounds of the sub-scores and of the overall score *)

Lemma program_expense_ratio_nonneg (f : Models.FinancialData) :
  0 <= Models.program_expenses f -> 0 <= Models.program_expense_ratio f.
Proof.
  intro H. unfold Models.program_expense_ratio. case_cmp; [|lra].
  apply Qle_shift_div_l; [exact E | lra].
Qed.

Lemma stability_bounds_aux (n : Models.Nonprofit) :
  Models.calculate_stability_score n <= 1
  /\ ((forall f, In f (Models.financial_history n) -> 0 <= Models.program_expenses f) ->
      0 <= Models.calculate_stability_score n).
Proof.
  unfold Models.calculate_stability_score.
  destruct (List.length (Models.financial_history n) <? 2)%nat; [split; [lra | intros; lra]|].
  destruct (Models.get_latest_financials n) as [latest|] eqn:Hl; [|split; [lra | intros; lra]].
  split; [apply py_min_le_r|].
  intro Hpos. apply py_min_glb; [|lra].
  destruct (get_latest_financials_spec n Hl) as [Hin _].
  pose proof (program_expense_ratio_nonneg latest (Hpos latest Hin)) as Hr.
  cbv zeta. repeat case_cmp; lra.
Qed.

Lemma capacity_bounds_aux (n : Models.Nonprofit) :
  0.5 <= RankingEngine._calculate_capacity_score n <= 1.
Proof.
  unfold RankingEngine._calculate_capacity_score.
  split; [apply py_min_glb; [lra|] | apply py_min_le_l].
  destruct (Models.get_latest_financials n) as [latest|]; [|lra].
  repeat case_cmp;
    destruct (3 <=? List.length (Models.financial_history n))%nat;
    try destruct (RankingEngine.non_decreasing _); lra.
Qed.

(** X9.  The stability score never exceeds 1, and it is non-negative when no
    filing reports negative program expenses. *)
Theorem stability_score_bounds (n : Models.Nonprofit) :
  (forall f, In f (Models.financial_history n) -> 0 <= Models.program_expenses f) ->
  0 <= Models.calculate_stability_score n <= 1.
Proof.
  intro H. destruct (stability_bounds_aux n) as [Hle Hge]. split; auto.
Qed.

Lemma stability_score_bounds_witness :
  0 <= Models.calculate_stability_score Stated.org_two_years <= 1.
Proof.
  apply stability_score_bounds.
  intros f [<-|[<-|[]]]; vm_compute; discriminate.
Defined.

(** X10.  With any non-negative weights, a mission score in [0,1], a non-negative
    estimated value, non-negative program expenses and a data quality in
    [0,1], the overall score lies between half the capacity weight and the
    sum of the five weights: no weight set can push it above that sum, and
    the capacity base of 0.5 is always counted. *)
Theorem overall_score_bounds_any_weights
  (criteria : RankingEngine.RankingCriteria) (n : Models.Nonprofit) :
  0 <= RankingEngine.mission_weight criteria ->
  0 <= RankingEngine.roi_weight criteria ->
  0 <= RankingEngine.stability_weight criteria ->
  0 <= RankingEngine.capacity_weight criteria ->
  0 <= RankingEngine.data_quality_weight criteria ->
  0 <= Stated.carried_score n <= 1 ->
  (forall p, Models.partnership_roi n = Some p -> 0 <= Models.estimated_value p) ->
  (forall f, In f (Models.financial_history n) -> 0 <= Models.program_expenses f) ->
  0 <= Models.data_quality_score n <= 1 ->
  0.5 * RankingEngine.capacity_weight criteria
  <= RankingEngine._calculate_overall_score criteria n
  <= RankingEngine.mission_weight criteria + RankingEngine.roi_weight criteria
     + RankingEngine.stability_weight criteria + RankingEngine.capacity_weight criteria
     + RankingEngine.data_quality_weight criteria.
Proof.
  intros Wm Wr Ws Wc Wd Hm Hp Hf Hd.
  unfold RankingEngine._calculate_overall_score. cbv zeta.
  assert (Hmission : 0 <= RankingEngine.scores_mission n <= 1) by exact Hm.
  assert (Hroi : 0 <= RankingEngine.scores_roi n <= 1).
  { unfold RankingEngine.scores_roi.
    destruct (Models.partnership_roi n) as [p|]; [|lra].
    specialize (Hp p eq_refl). cbv zeta. split; [|apply py_min_le_l].
    apply py_min_glb; [lra|]. apply Qle_shift_div_l; lra. }
  destruct (stability_bounds_aux n) as [Hs1 Hs0]. specialize (Hs0 Hf).
  pose proof (capacity_bounds_aux n) as Hc.
  split; nra.
Qed.

Lemma overall_score_bounds_any_weights_witness :
  0.5 * 0.15
  <= RankingEngine._calculate_overall_score RankingEngine.default_criteria Stated.org_A
  <= 0.35 + 0.25 + 0.15 + 0.15 + 0.10.
Proof.
  apply (@overall_score_bounds_any_weights RankingEngine.default_criteria Stated.org_A);
    try (vm_compute; discriminate);
    try (vm_compute; split; discriminate).
  - intros p [= <-]. vm_compute. discriminate.
  - intros f [].
Defined.

(** ** Filings *)

(** When the program expenses lie between 0 and the total expenses, the
    program expense ratio lies in [0,1]; total expenses of 0 give the ratio 0
    and no division. *)
Lemma program_expense_ratio_bounds (f : Models.FinancialData) :
  0 <= Models.program_expenses f <= Models.total_expenses f ->
  0 <= Models.program_expense_ratio f <= 1.
Proof.
  intros [H0 H1]. unfold Models.program_expense_ratio. case_cmp; [|lra].
  split.
  - apply Qle_shift_div_l; [exact E | lra].
  - apply Qle_shift_div_r; [exact E | lra].
Qed.

Lemma program_expense_ratio_bounds_witness :
  0 <= Models.program_expense_ratio (Stated.filing 2022 250000 0 300000 100000 0) <= 1.
Proof.
  apply program_expense_ratio_bounds. vm_compute. split; discriminate.
Defined.

(** X11.  When the total expenses are the sum of program, administrative and
    fundraising expenses, the program expense ratio and the overhead ratio
    add up to 1 for positive total expenses, and both are 0 otherwise. *)
Theorem expense_ratios_complement (f : Models.FinancialData) :
  Models.total_expenses f
  == Models.program_expenses f + Models.administrative_expenses f
     + Models.fundraising_expenses f ->
  Models.program_expense_ratio f + Models.overhead_ratio f
  == (if Py.Qgt_bool (Models.total_expenses f) 0 then 1 else 0).
Proof.
  intro H. unfold Models.program_expense_ratio, Models.overhead_ratio.
  case_cmp; [|lra].
  setoid_replace
    (Models.program_expenses f / Models.total_expenses f
     + (Models.administrative_expenses f + Models.fundraising_expenses f)
       / Models.total_expenses f)
    with ((Models.program_expenses f + Models.administrative_expenses f
           + Models.fundraising_expenses f) / Models.total_expenses f)
    by (field; lra).
  rewrite <- H. field. lra.
Qed.

Lemma expense_ratios_complement_witness :
  Models.program_expense_ratio
    {| Models.year := 2022; Models.total_revenue := 10; Models.total_expenses := 10;
       Models.total_assets := 0; Models.total_liabilities := 0; Models.net_assets := 0;
       Models.program_expenses := 7; Models.administrative_expenses := 2;
       Models.fundraising_expenses := 1 |}
  + Models.overhead_ratio
      {| Models.year := 2022; Models.total_revenue := 10; Models.total_expenses := 10;
         Models.total_assets := 0; Models.total_liabilities := 0; Models.net_assets := 0;
         Models.program_expenses := 7; Models.administrative_expenses := 2;
         Models.fundraising_expenses := 1 |}
  == 1.
Proof.
  apply (expense_ratios_complement
           {| Models.year := 2022; Models.total_revenue := 10; Models.total_expenses := 10;
              Models.total_assets := 0; Models.total_liabilities := 0; Models.net_assets := 0;
              Models.program_expenses := 7; Models.administrative_expenses := 2;
              Models.fundraising_expenses := 1 |}).
  reflexivity.
Defined.

Lemma max_by_year_keeps_best (best : Models.FinancialData) (l : list Models.FinancialData) :
  (forall g, In g l -> (Models.year g <= Models.year best)%Z) ->
  Models.max_by_year best l = best.
Proof.
  revert best. induction l as [|g l IH]; intros best H; [reflexivity|].
  cbn [Models.max_by_year].
  assert (Hg : (Models.year best <? Models.year g)%Z = false).
  { apply Z.ltb_ge, H. now left. }
  rewrite Hg. apply IH. intros g' Hg'. apply H. now right.
Qed.

Lemma max_by_year_app (best : Models.FinancialData) (a b : list Models.FinancialData) :
  Models.max_by_year best (a ++ b) = Models.max_by_year (Models.max_by_year best a) b.
Proof.
  revert best. induction a as [|g a IH]; intro best; [reflexivity|].
  cbn [app Models.max_by_year]. apply IH.
Qed.

Lemma max_by_year_passes (best f : Models.FinancialData) (a : list Models.FinancialData) :
  (Models.year best < Models.year f)%Z ->
  (forall g, In g a -> (Models.year g < Models.year f)%Z) ->
  (Models.year (Models.max_by_year best a) < Models.year f)%Z.
Proof.
  revert best. induction a as [|g a IH]; intros best Hb Ha; [exact Hb|].
  cbn [Models.max_by_year]. apply IH.
  - destruct (Models.year best <? Models.year g)%Z; [apply Ha; now left | exact Hb].
  - intros g' Hg'. apply Ha. now right.
Qed.

(** X12.  Among several filings of the greatest year, the latest filing is the
    first one in the history. *)
Theorem get_latest_financials_first_of_latest_year
  (n : Models.Nonprofit) (before after : list Models.FinancialData)
  (f : Models.FinancialData) :
  Models.financial_history n = before ++ f :: after ->
  (forall g, In g before -> (Models.year g < Models.year f)%Z) ->
  (forall g, In g after -> (Models.year g <= Models.year f)%Z) ->
  Models.get_latest_financials n = Some f.
Proof.
  intros Hh Hb Ha. unfold Models.get_latest_financials. rewrite Hh.
  destruct before as [|b0 before]; cbn [app].
  - now rewrite max_by_year_keeps_best.
  - f_equal. rewrite max_by_year_app. cbn [Models.max_by_year].
    assert (Hlt : (Models.year (Models.max_by_year b0 before) < Models.year f)%Z).
    { apply max_by_year_passes; [apply Hb; now left|].
      intros g Hg. apply Hb. now right. }
    apply Z.ltb_lt in Hlt. rewrite Hlt. now apply max_by_year_keeps_best.
Qed.

Lemma get_latest_financials_first_of_latest_year_witness :
  Models.get_latest_financials Stated.org_two_years
  = Some (Stated.filing 2022 250000 100000 300000 100000 80000).
Proof.
  apply (@get_latest_financials_first_of_latest_year Stated.org_two_years
           [Stated.filing 2021 200000 100000 300000 100000 80000] []).
  - reflexivity.
  - intros g [<-|[]]. reflexivity.
  - intros g [].
Defined.

(** ** The ranking explanation *)

Section Explanation.
Import Models RankingEngine.
Variable fmt_pct1 fmt_thousands0 : Q -> string.
Variable fmt_thousands : Z -> string.
Variable str_nat : nat -> string.

Local Abbreviation explanation_lines :=
  (explanation_lines fmt_pct1 fmt_thousands0 fmt_thousands str_nat).
Local Abbreviation explain_ranking :=
  (explain_ranking fmt_pct1 fmt_thousands0 fmt_thousands str_nat).

(** X13.  For a scored organization the explanation opens with the name and rank
    header and the overall score, and ends with an empty line followed by the
    limited-data note exactly when the data quality score is below 0.5; for
    an unscored one [explain_ranking] raises. *)
Theorem explain_ranking_caveat (n : Nonprofit) :
  (overall_score n = None -> explain_ranking n = Py.Raise Py.TypeError)
  /\ (forall s, overall_score n = Some s ->
      exists body,
        let lines :=
          ("**" ++ name n ++ "** - Rank #" ++ str_ranking str_nat (ranking n))%string
            :: ("Overall Score: " ++ fmt_pct1 s)%string
            :: body
            ++ ""%string
            :: (if Py.Qlt_bool (data_quality_score n) 0.5
                then ["*Note: Limited data available may affect ranking accuracy*"%string]
                else []) in
        explanation_lines n = Py.Ok lines
        /\ explain_ranking n = Py.Ok (Py.join Py.newline lines)).
Proof.
  unfold RankingEngine.explain_ranking, RankingEngine.explanation_lines.
  split; [intros ->; reflexivity|].
  intros s ->. cbv zeta.
  match goal with
  | |- context [if Py.Qlt_bool _ _ then (?E ++ [?e]) ++ _ else _] =>
      assert (Hhead : exists body,
                 E = ("**" ++ name n ++ "** - Rank #"
                        ++ str_ranking str_nat (ranking n))%string
                       :: ("Overall Score: " ++ fmt_pct1 s)%string :: body)
  end.
  { repeat match goal with
           | |- context [match ?x with _ => _ end] => destruct x
           end; cbn [app]; eexists; reflexivity. }
  destruct Hhead as [body ->].
  exists body.
  destruct (Py.Qlt_bool (data_quality_score n) 0.5);
    cbn [app]; rewrite <- ?app_assoc; cbn [app]; split; reflexivity.
Qed.

End Explanation.

Lemma explain_ranking_caveat_witness :
  RankingEngine.explain_ranking (fun _ => "0"%string) (fun _ => "0"%string)
    (fun _ => "0"%string) (fun _ => "0"%string) Stated.org_no_history
  = Py.Raise Py.TypeError.
Proof.
  apply (proj1 (explain_ranking_caveat (fun _ => "0"%string) (fun _ => "0"%string)
                  (fun _ => "0"%string) (fun _ => "0"%string) Stated.org_no_history)).
  reflexivity.
Defined.

(** ** Mission alignment: keyword matching, service overlap, confidence *)

Lemma fold_left_Qplus_acc (xs : list Q) (a : Q) :
  fold_left Qplus xs a == a + fold_left Qplus xs 0.
Proof.
  revert a. induction xs as [|x xs IH]; intro a; cbn [fold_left]; [lra|].
  rewrite (IH (a + x)), (IH (0 + x)). lra.
Qed.

Lemma py_sum_nonneg (xs : list Q) : Forall (fun x => 0 <= x) xs -> 0 <= Py.sum xs.
Proof.
  unfold Py.sum. induction 1 as [|x xs Hx Hxs IH]; cbn [fold_left]; [lra|].
  rewrite fold_left_Qplus_acc. lra.
Qed.

Lemma inject_nat_nonneg (k : nat) : 0 <= inject_Z (Z.of_nat k).
Proof. change 0 with (inject_Z 0). rewrite <- Zle_Qle. lia. Qed.

Lemma mean_nonneg (xs : list Q) :
  Forall (fun x => 0 <= x) xs -> 0 <= MissionAlignmentAnalyzer.mean xs.
Proof.
  intro H. unfold MissionAlignmentAnalyzer.mean.
  destruct xs as [|x xs]; [vm_compute; discriminate|].
  apply Qle_shift_div_l.
  - change 0 with (inject_Z 0). rewrite <- Zlt_Qlt. cbn [List.length]. lia.
  - rewrite Qmult_0_l. now apply py_sum_nonneg.
Qed.

Section MissionScores.
Import Models MissionAlignmentAnalyzer.
Variable config : Config.
Variable keyword_similarities : string -> list Q.
Variable fmt_pct1 fmt_pct0 : Q -> string.

Lemma match_keywords_spec (w : Q) (text_lower : string) (keywords : list string)
  (acc : list string * Q) :
  fst (match_keywords w text_lower keywords acc)
  = fst acc ++ filter (fun k => Py.contains (Py.lower k) text_lower) keywords
  /\ (0 <= w -> snd acc <= snd (match_keywords w text_lower keywords acc)).
Proof.
  revert acc. induction keywords as [|k ks IH]; intro acc; cbn [match_keywords filter].
  - rewrite app_nil_r. split; [reflexivity | intros; lra].
  - destruct (IH (if Py.contains (Py.lower k) text_lower
                  then (fst acc ++ [k], snd acc + w) else acc)) as [H1 H2].
    rewrite H1. destruct (Py.contains (Py.lower k) text_lower); cbn [fst snd] in *.
    + rewrite <- app_assoc. split; [reflexivity|]. intro Hw. specialize (H2 Hw). lra.
    + split; [reflexivity | exact H2].
Qed.

(** X14.  [_keyword_matching] returns the configured keywords that occur in the
    text regardless of letter case, primary before secondary before tertiary
    and each group in configuration order, with a score in [0,1] (0 when no
    primary keyword is configured). *)
Theorem keyword_matching_spec (text : string) :
  snd (_keyword_matching config text)
  = filter (fun k => Py.contains (Py.lower k) (Py.lower text))
      (primary config ++ secondary config ++ tertiary config)
  /\ 0 <= fst (_keyword_matching config text) <= 1
  /\ (primary config = [] -> fst (_keyword_matching config text) == 0).
Proof.
  unfold _keyword_matching. cbv zeta. cbn [fst snd].
  set (t := Py.lower text).
  set (a1 := match_keywords 1 t (primary config) ([], 0)).
  set (a2 := match_keywords 0.7 t (secondary config) a1).
  set (a3 := match_keywords 0.4 t (tertiary config) a2).
  destruct (match_keywords_spec 1 t (primary config) ([], 0)) as [F1 S1].
  destruct (match_keywords_spec 0.7 t (secondary config) a1) as [F2 S2].
  destruct (match_keywords_spec 0.4 t (tertiary config) a2) as [F3 S3].
  fold a1 in F1, S1. fold a2 in F2, S2. fold a3 in F3, S3.
  cbn [fst snd app] in F1, S1.
  split; [|split].
  - rewrite F3, F2, F1, !filter_app, app_assoc. reflexivity.
  - assert (Hs : 0 <= snd a3).
    { specialize (S1 ltac:(lra)). specialize (S2 ltac:(lra)).
      specialize (S3 ltac:(lra)). lra. }
    case_cmp; [|lra].
    split; [|apply py_min_le_l].
    apply py_min_glb; [lra|]. apply Qle_shift_div_l; [exact E | lra].
  - intros ->. reflexivity.
Qed.

Lemma category_overlap_bounds (text : string) (details : ServiceCategory) :
  0 <= weight details ->
  0 <= category_overlap text details <= weight details.
Proof.
  intro Hw. unfold category_overlap. cbv zeta.
  set (p := fun sub => Py.contains (replace_underscore sub) text).
  destruct (0 <? List.length (subcategories details))%nat eqn:E; [|lra].
  apply Nat.ltb_lt in E.
  assert (Hpos : 0 < inject_Z (Z.of_nat (List.length (subcategories details)))).
  { change 0 with (inject_Z 0). rewrite <- Zlt_Qlt. lia. }
  assert (Hle : inject_Z (Z.of_nat (List.length (filter p (subcategories details))))
                <= inject_Z (Z.of_nat (List.length (subcategories details)))).
  { rewrite <- Zle_Qle. pose proof (filter_length_le p (subcategories details)). lia. }
  pose proof (inject_nat_nonneg (List.length (filter p (subcategories details)))) as H0.
  assert (Hr : 0 <= inject_Z (Z.of_nat (List.length (filter p (subcategories details))))
                    / inject_Z (Z.of_nat (List.length (subcategories details))) <= 1).
  { split; [apply Qle_shift_div_l | apply Qle_shift_div_r]; auto; lra. }
  split; nra.
Qed.

(** X15.  [_service_category_overlap] answers for every configured category, in
    configuration order, and the value of a category of non-negative weight
    lies between 0 and that weight. *)
Theorem service_category_overlap_bounds (nonprofit : Nonprofit) :
  Forall2
    (fun entry category =>
       fst entry = fst category
       /\ (0 <= weight (snd category) ->
           0 <= snd entry <= weight (snd category)))
    (_service_category_overlap config nonprofit)
    (service_categories config).
Proof.
  unfold _service_category_overlap. cbv zeta.
  induction (service_categories config) as [|cd l IH]; cbn [map]; constructor.
  - cbn [fst snd]. split; [reflexivity | apply category_overlap_bounds].
  - exact IH.
Qed.

Lemma semantic_similarity_bounds (text : string) :
  0 <= _semantic_similarity keyword_similarities text <= 1.
Proof.
  unfold _semantic_similarity. destruct (negb (Py.truthy text)); [lra|].
  cbv zeta. unfold Py.max, Py.min. repeat case_cmp; lra.
Qed.

Lemma analyzer_capacity_bounds_aux (nonprofit : Nonprofit) :
  0.5 <= _capacity_score nonprofit <= 1.
Proof.
  unfold _capacity_score. cbv zeta.
  split; [apply py_min_glb; [lra|] | apply py_min_le_l].
  assert (Hsocial : forall k : nat, 0 <= Py.min 0.1 (inject_Z (Z.of_nat k) * 0.02)).
  { intro k. pose proof (inject_nat_nonneg k). apply py_min_glb; lra. }
  destruct (get_latest_financials nonprofit) as [latest|];
    destruct (social_media nonprofit) as [|sm sms];
    repeat case_cmp;
    try pose proof (Hsocial (List.length
                     (filter (fun sm0 => (100 <? followers sm0)%Z) (sm :: sms))));
    lra.
Qed.

(** The analyzer's capacity sub-score lies between its base 0.5 and 1 for
    every organization, whatever its filings and social media accounts. *)
Lemma analyzer_capacity_score_bounds (nonprofit : Nonprofit) :
  0.5 <= _capacity_score nonprofit <= 1.
Proof. apply analyzer_capacity_bounds_aux. Qed.

(** X16.  The confidence lies in [0,1]; it is 0 exactly when none of the six
    kinds of data is present (mission statement, programs, filings, website,
    social media accounts, leadership); and no organization has a higher
    confidence than one for which all six are present. *)
Theorem confidence_complete (nonprofit other : Nonprofit) :
  0 <= _calculate_confidence nonprofit <= 1
  /\ (_calculate_confidence nonprofit == 0 <->
      Py.truthy (mission_statement nonprofit) = false
      /\ programs nonprofit = []
      /\ financial_history nonprofit = []
      /\ (forall w, website nonprofit = Some w -> Py.truthy w = false)
      /\ social_media nonprofit = []
      /\ leadership nonprofit = [])
  /\ (Py.truthy (mission_statement nonprofit) = true
      /\ programs nonprofit <> []
      /\ financial_history nonprofit <> []
      /\ (exists w, website nonprofit = Some w /\ Py.truthy w = true)
      /\ social_media nonprofit <> []
      /\ leadership nonprofit <> [] ->
      _calculate_confidence other <= _calculate_confidence nonprofit).
Proof.
  assert (Hb : forall n, 0 <= _calculate_confidence n <= 1).
  { intro n. unfold _calculate_confidence. cbv zeta.
    destruct (Py.truthy (mission_statement n));
      destruct (programs n);
      destruct (financial_history n);
      (destruct (website n) as [w|]; [destruct (Py.truthy w)|]);
      destruct (social_media n);
      destruct (leadership n);
      vm_compute; split; discriminate. }
  split; [apply Hb|]. split.
  - unfold _calculate_confidence. cbv zeta.
    destruct (Py.truthy (mission_statement nonprofit));
      destruct (programs nonprofit) as [|p ps];
      destruct (financial_history nonprofit) as [|f fs];
      (destruct (website nonprofit) as [w|]; [destruct (Py.truthy w) eqn:Ew|]);
      destruct (social_media nonprofit) as [|sm sms];
      destruct (leadership nonprofit) as [|l ls];
      (split;
       [ intro H; vm_compute in H; try discriminate H;
         repeat split; try reflexivity; intros w' Hw'; congruence
       | intros (H1 & H2 & H3 & H4 & H5 & H6);
         try discriminate;
         try (specialize (H4 _ eq_refl); congruence);
         vm_compute; reflexivity ]).
  - intros (H1 & H2 & H3 & (w & H4 & H5) & H6 & H7).
    apply Qle_trans with 1; [apply Hb|].
    unfold _calculate_confidence. cbv zeta. rewrite H1, H4, H5.
    destruct (programs nonprofit); [congruence|].
    destruct (financial_history nonprofit); [congruence|].
    destruct (social_media nonprofit); [congruence|].
    destruct (leadership nonprofit); [congruence|].
    vm_compute. discriminate.
Qed.

Lemma analyze_alignment_score (nonprofit : Nonprofit) :
  score (analyze_alignment config keyword_similarities fmt_pct1 fmt_pct0 nonprofit)
  = Py.min 1 (alignment_overall_score config keyword_similarities nonprofit).
Proof.
  unfold analyze_alignment.
  now destruct (_keyword_matching config (_compile_nonprofit_text nonprofit)).
Qed.

(** X17.  The mission-alignment score never exceeds 1; with non-negative scoring
    weights, non-negative category weights and no negative program expenses
    it is not negative either. *)
Theorem alignment_score_bounds (nonprofit : Nonprofit) :
  0 <= w_mission_alignment (scoring_weights config) ->
  0 <= w_service_overlap (scoring_weights config) ->
  0 <= w_geographic_coverage (scoring_weights config) ->
  0 <= w_organizational_capacity (scoring_weights config) ->
  0 <= w_partnership_history (scoring_weights config) ->
  (forall category, In category (service_categories config) ->
                    0 <= weight (snd category)) ->
  (forall f, In f (financial_history nonprofit) -> 0 <= program_expenses f) ->
  0 <= score (analyze_alignment config keyword_similarities fmt_pct1 fmt_pct0 nonprofit)
  <= 1.
Proof.
  intros W1 W2 W3 W4 W5 Hcat Hf. rewrite analyze_alignment_score.
  split; [|apply py_min_le_l]. apply py_min_glb; [lra|].
  unfold alignment_overall_score, _geographic_alignment, _partnership_potential.
  cbv zeta.
  pose proof (semantic_similarity_bounds (_compile_nonprofit_text nonprofit)) as Hsem.
  pose proof (analyzer_capacity_bounds_aux nonprofit) as Hcap.
  destruct (stability_bounds_aux nonprofit) as [_ Hstab]. specialize (Hstab Hf).
  assert (Hmean : 0 <= mean (map snd (_service_category_overlap config nonprofit))).
  { apply mean_nonneg. unfold _service_category_overlap. cbv zeta.
    rewrite map_map. cbn [snd]. apply Forall_forall. intros x Hx.
    apply in_map_iff in Hx. destruct Hx as (cd & <- & Hcd).
    apply category_overlap_bounds. now apply Hcat. }
  nra.
Qed.

End MissionScores.

Lemma alignment_score_bounds_witness :
  0 <= Models.score
         (MissionAlignmentAnalyzer.analyze_alignment Stated.sample_config
            Stated.sample_similarities (fun _ => "0"%string) (fun _ => "0"%string)
            Stated.org_two_years)
  <= 1.
Proof.
  apply alignment_score_bounds; try (vm_compute; discriminate).
  - intros category [<-|[]]. vm_compute. discriminate.
  - intros f [<-|[<-|[]]]; vm_compute; discriminate.
Defined.

(** ** Partnership ROI *)

Lemma int_nonneg (q : Q) : 0 <= q -> (0 <= PyMore.int q)%Z.
Proof.
  intro H. unfold PyMore.int. apply Z.quot_pos; [|lia].
  unfold Qle in H. cbn in H. lia.
Qed.

Lemma fold_add_nonneg (xs : list Z) (a : Z) :
  (0 <= a)%Z -> Forall (fun x => (0 <= x)%Z) xs -> (0 <= fold_left Z.add xs a)%Z.
Proof.
  intros Ha H. revert a Ha. induction H as [|x xs Hx Hxs IH]; intros a Ha; cbn; [exact Ha|].
  apply IH. lia.
Qed.

Section ROI.
Import Models ModelsRest ROICalculator.

Lemma size_factor_bounds (r : Q) : 0 <= r -> 0 <= Py.min 1 (r / 5000000) <= 1.
Proof.
  intro H. split; [|apply py_min_le_l].
  apply py_min_glb; [lra|]. apply Qle_shift_div_l; lra.
Qed.

Lemma base_cost_bounds (t : string) : 25000 <= base_cost t <= 100000.
Proof.
  unfold base_cost.
  destruct (String.eqb t "standard"); [lra|].
  destruct (String.eqb t "strategic"); [lra|].
  destruct (String.eqb t "merger"); lra.
Qed.

Lemma investment_bounds_aux (nonprofit : Nonprofit) (t : string) :
  (forall f, In f (financial_history nonprofit) -> 0 <= total_revenue f) ->
  base_cost t + 25000 <= _estimate_investment_required nonprofit t
  /\ _estimate_investment_required nonprofit t
     <= base_cost t + 45000
        + 1000 * inject_Z (Z.of_nat (List.length (programs nonprofit))).
Proof.
  intro Hrev. unfold _estimate_investment_required. cbv zeta.
  pose proof (inject_nat_nonneg (List.length (programs nonprofit))) as Hn.
  destruct (get_latest_financials nonprofit) as [latest|] eqn:Hl.
  - destruct (get_latest_financials_spec nonprofit Hl) as [Hin _].
    pose proof (size_factor_bounds (Hrev latest Hin)) as Hs.
    destruct (programs nonprofit) as [|p ps] eqn:Hp.
    + cbn [List.length] in *. split; lra.
    + split; lra.
  - destruct (programs nonprofit) as [|p ps] eqn:Hp.
    + cbn [List.length] in *. split; lra.
    + split; lra.
Qed.

(** X18.  With no negative revenue on file, the investment estimate is at least
    the base cost of the partnership type plus 25000 (hence at least 50000
    and positive) and at most the base cost plus 45000 plus 1000 per program;
    a partnership type that is not listed costs as a standard one. *)
Theorem investment_estimate_bounds (nonprofit : Nonprofit) (t : string) :
  (forall f, In f (financial_history nonprofit) -> 0 <= total_revenue f) ->
  50000 <= base_cost t + 25000 <= _estimate_investment_required nonprofit t
  /\ _estimate_investment_required nonprofit t
     <= base_cost t + 45000
        + 1000 * inject_Z (Z.of_nat (List.length (programs nonprofit)))
  /\ (t <> "strategic"%string -> t <> "merger"%string ->
      _estimate_investment_required nonprofit t
      = _estimate_investment_required nonprofit "standard").
Proof.
  intro Hrev. destruct (investment_bounds_aux nonprofit t Hrev) as [H1 H2].
  pose proof (base_cost_bounds t) as Hb.
  repeat split; try lra.
  intros Hs Hm. unfold _estimate_investment_required, base_cost.
  destruct (String.eqb_spec t "standard"); [now subst|].
  destruct (String.eqb_spec t "strategic"); [contradiction|].
  destruct (String.eqb_spec t "merger"); [contradiction|]. reflexivity.
Qed.

End ROI.

Lemma investment_estimate_bounds_witness :
  50000 <= ROICalculator._estimate_investment_required Stated.org_two_years "strategic".
Proof.
  destruct (@investment_estimate_bounds Stated.org_two_years "strategic"%string)
    as ((H1 & H2) & _).
  - intros f [<-|[<-|[]]]; vm_compute; discriminate.
  - lra.
Defined.

Section ROIValue.
Import Models ModelsRest ROICalculator.
Variable fmt_f1 fmt_thousands0 : Q -> string.
Variable fmt_thousands str_int : Z -> string.

Local Abbreviation calculate_roi :=
  (calculate_roi fmt_f1 fmt_thousands0 fmt_thousands str_int).

(** X19.  The detailed metrics agree with [calculate_roi] for a standard
    partnership, with or without filings: the same total value, an impact
    multiplier of one plus half the ROI ratio of the metrics, and indirect
    savings that are the cost savings less the direct savings. *)
Theorem detailed_metrics_agree_with_roi (nonprofit : Nonprofit) (status : NonprofitStatus) :
  let metrics := calculate_detailed_metrics nonprofit status in
  let roi := calculate_roi nonprofit status "standard" in
  total_value metrics = estimated_value roi
  /\ impact_multiplier roi == 1 + roi_ratio metrics * 0.5
  /\ indirect_cost_savings metrics == cost_savings roi - direct_cost_savings metrics.
Proof.
  cbv zeta. unfold calculate_detailed_metrics, ROICalculator.calculate_roi.
  destruct (get_latest_financials nonprofit) as [latest|].
  - cbv zeta. cbn [total_value estimated_value direct_cost_savings
                   indirect_cost_savings cost_savings impact_multiplier roi_ratio].
    repeat split; reflexivity.
  - cbn. repeat split; try reflexivity; lra.
Qed.

Lemma resource_total_nonneg (nonprofit : Nonprofit) (f : FinancialData) :
  0 <= program_expenses f ->
  (forall sm, In sm (social_media nonprofit) -> (0 <= followers sm)%Z) ->
  0 <= resource_total (_calculate_resource_sharing_value nonprofit f).
Proof.
  intros Hpe Hsm. unfold _calculate_resource_sharing_value. cbv zeta.
  cbn [resource_total]. unfold Py.sum. cbn [fold_left].
  assert (Hf : 0 <= (if Py.Qgt_bool (total_assets f) 500000
                     then total_assets f * 0.1 * 0.02 * 12 else 0))
    by (case_cmp; lra).
  assert (Hv : 0 <= match social_media nonprofit with
                    | [] => 0
                    | _ => inject_Z (fold_left Z.add (map followers (social_media nonprofit)) 0%Z)
                           * 0.01 * 20 * VOLUNTEER_HOUR_VALUE
                    end).
  { destruct (social_media nonprofit) as [|sm sms] eqn:E; [lra|].
    assert (Hsum : (0 <= fold_left Z.add (map followers (sm :: sms)) 0)%Z).
    { apply fold_add_nonneg; [lia|]. apply Forall_forall. intros x Hx.
      apply in_map_iff in Hx. destruct Hx as (s & <- & Hs). now apply Hsm. }
    assert (Hq : 0 <= inject_Z (fold_left Z.add (map followers (sm :: sms)) 0%Z))
      by (change 0 with (inject_Z 0); now rewrite <- Zle_Qle).
    unfold VOLUNTEER_HOUR_VALUE. nra. }
  assert (He : 0 <= (if Py.Qgt_bool (program_expenses f) 0
                     then program_expenses f * 0.05 else 0))
    by (case_cmp; lra).
  assert (Hx : 0 <= match programs nonprofit with
                    | [] => 0
                    | _ => inject_Z (Z.of_nat (List.length (programs nonprofit))) * 5000
                    end).
  { pose proof (inject_nat_nonneg (List.length (programs nonprofit))).
    destruct (programs nonprofit); lra. }
  lra.
Qed.

Lemma savings_total_bound (nonprofit : Nonprofit) (f : FinancialData) :
  0 <= total_revenue f -> 0 <= total_expenses f ->
  5000 <= savings_total (_calculate_cost_savings nonprofit f).
Proof.
  intros Hr He. unfold _calculate_cost_savings. cbv zeta.
  cbn [savings_total]. unfold Py.sum. cbn [fold_left].
  assert (Hm : 0 <= (if Py.Qgt_bool (fundraising_expenses f) 0
                     then fundraising_expenses f * 0.15 else 0))
    by (case_cmp; lra).
  assert (Ha : 0 <= (if Py.Qgt_bool (administrative_expenses f) 0
                     then administrative_expenses f * 0.10 else 0))
    by (case_cmp; lra).
  assert (Ht : 0 <= total_revenue f / 1000000) by (apply Qle_shift_div_l; lra).
  lra.
Qed.

Lemma reach_nonneg (nonprofit : Nonprofit) :
  (0 <= new_beneficiaries (_calculate_reach_expansion_value nonprofit))%Z
  /\ 0 <= reach_total (_calculate_reach_expansion_value nonprofit).
Proof.
  unfold _calculate_reach_expansion_value. cbv zeta.
  destruct (get_latest_financials nonprofit) as [latest|]; [|cbn; split; [lia|lra]].
  case_cmp; [|cbn; split; [lia|lra]].
  cbn [new_beneficiaries reach_total].
  assert (Hq : 0 <= program_expenses latest / 150 * 0.3).
  { assert (0 <= program_expenses latest / 150) by (apply Qle_shift_div_l; lra). lra. }
  pose proof (int_nonneg Hq) as Hn. split; [exact Hn|].
  assert (Hi : 0 <= inject_Z (PyMore.int (program_expenses latest / 150 * 0.3)))
    by (change 0 with (inject_Z 0); now rewrite <- Zle_Qle).
  unfold BENEFICIARY_SERVICE_VALUE, DONOR_LIFETIME_VALUE. nra.
Qed.

Lemma capability_nonneg (nonprofit : Nonprofit) :
  0 <= _calculate_capability_enhancement nonprofit.
Proof.
  unfold _calculate_capability_enhancement. cbv zeta.
  pose proof (inject_nat_nonneg (List.length (programs nonprofit))).
  pose proof (inject_nat_nonneg (List.length (leadership nonprofit))).
  destruct (programs nonprofit); destruct (get_latest_financials nonprofit);
    destruct (leadership nonprofit); repeat case_cmp; lra.
Qed.

Lemma risk_nonneg (nonprofit : Nonprofit) (status : NonprofitStatus) :
  (forall f, In f (financial_history nonprofit) -> 0 <= program_expenses f) ->
  0 <= _calculate_risk_mitigation_value nonprofit status.
Proof.
  intro Hpe. unfold _calculate_risk_mitigation_value. cbv zeta.
  destruct (get_latest_financials nonprofit) as [latest|] eqn:Hl.
  - destruct (get_latest_financials_spec nonprofit Hl) as [Hin _].
    specialize (Hpe latest Hin).
    destruct (status_eqb status ACTIVE); repeat case_cmp; lra.
  - destruct (status_eqb status ACTIVE); repeat case_cmp; lra.
Qed.

(** X20.  For an organization with filings and no negative amount on file, the
    estimated partnership value is at least the cost savings, which are at
    least 5000; the number of new beneficiaries is not negative; the impact
    multiplier exceeds 0.5, and it reaches 1 exactly when the estimated value
    covers the investment estimate. *)
Theorem roi_value_bounds (nonprofit : Nonprofit) (status : NonprofitStatus) (t : string) :
  financial_history nonprofit <> [] ->
  plausible nonprofit ->
  let roi := calculate_roi nonprofit status t in
  5000 <= cost_savings roi <= estimated_value roi
  /\ (0 <= reach_expansion roi)%Z
  /\ 0.5 < impact_multiplier roi
  /\ (1 <= impact_multiplier roi <->
      _estimate_investment_required nonprofit t <= estimated_value roi).
Proof.
  intros Hne [Hfil Hsm]. cbv zeta. unfold ROICalculator.calculate_roi.
  destruct (get_latest_financials nonprofit) as [latest|] eqn:Hl.
  2:{ unfold get_latest_financials in Hl.
      destruct (financial_history nonprofit); [contradiction | discriminate]. }
  destruct (get_latest_financials_spec nonprofit Hl) as [Hin _].
  destruct (Hfil latest Hin) as (Hr & He & Ha & Hp & Had & Hfu).
  cbv zeta. cbn [cost_savings estimated_value reach_expansion impact_multiplier].
  pose proof (resource_total_nonneg nonprofit latest Hp Hsm) as Hres.
  pose proof (savings_total_bound nonprofit latest Hr He) as Hsav.
  destruct (reach_nonneg nonprofit) as [Hnb Hreach].
  pose proof (capability_nonneg nonprofit) as Hcap.
  assert (Hrisk : 0 <= _calculate_risk_mitigation_value nonprofit status).
  { apply risk_nonneg. intros f Hf. now destruct (Hfil f Hf) as (_ & _ & _ & ? & _). }
  assert (Hinv : 50000 <= _estimate_investment_required nonprofit t).
  { destruct (@investment_bounds_aux nonprofit t) as [H1 _].
    - intros f Hf. now destruct (Hfil f Hf).
    - pose proof (base_cost_bounds t). lra. }
  set (v := resource_total (_calculate_resource_sharing_value nonprofit latest)
            + savings_total (_calculate_cost_savings nonprofit latest)
            + reach_total (_calculate_reach_expansion_value nonprofit)
            + _calculate_capability_enhancement nonprofit
            + _calculate_risk_mitigation_value nonprofit status) in *.
  set (inv := _estimate_investment_required nonprofit t) in *.
  assert (Hv : savings_total (_calculate_cost_savings nonprofit latest) <= v)
    by (subst v; lra).
  clearbody v inv.
  unfold roi_ratio_of.
  assert (Hg : Py.Qgt_bool inv 0 = true) by (apply Qgt_bool_iff; lra).
  rewrite Hg.
  assert (Hlow : -1 < (v - inv) / inv) by (apply Qlt_shift_div_l; lra).
  split; [split; lra|]. split; [exact Hnb|]. split; [lra|]. split.
  - intro H1.
    assert (Hz : 0 <= (v - inv) / inv) by lra.
    assert (Hmul : (v - inv) / inv * inv == v - inv) by (field; lra).
    assert (0 <= (v - inv) / inv * inv) by (apply Qmult_le_0_compat; lra).
    lra.
  - intro Hcover.
    assert (Hz : 0 <= (v - inv) / inv) by (apply Qle_shift_div_l; lra).
    lra.
Qed.

End ROIValue.

Lemma roi_value_bounds_witness :
  5000 <= Models.cost_savings
            (ROICalculator.calculate_roi (fun _ => "0"%string) (fun _ => "0"%string)
               (fun _ => "0"%string) (fun _ => "0"%string)
               Stated.org_two_years ModelsRest.ACTIVE "standard").
Proof.
  destruct (@roi_value_bounds (fun _ => "0"%string) (fun _ => "0"%string)
              (fun _ => "0"%string) (fun _ => "0"%string)
              Stated.org_two_years ModelsRest.ACTIVE "standard"%string)
    as ((H & _) & _).
  - discriminate.
  - split.
    + intros f [<-|[<-|[]]]; vm_compute; repeat split; discriminate.
    + intros sm [].
  - exact H.
Defined.

(** ** Data quality *)

(** A weight scaled by [min(1, len/k)]: between 0 and the weight, and the
    full weight from [k] entries on. *)
Lemma scaled_weight (A : Type) (l : list A) (w d : Q) (k : nat) :
  0 < w -> (0 < k)%nat -> d == inject_Z (Z.of_nat k) ->
  let t :=
    match l with
    | [] => 0
    | _ => w * Py.min 1 (inject_Z (Z.of_nat (List.length l)) / d)
    end in
  0 <= t <= w /\ (t == w <-> (k <= List.length l)%nat).
Proof.
  intros Hw Hk Hd. cbv zeta.
  assert (Hdpos : 0 < d).
  { rewrite Hd. change 0 with (inject_Z 0). rewrite <- Zlt_Qlt. lia. }
  destruct l as [|x l'] eqn:El.
  - split; [lra|]. split; [intro H; lra | cbn; lia].
  - rewrite <- El. clear El.
    set (n := inject_Z (Z.of_nat (List.length l))).
    assert (Hn : 0 <= n) by apply inject_nat_nonneg.
    assert (Hq : 0 <= n / d) by (apply Qle_shift_div_l; lra).
    assert (Hfull : 1 <= n / d <-> (k <= List.length l)%nat).
    { split; intro H.
      - assert (Hmul : n / d * d == n) by (field; lra).
        assert (Hdn : d <= n) by nra.
        subst n. rewrite Hd in Hdn. rewrite <- Zle_Qle in Hdn. lia.
      - apply Qle_shift_div_l; [exact Hdpos|]. rewrite Qmult_1_l, Hd. subst n.
        rewrite <- Zle_Qle. lia. }
    unfold Py.min. case_cmp.
    + split; [split; nra|]. split; intro H.
      * exfalso. nra.
      * apply Hfull in H. lra.
    + split; [lra|]. split; intro H; [apply Hfull; lra | lra].
Qed.

Section DataQuality.
Import Models ModelsRest ApiMain.

Lemma data_quality_as_sum (nonprofit : Nonprofit) (address : option Address) :
  calculate_data_quality nonprofit address
  == Py.min 1
       ((if Py.truthy (mission_statement nonprofit) then 0.2 else 0)
        + match financial_history nonprofit with
          | [] => 0
          | _ => 0.25 * Py.min 1 (inject_Z (Z.of_nat (List.length (financial_history nonprofit))) / 3)
          end
        + match programs nonprofit with
          | [] => 0
          | _ => 0.15 * Py.min 1 (inject_Z (Z.of_nat (List.length (programs nonprofit))) / 5)
          end
        + match website nonprofit with
          | Some w => if Py.truthy w then 0.1 else 0
          | None => 0
          end
        + match social_media nonprofit with
          | [] => 0
          | _ => 0.1 * Py.min 1 (inject_Z (Z.of_nat (List.length (social_media nonprofit))) / 3)
          end
        + match leadership nonprofit with
          | [] => 0
          | _ => 0.1 * Py.min 1 (inject_Z (Z.of_nat (List.length (leadership nonprofit))) / 5)
          end
        + match address with
          | Some a => if Py.truthy (street a) then 0.1 else 0
          | None => 0
          end).
Proof.
  unfold calculate_data_quality. cbv zeta.
  apply py_min_compat; [reflexivity|].
  destruct (Py.truthy (mission_statement nonprofit));
    destruct (financial_history nonprofit);
    destruct (programs nonprofit);
    (destruct (website nonprofit) as [w|]; [destruct (Py.truthy w)|]);
    destruct (social_media nonprofit);
    destruct (leadership nonprofit);
    (destruct address as [a|]; [destruct (Py.truthy (street a))|]);
    lra.
Qed.

Lemma data_quality_terms (nonprofit : Nonprofit) (address : option Address) :
  exists a1 t2 t3 a4 t5 t6 a7,
    calculate_data_quality nonprofit address
    == Py.min 1 (a1 + t2 + t3 + a4 + t5 + t6 + a7)
    /\ (0 <= a1 <= 0.2
        /\ (a1 == 0.2 <-> Py.truthy (mission_statement nonprofit) = true)
        /\ (a1 == 0 <-> Py.truthy (mission_statement nonprofit) = false))
    /\ (0 <= t2 <= 0.25
        /\ (t2 == 0.25 <-> (3 <= List.length (financial_history nonprofit))%nat)
        /\ (t2 == 0 <-> financial_history nonprofit = []))
    /\ (0 <= t3 <= 0.15
        /\ (t3 == 0.15 <-> (5 <= List.length (programs nonprofit))%nat)
        /\ (t3 == 0 <-> programs nonprofit = []))
    /\ (0 <= a4 <= 0.1
        /\ (a4 == 0.1 <-> exists w, website nonprofit = Some w /\ Py.truthy w = true)
        /\ (a4 == 0 <-> forall w, website nonprofit = Some w -> Py.truthy w = false))
    /\ (0 <= t5 <= 0.1
        /\ (t5 == 0.1 <-> (3 <= List.length (social_media nonprofit))%nat)
        /\ (t5 == 0 <-> social_media nonprofit = []))
    /\ (0 <= t6 <= 0.1
        /\ (t6 == 0.1 <-> (5 <= List.length (leadership nonprofit))%nat)
        /\ (t6 == 0 <-> leadership nonprofit = []))
    /\ (0 <= a7 <= 0.1
        /\ (a7 == 0.1 <-> exists a, address = Some a /\ Py.truthy (street a) = true)
        /\ (a7 == 0 <-> forall a, address = Some a -> Py.truthy (street a) = false)).
Proof.
  do 7 eexists. split; [apply data_quality_as_sum|].
  assert (Hz : forall (A : Type) (l : list A) (w d : Q) (k : nat),
             0 < w -> (0 < k)%nat -> d == inject_Z (Z.of_nat k) ->
             (match l with
              | [] => 0
              | _ => w * Py.min 1 (inject_Z (Z.of_nat (List.length l)) / d)
              end == 0 <-> l = [])).
  { intros A l w d k Hw Hk Hd.
    assert (Hdpos : 0 < d).
    { rewrite Hd. change 0 with (inject_Z 0). rewrite <- Zlt_Qlt. lia. }
    destruct l as [|x l']; [split; reflexivity|].
    split; [|discriminate]. intro H. exfalso.
    set (n := inject_Z (Z.of_nat (List.length (x :: l')))) in H.
    assert (Hn : 0 < n).
    { subst n. change 0 with (inject_Z 0). rewrite <- Zlt_Qlt. cbn [List.length]. lia. }
    assert (Hq : 0 < n / d) by (apply Qlt_shift_div_l; lra).
    revert H. unfold Py.min. case_cmp; intro H; nra. }
  destruct (@scaled_weight _ (financial_history nonprofit) 0.25 3 3
              ltac:(lra) ltac:(lia) ltac:(reflexivity)) as [B2 F2].
  destruct (@scaled_weight _ (programs nonprofit) 0.15 5 5
              ltac:(lra) ltac:(lia) ltac:(reflexivity)) as [B3 F3].
  destruct (@scaled_weight _ (social_media nonprofit) 0.1 3 3
              ltac:(lra) ltac:(lia) ltac:(reflexivity)) as [B5 F5].
  destruct (@scaled_weight _ (leadership nonprofit) 0.1 5 5
              ltac:(lra) ltac:(lia) ltac:(reflexivity)) as [B6 F6].
  pose proof (Hz _ (financial_history nonprofit) 0.25 3 3%nat
                ltac:(lra) ltac:(lia) ltac:(reflexivity)) as Z2.
  pose proof (Hz _ (programs nonprofit) 0.15 5 5%nat
                ltac:(lra) ltac:(lia) ltac:(reflexivity)) as Z3.
  pose proof (Hz _ (social_media nonprofit) 0.1 3 3%nat
                ltac:(lra) ltac:(lia) ltac:(reflexivity)) as Z5.
  pose proof (Hz _ (leadership nonprofit) 0.1 5 5%nat
                ltac:(lra) ltac:(lia) ltac:(reflexivity)) as Z6.
  split; [|split; [auto|split; [auto|split; [|split; [auto|split; [auto|]]]]]].
  - destruct (Py.truthy (mission_statement nonprofit));
      (split; [lra|]); split; split; intro H;
      try reflexivity; try discriminate; lra.
  - destruct (website nonprofit) as [w|]; [destruct (Py.truthy w) eqn:Ew|];
      (split; [lra|]); split; split; intro H;
      try lra; try (exists w; auto); try (intros w' Hw'; congruence);
      try (destruct H as (w' & Hw & Ht); try discriminate; congruence);
      try (specialize (H _ eq_refl); congruence); try reflexivity.
  - destruct address as [a|]; [destruct (Py.truthy (street a)) eqn:Ea|];
      (split; [lra|]); split; split; intro H;
      try lra; try (exists a; auto); try (intros a' Ha'; congruence);
      try (destruct H as (a' & Ha & Ht); try discriminate; congruence);
      try (specialize (H _ eq_refl); congruence); try reflexivity.
Qed.

(** X21.  The data quality score lies in [0,1]; it is 0 exactly when the record
    has nothing of the seven kinds of data (mission statement, filings,
    programs, website, social media accounts, leaders, street address); and
    no record scores higher than a complete one: a mission statement, at
    least three filings, five programs, a website, three social media
    accounts, five leaders and a street address. *)
Theorem data_quality_complete (nonprofit : Nonprofit) (address : option Address)
  (other : Nonprofit) (other_address : option Address) :
  0 <= calculate_data_quality nonprofit address <= 1
  /\ (calculate_data_quality nonprofit address == 0 <->
      Py.truthy (mission_statement nonprofit) = false
      /\ financial_history nonprofit = []
      /\ programs nonprofit = []
      /\ (forall w, website nonprofit = Some w -> Py.truthy w = false)
      /\ social_media nonprofit = []
      /\ leadership nonprofit = []
      /\ (forall a, address = Some a -> Py.truthy (street a) = false))
  /\ (complete nonprofit address ->
      calculate_data_quality other other_address
      <= calculate_data_quality nonprofit address).
Proof.
  assert (Hb : forall n a, 0 <= calculate_data_quality n a <= 1).
  { intros n a.
    destruct (data_quality_terms n a)
      as (a1 & t2 & t3 & a4 & t5 & t6 & a7 & -> & (B1 & _) & (B2 & _) & (B3 & _)
          & (B4 & _) & (B5 & _) & (B6 & _) & (B7 & _)).
    unfold Py.min. case_cmp; lra. }
  split; [apply Hb|].
  pose proof (Hb other other_address) as Ho.
  destruct (data_quality_terms nonprofit address)
    as (a1 & t2 & t3 & a4 & t5 & t6 & a7 & Heq & (B1 & F1 & Z1) & (B2 & F2 & Z2)
        & (B3 & F3 & Z3) & (B4 & F4 & Z4) & (B5 & F5 & Z5) & (B6 & F6 & Z6)
        & (B7 & F7 & Z7)).
  assert (Hmin : Py.min 1 (a1 + t2 + t3 + a4 + t5 + t6 + a7)
                 == a1 + t2 + t3 + a4 + t5 + t6 + a7).
  { unfold Py.min. case_cmp; lra. }
  rewrite Heq, Hmin. split.
  - split.
    + intro H.
      assert (a1 == 0) by lra. assert (t2 == 0) by lra.
      assert (t3 == 0) by lra. assert (a4 == 0) by lra.
      assert (t5 == 0) by lra. assert (t6 == 0) by lra.
      assert (a7 == 0) by lra.
      repeat split; [apply Z1 | apply Z2 | apply Z3 | apply Z4 | apply Z5
                    | apply Z6 | apply Z7]; assumption.
    + intros (C1 & C2 & C3 & C4 & C5 & C6 & C7).
      apply Z1 in C1. apply Z2 in C2. apply Z3 in C3. apply Z4 in C4.
      apply Z5 in C5. apply Z6 in C6. apply Z7 in C7. lra.
  - unfold complete. intros (C1 & C2 & C3 & C4 & C5 & C6 & C7).
    apply F1 in C1. apply F2 in C2. apply F3 in C3. apply F4 in C4.
    apply F5 in C5. apply F6 in C6. apply F7 in C7. lra.
Qed.

End DataQuality.

(** ** The answer of the location search *)

Lemma StronglySorted_app (A : Type) (R : A -> A -> Prop) (a b : list A) :
  StronglySorted R a -> StronglySorted R b ->
  (forall x y, In x a -> In y b -> R x y) ->
  StronglySorted R (a ++ b).
Proof.
  intros Ha Hb Hab. induction Ha as [|x a Ha IH Hall]; [exact Hb|].
  cbn. constructor.
  - apply IH. intros u v Hu Hv. apply Hab; [now right | exact Hv].
  - apply Forall_app. split; [exact Hall|].
    apply Forall_forall. intros y Hy. apply Hab; [now left | exact Hy].
Qed.

Lemma StronglySorted_firstn (A : Type) (R : A -> A -> Prop) (n : nat) (l : list A) :
  StronglySorted R l -> StronglySorted R (firstn n l).
Proof.
  intro H. revert n. induction H as [|x l Hs IH Hall]; intro n.
  - rewrite firstn_nil. constructor.
  - destruct n as [|n]; [constructor|]. cbn. constructor; [apply IH|].
    rewrite Forall_forall in *. intros y Hy. apply Hall.
    rewrite <- (firstn_skipn n l). apply in_or_app. now left.
Qed.

Lemma firstn_incl (A : Type) (n : nat) (l : list A) (x : A) :
  In x (firstn n l) -> In x l.
Proof.
  intro H. rewrite <- (firstn_skipn n l). apply in_or_app. now left.
Qed.

Lemma filter_partition_length (A : Type) (p : A -> bool) (l : list A) :
  List.length l
  = (List.length (filter p l) + List.length (filter (fun x => negb (p x)) l))%nat.
Proof.
  induction l as [|x l IH]; [reflexivity|].
  cbn [filter]. destruct (p x); cbn [negb List.length]; lia.
Qed.

Section SearchAnswer.
Import FinalSearch StatedSearch FinalSearchRest.
Variable location : Location.
Variable nearby_cities : list string.

Local Abbreviation filter_by_location := (filter_by_location location nearby_cities).
Local Abbreviation search_by_location := (search_by_location location nearby_cities).
Local Abbreviation tier_of := (tier_of location nearby_cities).
Local Abbreviation in_tier := (in_tier location nearby_cities).
Local Abbreviation matched := (matched location nearby_cities).

(** A tier of the answer: sorted, truncated, of one priority, and made of
    input candidates of that tier. *)
Lemma tier_slice (p n : nat) (entry : Organization -> OrgInfo)
  (organizations : list Organization) :
  (forall o, priority (entry o) = p /\ source (entry o) = o) ->
  let slice :=
    firstn n (Py.sort_desc score (map entry (filter (in_tier p) organizations))) in
  StronglySorted tier_then_score slice
  /\ forall i, In i slice ->
       priority i = p /\ In (source i) organizations /\ tier_of (source i) = Some p.
Proof.
  intros Hentry. cbv zeta.
  assert (Hmem : forall i,
             In i (firstn n (Py.sort_desc score
                               (map entry (filter (in_tier p) organizations)))) ->
             priority i = p /\ In (source i) organizations
             /\ tier_of (source i) = Some p).
  { intros i Hi. apply firstn_incl in Hi.
    apply (Permutation_in _ (sort_desc_perm score _)) in Hi.
    apply in_map_iff in Hi. destruct Hi as (o & <- & Ho).
    apply filter_In in Ho. destruct Ho as [Ho Ht].
    destruct (Hentry o) as [-> ->]. repeat split; [exact Ho|].
    unfold StatedSearch.in_tier in Ht.
    destruct (tier_of o) as [q|]; [|discriminate].
    apply Nat.eqb_eq in Ht. now subst. }
  split; [|exact Hmem].
  assert (Hs : StronglySorted (fun a b => score b <= score a)
                 (firstn n (Py.sort_desc score
                              (map entry (filter (in_tier p) organizations)))))
    by (apply StronglySorted_firstn, sort_desc_descending).
  revert Hs Hmem.
  generalize (firstn n (Py.sort_desc score
                          (map entry (filter (in_tier p) organizations)))).
  intros l Hs. induction Hs as [|x l Hs IH Hall]; intro Hmem; constructor.
  - apply IH. intros i Hi. apply Hmem. now right.
  - rewrite Forall_forall in *. intros y Hy. right. split.
    + destruct (Hmem x (or_introl eq_refl)) as [-> _].
      destruct (Hmem y (or_intror Hy)) as [-> _]. reflexivity.
    + now apply Hall.
Qed.

(** X22.  The results of [search_by_location] come ordered by tier and, inside a
    tier, by descending relevance score; every result is an input candidate,
    filed under the priority of the first test it meets. *)
Theorem search_by_location_results_ordered (organizations : list Organization) :
  let r := search_by_location organizations in
  StronglySorted tier_then_score (results r)
  /\ forall i, In i (results r) ->
       In (source i) organizations /\ tier_of (source i) = Some (priority i).
Proof.
  cbv zeta. unfold FinalSearch.search_by_location, sort_tiers.
  cbn [results exact_city same_county same_state].
  destruct (filter_by_location_lists location nearby_cities organizations)
    as (H1 & H2 & H3).
  cbv zeta in H1, H2, H3. rewrite H1, H2, H3.
  destruct (@tier_slice 1 10 (city_entry location) organizations
              ltac:(intros []; split; reflexivity)) as [S1 M1].
  destruct (@tier_slice 2 8 (county_entry location) organizations
              ltac:(intros []; split; reflexivity)) as [S2 M2].
  destruct (@tier_slice 3 2 (state_entry location) organizations
              ltac:(intros []; split; reflexivity)) as [S3 M3].
  cbv zeta in *.
  split.
  - apply StronglySorted_app;
      [exact S1 | apply StronglySorted_app; [exact S2 | exact S3 |] |].
    + intros x y Hx Hy. left.
      destruct (M2 x Hx) as [-> _]. destruct (M3 y Hy) as [-> _]. lia.
    + intros x y Hx Hy. left. destruct (M1 x Hx) as [-> _].
      apply in_app_or in Hy. destruct Hy as [Hy|Hy].
      * destruct (M2 y Hy) as [-> _]. lia.
      * destruct (M3 y Hy) as [-> _]. lia.
  - intros i Hi. apply in_app_or in Hi. destruct Hi as [Hi|Hi].
    + destruct (M1 i Hi) as (-> & ? & ?). auto.
    + apply in_app_or in Hi. destruct Hi as [Hi|Hi].
      * destruct (M2 i Hi) as (-> & ? & ?). auto.
      * destruct (M3 i Hi) as (-> & ? & ?). auto.
Qed.

(** X23.  The counts of the answer are those of the untruncated tiers: together
    with the discarded candidates they add up to the total, while the result
    list holds the first 10, 8 and 2 of them, at most 20 entries. *)
Theorem search_by_location_accounting (organizations : list Organization) :
  let r := search_by_location organizations in
  count_total (counts r)
  = (count_city (counts r) + count_county (counts r) + count_state (counts r)
     + List.length (filter (fun o => negb (matched o)) organizations))%nat
  /\ List.length (results r)
     = (Nat.min 10 (count_city (counts r)) + Nat.min 8 (count_county (counts r))
        + Nat.min 2 (count_state (counts r)))%nat
  /\ (List.length (results r) <= 20)%nat.
Proof.
  cbv zeta. unfold FinalSearch.search_by_location, sort_tiers.
  cbn [results counts count_city count_county count_state count_total
       exact_city same_county same_state].
  destruct (filter_by_location_lists location nearby_cities organizations)
    as (H1 & H2 & H3).
  cbv zeta in H1, H2, H3. rewrite H1, H2, H3.
  rewrite !length_app, !length_firstn, !sort_desc_length, !length_map.
  split; [|lia].
  rewrite (filter_partition_length matched organizations).
  rewrite <- (Permutation_length (tiers_partition_matched location nearby_cities organizations)).
  rewrite !length_app. lia.
Qed.

End SearchAnswer.

Section SearchMessage.
Import FinalSearch StatedSearch FinalSearchRest.
Variable str_nat : nat -> string.
Variable location : Location.
Variable nearby_cities : list string.
Variable keyword : string.

Lemma location_message_none (t : Tiers) :
  location_message str_nat location keyword t
  = ("No local '" ++ keyword ++ "' organizations found")%string
  <-> exact_city t = [] /\ same_county t = [] /\ same_state t = [].
Proof.
  unfold location_message.
  destruct (exact_city t) as [|e es]; [|split; [cbn; discriminate | intros [? _]; discriminate]].
  destruct (same_county t) as [|c cs];
    [|split; [cbn; discriminate | intros (_ & ? & _); discriminate]].
  destruct (same_state t) as [|s ss];
    [|split; [cbn; discriminate | intros (_ & _ & ?); discriminate]].
  split; auto.
Qed.

(** X24.  The answer of [search_by_location] has no results exactly when its
    message is the [No local ... organizations found] one, and exactly when
    the three tier counts are 0. *)
Theorem search_by_location_empty_answer (organizations : list Organization) :
  let r := search_by_location location nearby_cities organizations in
  (results r = [] <->
   search_by_location_message str_nat location nearby_cities keyword organizations
   = ("No local '" ++ keyword ++ "' organizations found")%string)
  /\ (results r = [] <->
      count_city (counts r) = 0%nat /\ count_county (counts r) = 0%nat
      /\ count_state (counts r) = 0%nat).
Proof.
  cbv zeta. unfold search_by_location_message. rewrite location_message_none.
  unfold FinalSearch.search_by_location.
  cbn [results counts count_city count_county count_state].
  set (t := sort_tiers (filter_by_location location nearby_cities organizations)).
  assert (Hres : firstn 10 (exact_city t) ++ firstn 8 (same_county t)
                   ++ firstn 2 (same_state t) = []
                 <-> exact_city t = [] /\ same_county t = [] /\ same_state t = []).
  { split.
    - intro H. apply app_eq_nil in H. destruct H as [H1 H23].
      apply app_eq_nil in H23. destruct H23 as [H2 H3].
      destruct (exact_city t); [|discriminate].
      destruct (same_county t); [|discriminate].
      destruct (same_state t); [|discriminate]. auto.
    - intros (-> & -> & ->). reflexivity. }
  split; [exact Hres|].
  rewrite Hres.
  split.
  - intros (-> & -> & ->). auto.
  - intros (H1 & H2 & H3).
    apply length_zero_iff_nil in H1. apply length_zero_iff_nil in H2.
    apply length_zero_iff_nil in H3. auto.
Qed.

End SearchMessage.

(** ** The response cache *)

Section CacheFacts.
Import FinalSearchRest.
Variable D W : Type.

Local Abbreviation cache := (cache D).

Lemma store_same (c : cache) (k : string) (e : D * Q) : store c k e k = Some e.
Proof. unfold store. now rewrite String.eqb_refl. Qed.

Lemma store_other (c : cache) (k k' : string) (e : D * Q) :
  k' <> k -> store c k e k' = c k'.
Proof.
  intro H. unfold store. destruct (String.eqb_spec k' k); [contradiction | reflexivity].
Qed.

Lemma cache_hit_aux (c : cache) (w : W) (now now' : Q) (key : string)
  (fetch_func : W -> D * W) (data : D) (timestamp : Q) :
  c key = Some (data, timestamp) ->
  now - timestamp < 3600 ->
  get_cached_or_fetch c w now now' key fetch_func = (data, c, w).
Proof.
  intros Hc Hage. unfold get_cached_or_fetch. rewrite Hc.
  apply Qlt_bool_iff in Hage. unfold CACHE_DURATION. now rewrite Hage.
Qed.

(** X25.  A call that finds no entry, or one that is 3600 seconds old or older,
    fetches once, returns the fetched data and stores it under the key with
    the time of storing; the entries of all other keys stay as they were. *)
Theorem cache_miss_fetches_and_stores (c : cache) (w : W) (now now' : Q)
  (key : string) (fetch_func : W -> D * W) :
  (c key = None
   \/ exists data timestamp, c key = Some (data, timestamp) /\ 3600 <= now - timestamp) ->
  let '(data, c', w') := get_cached_or_fetch c w now now' key fetch_func in
  (data, w') = fetch_func w
  /\ c' key = Some (data, now')
  /\ forall k, k <> key -> c' k = c k.
Proof.
  intro H. unfold get_cached_or_fetch.
  assert (Hre :
    match c key with
    | Some (cached_data, timestamp) =>
        if Py.Qlt_bool (now - timestamp) CACHE_DURATION
        then (cached_data, c, w)
        else let '(data, w') := fetch_func w in (data, store c key (data, now'), w')
    | None => let '(data, w') := fetch_func w in (data, store c key (data, now'), w')
    end
    = let '(data, w') := fetch_func w in (data, store c key (data, now'), w')).
  { destruct H as [->|(d & ts & -> & Hold)]; [reflexivity|].
    apply Qlt_bool_false_iff in Hold. unfold CACHE_DURATION. now rewrite Hold. }
  rewrite Hre. destruct (fetch_func w) as [data w'].
  repeat split; [apply store_same | intros k Hk; now apply store_other].
Qed.

(** X26.  Within the time to live a repeated call is idempotent: after any call,
    a second call for the same key made less than 3600 seconds after the
    entry was stored returns the same data and fetches nothing. *)
Theorem cache_repeat_within_ttl (c : cache) (w : W) (now1 now1' now2 now2' : Q)
  (key : string) (fetch1 fetch2 : W -> D * W) :
  let '(data, c1, w1) := get_cached_or_fetch c w now1 now1' key fetch1 in
  exists timestamp,
    c1 key = Some (data, timestamp)
    /\ (now2 - timestamp < 3600 ->
        get_cached_or_fetch c1 w1 now2 now2' key fetch2 = (data, c1, w1)).
Proof.
  unfold get_cached_or_fetch at 1.
  destruct (c key) as [[d ts]|] eqn:Hc.
  - destruct (Py.Qlt_bool (now1 - ts) CACHE_DURATION) eqn:E.
    + exists ts. split; [exact Hc|]. intro Hage. now apply cache_hit_aux with (timestamp := ts).
    + destruct (fetch1 w) as [data w']. exists now1'. split; [apply store_same|].
      intro Hage. apply cache_hit_aux with (timestamp := now1'); [apply store_same | exact Hage].
  - destruct (fetch1 w) as [data w']. exists now1'. split; [apply store_same|].
    intro Hage. apply cache_hit_aux with (timestamp := now1'); [apply store_same | exact Hage].
Qed.

End CacheFacts.

Lemma cache_miss_fetches_and_stores_witness :
  fst (fst (FinalSearchRest.get_cached_or_fetch (fun _ => None) 0%nat 10 11
              "search:food" (fun w : nat => (w, S w))))
  = 0%nat.
Proof.
  pose proof (@cache_miss_fetches_and_stores nat nat (fun _ => None) 0%nat 10 11
                "search:food"%string (fun w : nat => (w, S w))
                (or_introl eq_refl)) as H.
  destruct (FinalSearchRest.get_cached_or_fetch (fun _ => None) 0%nat 10 11
              "search:food" (fun w : nat => (w, S w))) as [[d c'] w'].
  destruct H as [H _]. cbn in *. congruence.
Defined.

(** ** The fallback search by ZIP lookup *)

Section SortAscFacts.
Variable A : Type.
Variable key : A -> nat.

Lemma insert_asc_perm (x : A) (l : list A) :
  Permutation (PyMore.insert_asc key x l) (x :: l).
Proof.
  induction l as [|y r IH]; cbn; [reflexivity|].
  destruct (key x <=? key y)%nat; [reflexivity|].
  rewrite IH. apply perm_swap.
Qed.

Lemma sort_asc_perm (l : list A) : Permutation (PyMore.sort_asc key l) l.
Proof.
  induction l as [|x r IH]; cbn; [reflexivity|].
  rewrite insert_asc_perm. now constructor.
Qed.

Lemma insert_asc_ascending (x : A) (l : list A) :
  PyMore.ascending key l -> PyMore.ascending key (PyMore.insert_asc key x l).
Proof.
  unfold PyMore.ascending. induction l as [|y r IH]; cbn; intro Hs.
  - constructor; constructor.
  - destruct (key x <=? key y)%nat eqn:E.
    + apply Nat.leb_le in E. constructor; [assumption|].
      inversion Hs as [|? ? Hr Hall]; subst. constructor; [assumption|].
      rewrite Forall_forall in *. intros z Hz. specialize (Hall z Hz). lia.
    + apply Nat.leb_gt in E.
      inversion Hs as [|? ? Hr Hall]; subst. constructor; [now apply IH|].
      rewrite Forall_forall in *. intros z Hz.
      apply (Permutation_in _ (insert_asc_perm x r)) in Hz.
      destruct Hz as [<-|Hz]; [lia | now apply Hall].
Qed.

Lemma sort_asc_ascending (l : list A) : PyMore.ascending key (PyMore.sort_asc key l).
Proof.
  induction l as [|x r IH]; cbn; [constructor|].
  now apply insert_asc_ascending.
Qed.

Lemma insert_asc_stable (p : nat) (x : A) (l : list A) :
  filter (fun a => Nat.eqb (key a) p) (PyMore.insert_asc key x l)
  = filter (fun a => Nat.eqb (key a) p) (x :: l).
Proof.
  induction l as [|y r IH]; [reflexivity|].
  cbn [PyMore.insert_asc]. destruct (key x <=? key y)%nat eqn:E; [reflexivity|].
  cbn [filter] in *. rewrite IH.
  destruct (Nat.eqb (key x) p) eqn:Ex; [|reflexivity].
  destruct (Nat.eqb (key y) p) eqn:Ey; [|reflexivity].
  apply Nat.eqb_eq in Ex, Ey. apply Nat.leb_gt in E. lia.
Qed.

Lemma sort_asc_stable (p : nat) (l : list A) :
  filter (fun a => Nat.eqb (key a) p) (PyMore.sort_asc key l)
  = filter (fun a => Nat.eqb (key a) p) l.
Proof.
  induction l as [|x r IH]; [reflexivity|].
  cbn [PyMore.sort_asc]. rewrite insert_asc_stable. cbn [filter]. now rewrite IH.
Qed.

End SortAscFacts.

Section Fallback.
Import FinalSearch FinalSearchRest.
Variable zip_info : ZipInfo.

(** X27.  The fallback search drops no candidate: its results are the first
    twenty registry entries, each once, sorted by priority 1 (the city of the
    ZIP code occurs in the candidate's city, letter case aside), 2 (same
    state) and 3 (elsewhere), and in registry order inside a priority. *)
Theorem fallback_results_keep_all (organizations : list Organization) :
  let results := fallback_results zip_info organizations in
  let entries := map (fallback_info zip_info) (firstn 20 organizations) in
  Permutation results entries
  /\ PyMore.ascending fb_priority results
  /\ (forall p, filter (fun i => Nat.eqb (fb_priority i) p) results
                = filter (fun i => Nat.eqb (fb_priority i) p) entries)
  /\ List.length results = Nat.min 20 (List.length organizations)
  /\ (forall i, In i results ->
        (fb_priority i = 1%nat <->
         Py.contains (Py.lower (zip_city zip_info)) (Py.lower (fb_city i)) = true)
        /\ (1 <= fb_priority i <= 3)%nat).
Proof.
  cbv zeta. unfold fallback_results. cbv zeta.
  set (entries := map (fallback_info zip_info) (firstn 20 organizations)).
  assert (Hlen : List.length (PyMore.sort_asc fb_priority entries)
                 = Nat.min 20 (List.length organizations)).
  { rewrite (Permutation_length (sort_asc_perm fb_priority entries)).
    subst entries. now rewrite length_map, length_firstn. }
  rewrite firstn_all2 by lia.
  split; [apply sort_asc_perm|]. split; [apply sort_asc_ascending|].
  split; [intro p; apply sort_asc_stable|]. split; [exact Hlen|].
  intros i Hi. apply (Permutation_in _ (sort_asc_perm fb_priority entries)) in Hi.
  subst entries. apply in_map_iff in Hi. destruct Hi as (o & <- & _).
  unfold fallback_info.
  destruct (Py.contains (Py.lower (zip_city zip_info)) (Py.lower (org_city o))) eqn:E;
    cbn [fb_priority fb_city]; rewrite ?E.
  - split; [tauto | lia].
  - destruct (String.eqb (org_state o) (zip_state_abbr zip_info));
      cbn [fb_priority fb_city]; rewrite ?E;
      (split; [split; intro H; discriminate | lia]).
Qed.

End Fallback.

(** ** The static ZIP table *)

Section ZipTable.
Import FinalSearch StatedSearch FinalSearchRest.
Variable items : zip_items.

Lemma insert_unique_in (x y : string) (l : list string) :
  In y (insert_unique x l) <-> y = x \/ In y l.
Proof.
  induction l as [|z r IH]; cbn [insert_unique].
  - cbn. intuition.
  - destruct (String.compare x z) eqn:E.
    + apply String.compare_eq_iff in E. subst z. cbn. intuition.
    + cbn. intuition.
    + cbn [In]. rewrite IH. intuition.
Qed.

Lemma sorted_set_in (y : string) (xs : list string) : In y (sorted_set xs) <-> In y xs.
Proof.
  unfold sorted_set. induction xs as [|x xs IH]; cbn [fold_right]; [reflexivity|].
  rewrite insert_unique_in, IH. cbn. intuition.
Qed.

Lemma cities_in_county_in (county st c : string) :
  In c (get_cities_in_county items county st)
  <-> exists zip_code, In (zip_code, (c, county, st)) items.
Proof.
  unfold get_cities_in_county. cbv zeta. rewrite sorted_set_in, in_map_iff.
  split.
  - intros ([z [[c' co] s]] & <- & H). apply filter_In in H. cbn in H.
    destruct H as [Hin Hb]. apply andb_true_iff in Hb. destruct Hb as [H1 H2].
    apply String.eqb_eq in H1, H2. subst. now exists z.
  - intros [z Hin]. exists (z, (c, county, st)). split; [reflexivity|].
    apply filter_In. split; [exact Hin|]. cbn. now rewrite !String.eqb_refl.
Qed.

(** The cities [get_cities_in_county] lists are exactly the cities the table
    gives to some ZIP code of that county and state: none is invented, none
    is missed, and an unknown county has no cities. *)
Lemma cities_in_county_membership (county st c : string) :
  In c (get_cities_in_county items county st)
  <-> exists zip_code, In (zip_code, (c, county, st)) items.
Proof. apply cities_in_county_in. Qed.

(** X28.  A ZIP code resolves exactly when the table has an entry for it, and the
    resolved city is always among the cities listed for the resolved county
    and state. *)
Theorem resolved_city_is_listed (zip_code : string) :
  (get_location_from_zip items zip_code = None
   <-> forall entry, In entry items -> fst entry <> zip_code)
  /\ forall loc, get_location_from_zip items zip_code = Some loc ->
       In (zip_code, (loc_city loc, loc_county loc, loc_state loc)) items
       /\ In (loc_city loc)
            (get_cities_in_county items (loc_county loc) (loc_state loc)).
Proof.
  unfold get_location_from_zip.
  destruct (find (fun kv => String.eqb (fst kv) zip_code) items)
    as [[z [[c co] s]]|] eqn:E.
  - apply find_some in E. destruct E as [Hin Hz]. cbn in Hz.
    apply String.eqb_eq in Hz. subst z. split.
    + split; [discriminate|]. intro H. exfalso. now apply (H _ Hin).
    + intros loc [= <-]. cbn. split; [exact Hin|].
      apply cities_in_county_in. now exists zip_code.
  - split; [|discriminate]. split; [|reflexivity].
    intros _ entry Hin Heq. pose proof (find_none _ _ E entry Hin) as Hf.
    cbn in Hf. apply String.eqb_neq in Hf. contradiction.
Qed.

(** X29.  With the city list of the resolved county, a candidate whose city is
    spelled as the table spells a city of that county is never left to the
    state tier or discarded: it is filed in the exact-city or the county
    tier. *)
Theorem table_city_candidates_are_local
  (location : Location) (organizations : list Organization)
  (org : Organization) (zip_code : string) :
  In org organizations ->
  In (zip_code, (org_city org, loc_county location, loc_state location)) items ->
  let nearby_cities :=
    get_cities_in_county items (loc_county location) (loc_state location) in
  let t := filter_by_location location nearby_cities organizations in
  In org (map source (exact_city t)) \/ In org (map source (same_county t)).
Proof.
  intros Horg Hin. cbv zeta.
  set (nearby := get_cities_in_county items (loc_county location) (loc_state location)).
  destruct (filter_by_location_lists location nearby organizations) as (H1 & H2 & _).
  cbv zeta in H1, H2. rewrite H1, H2.
  destruct (source_entries location (filter (in_tier location nearby 1) organizations))
    as (-> & _ & _).
  destruct (source_entries location (filter (in_tier location nearby 2) organizations))
    as (_ & -> & _).
  assert (Hmem : Py.str_in (org_city org) nearby = true).
  { unfold Py.str_in. apply existsb_exists. exists (org_city org).
    split; [|apply String.eqb_refl].
    apply cities_in_county_in. now exists zip_code. }
  destruct (Py.truthy (loc_city location)
            && String.eqb (Py.lower (loc_city location)) (Py.lower (org_city org)))
    eqn:E.
  - left. apply filter_In. split; [exact Horg|].
    unfold StatedSearch.in_tier, StatedSearch.tier_of. now rewrite E.
  - right. apply filter_In. split; [exact Horg|].
    unfold StatedSearch.in_tier, StatedSearch.tier_of. now rewrite E, Hmem.
Qed.

End ZipTable.

Lemma table_city_candidates_are_local_witness :
  let org := StatedSearch.candidate "7" "Irving" "TX" 9 in
  let t := FinalSearch.filter_by_location StatedSearch.dallas
             (FinalSearchRest.get_cities_in_county Samples.dallas_items
                "Dallas County" "TX") [org] in
  In org (map FinalSearch.source (FinalSearch.exact_city t))
  \/ In org (map FinalSearch.source (FinalSearch.same_county t)).
Proof.
  apply (@table_city_candidates_are_local Samples.dallas_items StatedSearch.dallas
           [StatedSearch.candidate "7" "Irving" "TX" 9]
           (StatedSearch.candidate "7" "Irving" "TX" 9) "75038"%string).
  - now left.
  - cbn. auto 6.
Defined.

(** The sample entries give Dallas County the cities used above. *)
Example dallas_county_cities_from_table :
  FinalSearchRest.get_cities_in_county Samples.dallas_items "Dallas County" "TX"
  = StatedSearch.dallas_county_cities.
Proof. reflexivity. Qed.

(** ** The query parser *)

Section Routing.
Import FinalSearch FinalSearchRest FinalSearchRouting.

Lemma truthy_app (a b : string) : Py.truthy a = true -> Py.truthy (a ++ b) = true.
Proof. destruct a; [discriminate | reflexivity]. Qed.

Lemma truthy_app_r (a : string) (c : ascii) :
  Py.truthy (a ++ String c EmptyString) = true.
Proof. destruct a; reflexivity. Qed.

Lemma split_from_tokens (s cur : string) :
  Forall (fun t => Py.truthy t = true) (split_from s cur).
Proof.
  revert cur. induction s as [|c r IH]; intro cur; cbn [split_from].
  - destruct (Py.truthy cur) eqn:E; constructor; [exact E | constructor].
  - destruct (is_space c); [|apply IH].
    destruct (Py.truthy cur) eqn:E; [constructor; [exact E | apply IH] | apply IH].
Qed.

Lemma join_truthy (sep p : string) (rest : list string) :
  Py.truthy p = true -> Py.truthy (Py.join sep (p :: rest)) = true.
Proof.
  intro H. cbn [Py.join]. destruct rest; [exact H | now apply truthy_app].
Qed.

(** X30.  What [geographic_search] does with a query: a ZIP search only when the
    first word of the query is five digits, and then with a keyword that is
    never empty (the rest of the words joined by single spaces, or
    [nonprofit] when there is none), by location exactly when the table knows
    the ZIP code; a keyword search of the unchanged query otherwise. *)
Theorem geographic_search_routes (items : zip_items) (query : string) :
  match geographic_search items query with
  | ByLocation location keyword zip_code =>
      String.length zip_code = 5%nat /\ isdigit zip_code = true
      /\ get_location_from_zip items zip_code = Some location
      /\ Py.truthy keyword = true
      /\ exists rest, split query = zip_code :: rest
                      /\ keyword = match rest with
                                   | [] => "nonprofit"%string
                                   | _ => Py.join " " rest
                                   end
  | ApiFallback zip_code keyword =>
      String.length zip_code = 5%nat /\ isdigit zip_code = true
      /\ get_location_from_zip items zip_code = None
      /\ Py.truthy keyword = true
      /\ exists rest, split query = zip_code :: rest
                      /\ keyword = match rest with
                                   | [] => "nonprofit"%string
                                   | _ => Py.join " " rest
                                   end
  | KeywordSearch keyword =>
      keyword = query
      /\ forall p0 rest, split query = p0 :: rest ->
           String.length p0 <> 5%nat \/ isdigit p0 = false
  end.
Proof.
  unfold geographic_search. cbv zeta.
  pose proof (split_from_tokens query EmptyString) as Htok. fold (split query) in Htok.
  destruct (split query) as [|p0 rest] eqn:Es.
  - split; [reflexivity | discriminate].
  - destruct ((String.length p0 =? 5)%nat && isdigit p0) eqn:E.
    + apply andb_true_iff in E. destruct E as [E1 E2]. apply Nat.eqb_eq in E1.
      assert (Hkw : Py.truthy match rest with
                              | [] => "nonprofit"%string
                              | _ => Py.join " " rest
                              end = true).
      { inversion Htok as [|? ? _ Hrest]; subst.
        destruct rest as [|p1 rest']; [reflexivity|].
        inversion Hrest; subst. now apply join_truthy. }
      destruct (get_location_from_zip items p0) as [loc|] eqn:El;
        (repeat split; auto; exists rest; auto).
    + split; [reflexivity|]. intros p rest' [= <- <-].
      apply andb_false_iff in E. destruct E as [E|E]; [left | now right].
      now apply Nat.eqb_neq.
Qed.

End Routing.

(** The query [75201 food bank] against the sample entries. *)
Example geographic_search_sample :
  FinalSearchRouting.geographic_search Samples.dallas_items "75201 food  bank"
  = FinalSearchRouting.ByLocation StatedSearch.dallas "food bank" "75201"
  /\ FinalSearchRouting.geographic_search Samples.dallas_items "99999"
     = FinalSearchRouting.ApiFallback "99999" "nonprofit"
  /\ FinalSearchRouting.geographic_search Samples.dallas_items "food bank 75201"
     = FinalSearchRouting.KeywordSearch "food bank 75201".
Proof. repeat split. Qed.
